(** * Agentic trading system: the portfolio ledger and the decision aggregator

    A shallow embedding of [agentic_trading_system/portfolio_manager.py],
    [main_agent.py] (the decision-combination part), [models.py] and
    [config.py], followed by the properties of the ledger and of the
    aggregator.

    Numbers.  Python [int] is [Z].  Python [float] is modelled by the exact
    rationals [Q] of the Standard Library: every product, sum and quotient
    is the exact one, and rounding of binary floating point is not part of
    the model.  [Q] is compared with [==] ([Qeq]); a division by zero raises
    [ZeroDivisionError] as in Python and is written out at each division the
    source does not guard.  Every number of the model is finite: the float
    values [nan] and [inf], an overflow to them, and the [OverflowError] or
    [ValueError] that [int()] raises on them (and [int * float] on an
    integer beyond the float range) are outside the model, and every
    statement below is about finite numbers whose results stay finite.

    Dictionaries.  [holdings] is a Python dict keyed by symbol: a [gmap].
    The code iterates it only to add up values, and in exact arithmetic
    the sum does not depend on the order.

    Effects.  [PortfolioManager] is a mutable object: its methods are
    functions in a small state-and-exception monad over the record of its
    attributes.  An exception keeps the attributes as they were mutated up
    to the raise, as in Python. *)

From Stdlib Require Import QArith ZArith Lia Lqa List.
From stdpp Require Import gmap strings list fin_maps.

Local Open Scope Z_scope.
Local Open Scope Q_scope.

(** ** Python values *)

(** [int(x)] on a finite float: truncation toward zero.  (On [inf] and
    [nan] Python's [int()] raises; the model has no such values.) *)
Definition py_int (x : Q) : Z := Z.quot (Qnum x) (Z.pos (Qden x)).

(** Truthiness of an [Optional[float]]: [None] and [0.0] are false. *)
Definition truthy_float (o : option Q) : bool :=
  match o with
  | Some x => negb (Qeq_bool x 0)
  | None => false
  end.

(** Truthiness of an [Optional[int]]: [None] and [0] are false. *)
Definition truthy_int (o : option Z) : bool :=
  match o with
  | Some n => negb (n =? 0)%Z
  | None => false
  end.

(** [o or d] for an [Optional[float]] [o]. *)
Definition float_or (o : option Q) (d : Q) : Q :=
  match o with
  | Some x => if Qeq_bool x 0 then d else x
  | None => d
  end.

(** [a > b], [a < b], [a <= b] and [a >= b] on floats, as booleans. *)
Definition Qgtb (a b : Q) : bool := negb (Qle_bool a b).
Definition Qltb (a b : Q) : bool := negb (Qle_bool b a).
Definition Qleb (a b : Q) : bool := Qle_bool a b.
Definition Qgeb (a b : Q) : bool := Qle_bool b a.

(** [max(a, b)] and [min(a, b)] on floats: the first argument wins ties. *)
Definition py_max (a b : Q) : Q := if Qgtb b a then b else a.
Definition py_min (a b : Q) : Q := if Qltb b a then b else a.

(** The exception the model tracks: the one a division by zero raises.
    It is the only exception the modelled code raises on finite numbers
    within the float range. *)
Inductive exn := ZeroDivisionError.

(** ** models.py *)

Inductive ActionType := BUY | SELL | HOLD | ANALYZE | GET_DATA.

Inductive DecisionType :=
  DT_STRONG_BUY | DT_BUY | DT_HOLD | DT_SELL | DT_STRONG_SELL.

Inductive RiskLevel := VERY_LOW | LOW | MEDIUM | HIGH | VERY_HIGH.

Inductive AgentType :=
  TECHNICAL | SECTOR | RISK | ML | PORTFOLIO | MAIN.

#[global] Instance ActionType_eq_dec : EqDecision ActionType.
Proof. solve_decision. Defined.
#[global] Instance DecisionType_eq_dec : EqDecision DecisionType.
Proof. solve_decision. Defined.
#[global] Instance RiskLevel_eq_dec : EqDecision RiskLevel.
Proof. solve_decision. Defined.

Module TradeRequest.
Record t := mk {
  action : ActionType;
  symbol : string;
  quantity : option Z;
  percentage : option Q;
  price : option Q;
  stop_loss : option Q;
  take_profit : option Q;
  reason : option string;
  confidence : option Q
}.
End TradeRequest.

Module Holding.
Record t := mk {
  symbol : string;
  quantity : Z;
  avg_price : Q;
  current_price : Q;
  current_value : Q;
  unrealized_pnl : Q;
  unrealized_pnl_percentage : Q;
  percentage_of_portfolio : Q
}.

Definition set_quantity (h : t) (v : Z) : t :=
  mk (symbol h) v (avg_price h) (current_price h) (current_value h)
     (unrealized_pnl h) (unrealized_pnl_percentage h)
     (percentage_of_portfolio h).
Definition set_avg_price (h : t) (v : Q) : t :=
  mk (symbol h) (quantity h) v (current_price h) (current_value h)
     (unrealized_pnl h) (unrealized_pnl_percentage h)
     (percentage_of_portfolio h).
Definition set_current_price (h : t) (v : Q) : t :=
  mk (symbol h) (quantity h) (avg_price h) v (current_value h)
     (unrealized_pnl h) (unrealized_pnl_percentage h)
     (percentage_of_portfolio h).
Definition set_current_value (h : t) (v : Q) : t :=
  mk (symbol h) (quantity h) (avg_price h) (current_price h) v
     (unrealized_pnl h) (unrealized_pnl_percentage h)
     (percentage_of_portfolio h).
Definition set_unrealized_pnl (h : t) (v : Q) : t :=
  mk (symbol h) (quantity h) (avg_price h) (current_price h)
     (current_value h) v (unrealized_pnl_percentage h)
     (percentage_of_portfolio h).
Definition set_unrealized_pnl_percentage (h : t) (v : Q) : t :=
  mk (symbol h) (quantity h) (avg_price h) (current_price h)
     (current_value h) (unrealized_pnl h) v (percentage_of_portfolio h).
Definition set_percentage_of_portfolio (h : t) (v : Q) : t :=
  mk (symbol h) (quantity h) (avg_price h) (current_price h)
     (current_value h) (unrealized_pnl h) (unrealized_pnl_percentage h) v.
End Holding.

(** One entry of [PortfolioState.holdings]: the dictionary with the seven
    keys that [get_portfolio_state] builds for a holding. *)
Module HoldingEntry.
Record t := mk {
  quantity : Z;
  avg_price : Q;
  current_price : Q;
  current_value : Q;
  unrealized_pnl : Q;
  unrealized_pnl_percentage : Q;
  percentage_of_portfolio : Q
}.
End HoldingEntry.

Module PortfolioState.
Record t := mk {
  total_budget : Q;
  available_cash : Q;
  total_value : Q;
  holdings : gmap string HoldingEntry.t;
  total_pnl : Q;
  total_pnl_percentage : Q
}.
End PortfolioState.

Module AgentDecision.
Record t := mk {
  agent_type : AgentType;
  decision : DecisionType;
  confidence : Q;
  reasoning : string;
  recommendations : list string;
  risk_assessment : option RiskLevel;
  position_size : option Q
}.
End AgentDecision.

(** [AnalysisData]: of its fields the modelled code reads [symbol] and
    [current_price] only. *)
Module AnalysisData.
Record t := mk {
  symbol : string;
  current_price : Q
}.
End AnalysisData.

(** [MainAgentDecision].  The [reasoning] text, which renders floats with
    [:.1f], is left out; [quantity], [percentage] and [price] keep their
    default [None]. *)
Module MainAgentDecision.
Record t := mk {
  final_action : ActionType;
  symbol : string;
  quantity : option Z;
  percentage : option Q;
  price : option Q;
  confidence : Q;
  agent_decisions : list AgentDecision.t;
  risk_assessment : RiskLevel;
  position_size : Q;
  stop_loss : option Q;
  take_profit : option Q;
  next_interval : option string
}.
End MainAgentDecision.

(** ** config.py *)

Module TradingConfig.
Definition INITIAL_BUDGET : Q := 100000.
Definition MAX_POSITION_SIZE : Q := 3 # 10.
Definition MIN_POSITION_SIZE : Q := 5 # 100.
Definition BUY_CONFIDENCE_THRESHOLD : Q := 70.
Definition SELL_CONFIDENCE_THRESHOLD : Q := 60.
Definition HOLD_CONFIDENCE_THRESHOLD : Q := 40.
Definition STOP_LOSS_PERCENTAGE : Q := 5 # 100.
Definition TAKE_PROFIT_PERCENTAGE : Q := 15 # 100.
(** [DATA_INTERVALS], in minutes. *)
Definition DATA_INTERVALS : gmap string Z :=
  <["1min" := 1%Z]> (<["5min" := 5%Z]> (<["15min" := 15%Z]>
  (<["30min" := 30%Z]> (<["1hour" := 60%Z]> (<["1day" := 1440%Z]> ∅))))).
End TradingConfig.

(** ** The state-and-exception monad of a mutable object *)

Inductive outcome (S A : Type) :=
| Ret (a : A) (s : S)
| Raise (e : exn) (s : S).
Arguments Ret {S A} a s.
Arguments Raise {S A} e s.

Definition M (S A : Type) : Type := S -> outcome S A.

Definition raise {S A} (e : exn) : M S A := fun s => Raise e s.
Definition get {S} : M S S := fun s => Ret s s.
Definition modify {S} (f : S -> S) : M S unit := fun s => Ret tt (f s).

#[global] Instance M_ret {S} : MRet (M S) := fun A a s => Ret a s.
#[global] Instance M_bind {S} : MBind (M S) := fun A B k c s =>
  match c s with
  | Ret a s' => k a s'
  | Raise e s' => Raise e s'
  end.

(** The attributes after a call, whether it returned or raised. *)
Definition state_of {S A} (o : outcome S A) : S :=
  match o with Ret _ s => s | Raise _ s => s end.

(** The returned value, if the call returned. *)
Definition value_of {S A} (o : outcome S A) : option A :=
  match o with Ret a _ => Some a | Raise _ _ => None end.

(** ** portfolio_manager.py *)

(** The second component of the [(bool, str)] pairs the manager returns.
    The texts embed numbers rendered with [:.2f]; the model keeps which
    text it is and, for the two success texts, the values it renders. *)
Inductive message :=
| MsgOK                    (* "OK" *)
| MsgInsufficientCash      (* "Insufficient cash. Need ..., have ..." *)
| MsgPositionTooLarge      (* "Position too large. ...% exceeds ...% limit" *)
| MsgPositionTooSmall      (* "Position too small. ...% below ...% minimum" *)
| MsgNoHoldings            (* "No holdings in ..." *)
| MsgInsufficientHoldings  (* "Insufficient holdings. Need ..., have ..." *)
| MsgInvalidActionBuy      (* "Invalid action for buy execution" *)
| MsgInvalidPriceBuy       (* "Invalid price for buy order" *)
| MsgInvalidActionSell     (* "Invalid action for sell execution" *)
| MsgInvalidPriceSell      (* "Invalid price for sell order" *)
| MsgMustSpecify           (* "Must specify either quantity or percentage" *)
| MsgBought (quantity : Z) (symbol : string) (price : Q)
| MsgSold (quantity : Z) (symbol : string) (price : Q) (realized_pnl : Q).

(** The dictionary [get_holding_summary] returns. *)
Module HoldingSummary.
Record t := mk {
  symbol : string;
  quantity : Z;
  avg_price : Q;
  current_price : Q;
  current_value : Q;
  unrealized_pnl : Q;
  unrealized_pnl_percentage : Q;
  percentage_of_portfolio : Q
}.
End HoldingSummary.

(** The dictionary [get_portfolio_summary] returns. *)
Module PortfolioSummary.
Record t := mk {
  total_budget : Q;
  available_cash : Q;
  total_value : Q;
  total_pnl : Q;
  total_pnl_percentage : Q;
  num_holdings : nat;
  holdings : list (option HoldingSummary.t);
  cash_percentage : Q
}.
End PortfolioSummary.

Module PortfolioManager.

(** The attributes of a [PortfolioManager] instance. *)
Record t := mk {
  initial_budget : Q;
  available_cash : Q;
  holdings : gmap string Holding.t;
  trade_history : list TradeRequest.t;
  total_pnl : Q;
  total_pnl_percentage : Q
}.

Definition set_available_cash (self : t) (v : Q) : t :=
  mk (initial_budget self) v (holdings self) (trade_history self)
     (total_pnl self) (total_pnl_percentage self).
Definition set_holdings (self : t) (v : gmap string Holding.t) : t :=
  mk (initial_budget self) (available_cash self) v (trade_history self)
     (total_pnl self) (total_pnl_percentage self).
Definition set_trade_history (self : t) (v : list TradeRequest.t) : t :=
  mk (initial_budget self) (available_cash self) (holdings self) v
     (total_pnl self) (total_pnl_percentage self).
Definition set_total_pnl (self : t) (v : Q) : t :=
  mk (initial_budget self) (available_cash self) (holdings self)
     (trade_history self) v (total_pnl_percentage self).
Definition set_total_pnl_percentage (self : t) (v : Q) : t :=
  mk (initial_budget self) (available_cash self) (holdings self)
     (trade_history self) (total_pnl self) v.

(** [__init__]: [initial_budget or TradingConfig.INITIAL_BUDGET]. *)
Definition init (initial_budget : option Q) : t :=
  let b := float_or initial_budget TradingConfig.INITIAL_BUDGET in
  mk b b ∅ [] 0 0.

Definition entry_of (holding : Holding.t) : HoldingEntry.t :=
  HoldingEntry.mk (Holding.quantity holding) (Holding.avg_price holding)
    (Holding.current_price holding) (Holding.current_value holding)
    (Holding.unrealized_pnl holding)
    (Holding.unrealized_pnl_percentage holding)
    (Holding.percentage_of_portfolio holding).

(** The loop [total_value += holding.current_value] over the holdings. *)
Definition sum_current_value (start : Q) (hs : gmap string Holding.t) : Q :=
  map_fold (fun _ holding acc => acc + Holding.current_value holding) start hs.

(** [get_portfolio_state].  It stores [total_pnl_percentage] into the
    manager when [total_invested > 0] and returns the stored attribute. *)
Definition get_portfolio_state : M t PortfolioState.t :=
  self ← get;
  let total_value := sum_current_value (available_cash self) (holdings self) in
  let holdings_dict := entry_of <$> holdings self in
  let total_invested := initial_budget self - available_cash self in
  (if Qgtb total_invested 0
   then modify (fun self =>
          set_total_pnl_percentage self
            ((total_pnl self / total_invested) * 100))
   else mret tt);;
  self ← get;
  mret (PortfolioState.mk (initial_budget self) (available_cash self)
          total_value holdings_dict (total_pnl self)
          (total_pnl_percentage self)).

(** [update_holding_price]. *)
Definition update_holding_price (symbol : string) (current_price : Q)
  : M t unit :=
  self ← get;
  match holdings self !! symbol with
  | Some holding =>
      let holding := Holding.set_current_price holding current_price in
      let holding := Holding.set_current_value holding
        (inject_Z (Holding.quantity holding) * current_price) in
      let holding := Holding.set_unrealized_pnl holding
        (Holding.current_value holding
         - inject_Z (Holding.quantity holding) * Holding.avg_price holding) in
      let holding :=
        if Qgtb (inject_Z (Holding.quantity holding) * Holding.avg_price holding) 0
        then Holding.set_unrealized_pnl_percentage holding
               ((Holding.unrealized_pnl holding
                 / (inject_Z (Holding.quantity holding)
                    * Holding.avg_price holding)) * 100)
        else holding in
      modify (fun self => set_holdings self (<[symbol := holding]> (holdings self)));;
      portfolio_state ← get_portfolio_state;
      if Qgtb (PortfolioState.total_value portfolio_state) 0
      then
        let holding := Holding.set_percentage_of_portfolio holding
          ((Holding.current_value holding
            / PortfolioState.total_value portfolio_state) * 100) in
        modify (fun self =>
          set_holdings self (<[symbol := holding]> (holdings self)))
      else mret tt
  | None => mret tt
  end.

(** [can_buy].  The comparisons are those of finite numbers; on a [nan]
    cost, which the model does not have, all three would be false. *)
Definition can_buy (symbol : string) (quantity : Z) (price : Q)
  : M t (bool * message) :=
  let total_cost := inject_Z quantity * price in
  self ← get;
  if Qgtb total_cost (available_cash self)
  then mret (false, MsgInsufficientCash)
  else
    portfolio_state ← get_portfolio_state;
    if Qeq_bool (PortfolioState.total_value portfolio_state) 0
    then raise ZeroDivisionError
    else
      let position_percentage :=
        (total_cost / PortfolioState.total_value portfolio_state) * 100 in
      if Qgtb position_percentage (TradingConfig.MAX_POSITION_SIZE * 100)
      then mret (false, MsgPositionTooLarge)
      else if Qltb position_percentage (TradingConfig.MIN_POSITION_SIZE * 100)
      then mret (false, MsgPositionTooSmall)
      else mret (true, MsgOK).

(** [can_sell]. *)
Definition can_sell (symbol : string) (quantity : Z) : M t (bool * message) :=
  self ← get;
  match holdings self !! symbol with
  | None => mret (false, MsgNoHoldings)
  | Some holding =>
      if (quantity >? Holding.quantity holding)%Z
      then mret (false, MsgInsufficientHoldings)
      else mret (true, MsgOK)
  end.

(** [_update_portfolio_percentages]. *)
Definition _update_portfolio_percentages : M t unit :=
  portfolio_state ← get_portfolio_state;
  if Qgtb (PortfolioState.total_value portfolio_state) 0
  then modify (fun self =>
         set_holdings self
           ((fun holding =>
               Holding.set_percentage_of_portfolio holding
                 ((Holding.current_value holding
                   / PortfolioState.total_value portfolio_state) * 100))
            <$> holdings self))
  else mret tt.

(** The block [# Calculate quantity based on percentage or fixed quantity]
    of [execute_buy]: [None] is its [else] branch, which returns
    "Must specify either quantity or percentage". *)
Definition buy_quantity (trade_request : TradeRequest.t) (price : Q) (self : t)
  : option Z :=
  if truthy_float (TradeRequest.percentage trade_request)
  then
    let amount_to_spend :=
      available_cash self
      * (default 0 (TradeRequest.percentage trade_request) / 100) in
    Some (py_int (amount_to_spend / price))
  else if truthy_int (TradeRequest.quantity trade_request)
  then Some (default 0%Z (TradeRequest.quantity trade_request))
  else None.

(** The block [# Calculate quantity to sell] of [execute_sell]. *)
Definition sell_quantity (trade_request : TradeRequest.t) (holding : Holding.t)
  : option Z :=
  if truthy_float (TradeRequest.percentage trade_request)
  then
    Some (py_int
            (inject_Z (Holding.quantity holding)
             * (default 0 (TradeRequest.percentage trade_request) / 100)))
  else if truthy_int (TradeRequest.quantity trade_request)
  then Some (default 0%Z (TradeRequest.quantity trade_request))
  else None.

(** [execute_buy]. *)
Definition execute_buy (trade_request : TradeRequest.t)
  : M t (bool * message) :=
  if negb (bool_decide (TradeRequest.action trade_request = BUY))
  then mret (false, MsgInvalidActionBuy)
  else
    let symbol := TradeRequest.symbol trade_request in
    let price := float_or (TradeRequest.price trade_request) 0 in
    if Qleb price 0
    then mret (false, MsgInvalidPriceBuy)
    else
      self ← get;
      match buy_quantity trade_request price self with
      | None => mret (false, MsgMustSpecify)
      | Some quantity =>
          '(ok, msg) ← can_buy symbol quantity price;
          if negb ok
          then mret (false, msg)
          else
            let total_cost := inject_Z quantity * price in
            modify (fun self =>
              set_available_cash self (available_cash self - total_cost));;
            self ← get;
            match holdings self !! symbol with
            | Some holding =>
                let total_quantity := (Holding.quantity holding + quantity)%Z in
                let total_cost_basis :=
                  inject_Z (Holding.quantity holding) * Holding.avg_price holding
                  + total_cost in
                if (total_quantity =? 0)%Z
                then raise ZeroDivisionError
                else
                  let holding := Holding.set_avg_price holding
                    (total_cost_basis / inject_Z total_quantity) in
                  let holding := Holding.set_quantity holding total_quantity in
                  let holding := Holding.set_current_price holding price in
                  let holding := Holding.set_current_value holding
                    (inject_Z (Holding.quantity holding) * price) in
                  modify (fun self =>
                    set_holdings self (<[symbol := holding]> (holdings self)))
            | None =>
                modify (fun self =>
                  set_holdings self
                    (<[symbol := Holding.mk symbol quantity price price
                                   (inject_Z quantity * price) 0 0 0]>
                       (holdings self)))
            end;;
            _update_portfolio_percentages;;
            modify (fun self =>
              set_trade_history self (trade_history self ++ [trade_request]));;
            mret (true, MsgBought quantity symbol price)
      end.

(** [execute_sell]. *)
Definition execute_sell (trade_request : TradeRequest.t)
  : M t (bool * message) :=
  if negb (bool_decide (TradeRequest.action trade_request = SELL))
  then mret (false, MsgInvalidActionSell)
  else
    let symbol := TradeRequest.symbol trade_request in
    let price := float_or (TradeRequest.price trade_request) 0 in
    if Qleb price 0
    then mret (false, MsgInvalidPriceSell)
    else
      self ← get;
      match holdings self !! symbol with
      | None => mret (false, MsgNoHoldings)
      | Some holding =>
          match sell_quantity trade_request holding with
          | None => mret (false, MsgMustSpecify)
          | Some quantity =>
              '(ok, msg) ← can_sell symbol quantity;
              if negb ok
              then mret (false, msg)
              else
                let total_proceeds := inject_Z quantity * price in
                modify (fun self =>
                  set_available_cash self (available_cash self + total_proceeds));;
                let cost_basis := inject_Z quantity * Holding.avg_price holding in
                let realized_pnl := total_proceeds - cost_basis in
                modify (fun self =>
                  set_total_pnl self (total_pnl self + realized_pnl));;
                let holding := Holding.set_quantity holding
                  (Holding.quantity holding - quantity)%Z in
                (if (Holding.quantity holding =? 0)%Z
                 then modify (fun self =>
                        set_holdings self (delete symbol (holdings self)))
                 else
                   let holding := Holding.set_current_value holding
                     (inject_Z (Holding.quantity holding) * price) in
                   let holding := Holding.set_unrealized_pnl holding
                     (Holding.current_value holding
                      - inject_Z (Holding.quantity holding)
                        * Holding.avg_price holding) in
                   let holding :=
                     if Qgtb (inject_Z (Holding.quantity holding)
                              * Holding.avg_price holding) 0
                     then Holding.set_unrealized_pnl_percentage holding
                            ((Holding.unrealized_pnl holding
                              / (inject_Z (Holding.quantity holding)
                                 * Holding.avg_price holding)) * 100)
                     else holding in
                   modify (fun self =>
                     set_holdings self
                       (<[symbol := holding]> (holdings self))));;
                _update_portfolio_percentages;;
                modify (fun self =>
                  set_trade_history self
                    (trade_history self ++ [trade_request]));;
                mret (true, MsgSold quantity symbol price realized_pnl)
          end
      end.

(** Calls on a manager, and the manager after a sequence of them.  A call
    that raises leaves the attributes as mutated so far. *)
Inductive call :=
| CallBuy (trade_request : TradeRequest.t)
| CallSell (trade_request : TradeRequest.t)
| CallUpdatePrice (symbol : string) (current_price : Q).

Definition after (c : call) (self : t) : t :=
  match c with
  | CallBuy r => state_of (execute_buy r self)
  | CallSell r => state_of (execute_sell r self)
  | CallUpdatePrice sy p => state_of (update_holding_price sy p self)
  end.

Definition after_all (cs : list call) (self : t) : t :=
  foldl (fun s c => after c s) self cs.

(** A trade call that returns [(True, _)]. *)
Definition succeeds (c : call) (self : t) : bool :=
  match c with
  | CallBuy r =>
      match execute_buy r self with Ret (true, _) _ => true | _ => false end
  | CallSell r =>
      match execute_sell r self with Ret (true, _) _ => true | _ => false end
  | CallUpdatePrice _ _ => false
  end.

(** The manager after the trades [cs] when each of them returns success. *)
Fixpoint trade_all (cs : list call) (self : t) : option t :=
  match cs with
  | [] => Some self
  | c :: cs' =>
      if succeeds c self then trade_all cs' (after c self) else None
  end.

(** [get_holding_summary]. *)
Definition get_holding_summary (symbol : string)
  : M t (option HoldingSummary.t) :=
  self ← get;
  match holdings self !! symbol with
  | None => mret None
  | Some holding =>
      mret (Some (HoldingSummary.mk symbol
                    (Holding.quantity holding) (Holding.avg_price holding)
                    (Holding.current_price holding)
                    (Holding.current_value holding)
                    (Holding.unrealized_pnl holding)
                    (Holding.unrealized_pnl_percentage holding)
                    (Holding.percentage_of_portfolio holding)))
  end.

(** [get_portfolio_summary].  The list [holdings] follows the keys of the
    dictionary; here that is the order of the map. *)
Definition get_portfolio_summary : M t PortfolioSummary.t :=
  portfolio_state ← get_portfolio_state;
  self ← get;
  summaries ← mapM get_holding_summary (map_to_list (holdings self)).*1;
  mret (PortfolioSummary.mk
          (PortfolioState.total_budget portfolio_state)
          (PortfolioState.available_cash portfolio_state)
          (PortfolioState.total_value portfolio_state)
          (PortfolioState.total_pnl portfolio_state)
          (PortfolioState.total_pnl_percentage portfolio_state)
          (size (holdings self))
          summaries
          (if Qgtb (PortfolioState.total_value portfolio_state) 0
           then (PortfolioState.available_cash portfolio_state
                 / PortfolioState.total_value portfolio_state) * 100
           else 100)).

(** The dictionary [risk_multipliers] of [calculate_position_size]. *)
Definition risk_multipliers : gmap string Q :=
  <["Very Low" := 12 # 10]> (<["Low" := 1]> (<["Medium" := 8 # 10]>
  (<["High" := 6 # 10]> (<["Very High" := 4 # 10]> ∅)))).

(** [calculate_position_size]: it reads no attribute of the manager. *)
Definition calculate_position_size (symbol : string) (confidence : Q)
    (risk_level : string) : Q :=
  let base_size := (confidence / 100) * TradingConfig.MAX_POSITION_SIZE in
  let risk_multiplier := default (8 # 10) (risk_multipliers !! risk_level) in
  let adjusted_size := base_size * risk_multiplier in
  let adjusted_size := py_max adjusted_size TradingConfig.MIN_POSITION_SIZE in
  let adjusted_size := py_min adjusted_size TradingConfig.MAX_POSITION_SIZE in
  adjusted_size * 100.

(** The outcome of a call, with its value dropped. *)
Definition run_call (c : call) (self : t) : outcome t unit :=
  match c with
  | CallBuy r =>
      match execute_buy r self with
      | Ret _ s => Ret tt s | Raise e s => Raise e s
      end
  | CallSell r =>
      match execute_sell r self with
      | Ret _ s => Ret tt s | Raise e s => Raise e s
      end
  | CallUpdatePrice sy p => update_holding_price sy p self
  end.

End PortfolioManager.

(** ** main_agent.py: the decision combination *)

Module MainAgent.

(** The five accumulators of the voting loop of [_make_final_decision]. *)
Record tally := mk_tally {
  buy_votes : Z;
  sell_votes : Z;
  hold_votes : Z;
  total_confidence : Q;
  weighted_confidence : Q
}.

(** One iteration of the loop [for decision in agent_decisions]. *)
Definition vote (acc : tally) (decision : AgentDecision.t) : tally :=
  let c := AgentDecision.confidence decision in
  let acc :=
    match AgentDecision.decision decision with
    | DT_STRONG_BUY | DT_BUY =>
        mk_tally (buy_votes acc + 1) (sell_votes acc) (hold_votes acc)
          (total_confidence acc) (weighted_confidence acc + c * (12 # 10))
    | DT_STRONG_SELL | DT_SELL =>
        mk_tally (buy_votes acc) (sell_votes acc + 1) (hold_votes acc)
          (total_confidence acc) (weighted_confidence acc + c * (11 # 10))
    | DT_HOLD =>
        mk_tally (buy_votes acc) (sell_votes acc) (hold_votes acc + 1)
          (total_confidence acc) (weighted_confidence acc + c)
    end in
  mk_tally (buy_votes acc) (sell_votes acc) (hold_votes acc)
    (total_confidence acc + c) (weighted_confidence acc).

(** [len(agent_decisions)] as a float divisor. *)
Definition len (agent_decisions : list AgentDecision.t) : Q :=
  inject_Z (Z.of_nat (length agent_decisions)).

(** [_calculate_position_size]; [portfolio_state] is the dictionary of
    its annotation [Dict[str, Any]], read with [.get] under the keys
    "available_cash" and "total_value". *)
Definition _calculate_position_size {S}
    (agent_decisions : list AgentDecision.t) (portfolio_state : gmap string Q)
  : M S Q :=
  match agent_decisions with
  | [] => mret 10
  | _ =>
      let total_position_size :=
        foldl (fun acc d => acc + float_or (AgentDecision.position_size d) 10)
              0 agent_decisions in
      let avg_position_size := total_position_size / len agent_decisions in
      let available_cash := default 0 (portfolio_state !! "available_cash") in
      let total_value := default 1 (portfolio_state !! "total_value") in
      if Qeq_bool total_value 0
      then raise ZeroDivisionError
      else
        let cash_percentage := (available_cash / total_value) * 100 in
        let avg_position_size :=
          if Qltb cash_percentage 20 then avg_position_size * (5 # 10)
          else if Qgtb cash_percentage 80 then avg_position_size * (12 # 10)
          else avg_position_size in
        let avg_position_size :=
          py_max avg_position_size (TradingConfig.MIN_POSITION_SIZE * 100) in
        let avg_position_size :=
          py_min avg_position_size (TradingConfig.MAX_POSITION_SIZE * 100) in
        mret avg_position_size
  end.

Definition risk_scores (r : RiskLevel) : Q :=
  match r with
  | VERY_LOW => 1 | LOW => 2 | MEDIUM => 3 | HIGH => 4 | VERY_HIGH => 5
  end.

(** [_determine_risk_level]. *)
Definition _determine_risk_level (agent_decisions : list AgentDecision.t)
  : RiskLevel :=
  match agent_decisions with
  | [] => MEDIUM
  | _ =>
      let total_risk_score :=
        foldl (fun acc d =>
                 match AgentDecision.risk_assessment d with
                 | Some r => acc + risk_scores r
                 | None => acc + 3
                 end) 0 agent_decisions in
      let avg_risk_score := total_risk_score / len agent_decisions in
      if Qleb avg_risk_score (15 # 10) then VERY_LOW
      else if Qleb avg_risk_score (25 # 10) then LOW
      else if Qleb avg_risk_score (35 # 10) then MEDIUM
      else if Qleb avg_risk_score (45 # 10) then HIGH
      else VERY_HIGH
  end.

(** [_calculate_risk_levels]. *)
Definition _calculate_risk_levels (current_price : Q) (risk_level : RiskLevel)
  : option Q * option Q :=
  let '(stop_loss_pct, take_profit_pct) :=
    match risk_level with
    | VERY_LOW => (TradingConfig.STOP_LOSS_PERCENTAGE * (5 # 10),
                   TradingConfig.TAKE_PROFIT_PERCENTAGE * (15 # 10))
    | LOW => (TradingConfig.STOP_LOSS_PERCENTAGE * (75 # 100),
              TradingConfig.TAKE_PROFIT_PERCENTAGE * (125 # 100))
    | MEDIUM => (TradingConfig.STOP_LOSS_PERCENTAGE,
                 TradingConfig.TAKE_PROFIT_PERCENTAGE)
    | HIGH => (TradingConfig.STOP_LOSS_PERCENTAGE * (125 # 100),
               TradingConfig.TAKE_PROFIT_PERCENTAGE * (75 # 100))
    | VERY_HIGH => (TradingConfig.STOP_LOSS_PERCENTAGE * (15 # 10),
                    TradingConfig.TAKE_PROFIT_PERCENTAGE * (5 # 10))
    end in
  let stop_loss := current_price * (1 - stop_loss_pct) in
  let take_profit := current_price * (1 + take_profit_pct) in
  (Some stop_loss, Some take_profit).

(** [_determine_next_interval]. *)
Definition _determine_next_interval (final_action : ActionType) (confidence : Q)
  : string :=
  if bool_decide (final_action = BUY) && Qgtb confidence 80 then "1hour"
  else if bool_decide (final_action = SELL) && Qgtb confidence 80 then "1hour"
  else if Qgtb confidence 70 then "5min"
  else if Qgtb confidence 50 then "15min"
  else "1hour".

(** The branch [# Determine final action] of [_make_final_decision]. *)
Definition final_action_of (votes : tally) (weighted_avg_confidence : Q)
  : ActionType :=
  if (buy_votes votes >? sell_votes votes)%Z
     && (buy_votes votes >? hold_votes votes)%Z
  then
    if Qgeb weighted_avg_confidence TradingConfig.BUY_CONFIDENCE_THRESHOLD
    then BUY else HOLD
  else if (sell_votes votes >? buy_votes votes)%Z
          && (sell_votes votes >? hold_votes votes)%Z
  then
    if Qgeb weighted_avg_confidence TradingConfig.SELL_CONFIDENCE_THRESHOLD
    then SELL else HOLD
  else HOLD.

(** [_make_final_decision].  It reads no attribute of the agent, so it is
    stated over any state [S]. *)
Definition _make_final_decision {S}
    (analysis_data : AnalysisData.t)
    (agent_decisions : list AgentDecision.t)
    (portfolio_state : gmap string Q)
  : M S MainAgentDecision.t :=
  let votes := foldl vote (mk_tally 0 0 0 0 0) agent_decisions in
  let avg_confidence :=
    match agent_decisions with
    | [] => 0
    | _ => total_confidence votes / len agent_decisions
    end in
  let weighted_avg_confidence :=
    match agent_decisions with
    | [] => 0
    | _ => weighted_confidence votes / len agent_decisions
    end in
  let final_action := final_action_of votes weighted_avg_confidence in
  position_size ← _calculate_position_size agent_decisions portfolio_state;
  let risk_level := _determine_risk_level agent_decisions in
  let '(stop_loss, take_profit) :=
    _calculate_risk_levels (AnalysisData.current_price analysis_data)
      risk_level in
  let next_interval :=
    _determine_next_interval final_action weighted_avg_confidence in
  mret (MainAgentDecision.mk final_action
          (AnalysisData.symbol analysis_data) None None None
          weighted_avg_confidence agent_decisions risk_level position_size
          stop_loss take_profit (Some next_interval)).

End MainAgent.

(** ** trading_session.py *)

Module TradingSession.

(** The dictionary [interval_map] of [_calculate_next_interval]. *)
Definition interval_map : gmap string Z :=
  <["1min" := 1%Z]> (<["5min" := 5%Z]> (<["15min" := 15%Z]>
  (<["30min" := 30%Z]> (<["1hour" := 60%Z]> (<["1day" := 1440%Z]> ∅))))).

(** [_calculate_next_interval]: the interval in minutes; it reads no
    attribute of the session manager. *)
Definition _calculate_next_interval (interval : string) : Z :=
  default 60%Z (interval_map !! interval).

End TradingSession.

(** ** Notions used in the statements *)

Import PortfolioManager.

(** The percentage [get_portfolio_state] returns, and the manager it
    leaves: the same attributes with that percentage stored. *)
Definition refreshed_percentage (self : t) : Q :=
  let total_invested := initial_budget self - available_cash self in
  if Qgtb total_invested 0
  then (total_pnl self / total_invested) * 100
  else total_pnl_percentage self.

Definition refresh (self : t) : t :=
  set_total_pnl_percentage self (refreshed_percentage self).

(** The value [get_portfolio_state] returns. *)
Definition view (self : t) : PortfolioState.t :=
  PortfolioState.mk (initial_budget self) (available_cash self)
    (sum_current_value (available_cash self) (holdings self))
    (entry_of <$> holdings self) (total_pnl self)
    (refreshed_percentage self).

(** The holdings after the loop of [_update_portfolio_percentages], and
    the manager that method leaves. *)
Definition with_percentages (total_value : Q) (hs : gmap string Holding.t)
  : gmap string Holding.t :=
  (fun holding =>
     Holding.set_percentage_of_portfolio holding
       ((Holding.current_value holding / total_value) * 100)) <$> hs.

Definition percentages_updated (self : t) : t :=
  let total_value := sum_current_value (available_cash self) (holdings self) in
  if Qgtb total_value 0
  then set_holdings (refresh self) (with_percentages total_value (holdings self))
  else refresh self.

(** The holding object after the body [# Execute the trade] of
    [execute_buy], from the holding found under the symbol, if any. *)
Definition bought (existing : option Holding.t) (symbol : string)
    (quantity : Z) (price : Q) : Holding.t :=
  match existing with
  | Some holding =>
      let total_quantity := (Holding.quantity holding + quantity)%Z in
      Holding.mk (Holding.symbol holding) total_quantity
        ((inject_Z (Holding.quantity holding) * Holding.avg_price holding
          + inject_Z quantity * price) / inject_Z total_quantity)
        price (inject_Z total_quantity * price)
        (Holding.unrealized_pnl holding)
        (Holding.unrealized_pnl_percentage holding)
        (Holding.percentage_of_portfolio holding)
  | None =>
      Holding.mk symbol quantity price price (inject_Z quantity * price) 0 0 0
  end.

(** The manager a successful [execute_buy] of [quantity] shares leaves. *)
Definition buy_applied (trade_request : TradeRequest.t) (quantity : Z)
    (price : Q) (self : t) : t :=
  let symbol := TradeRequest.symbol trade_request in
  let s1 := set_available_cash (refresh self)
              (available_cash self - inject_Z quantity * price) in
  let s2 := set_holdings s1
              (<[symbol := bought (holdings self !! symbol) symbol quantity price]>
                 (holdings self)) in
  let s3 := percentages_updated s2 in
  set_trade_history s3 (trade_history s3 ++ [trade_request]).

(** The holding object a partial sell leaves in the dictionary. *)
Definition sold (holding : Holding.t) (quantity : Z) (price : Q) : Holding.t :=
  let remaining := (Holding.quantity holding - quantity)%Z in
  let value := inject_Z remaining * price in
  let pnl := value - inject_Z remaining * Holding.avg_price holding in
  Holding.mk (Holding.symbol holding) remaining (Holding.avg_price holding)
    (Holding.current_price holding) value pnl
    (if Qgtb (inject_Z remaining * Holding.avg_price holding) 0
     then (pnl / (inject_Z remaining * Holding.avg_price holding)) * 100
     else Holding.unrealized_pnl_percentage holding)
    (Holding.percentage_of_portfolio holding).

(** The manager a successful [execute_sell] of [quantity] shares of
    [holding] leaves. *)
Definition sell_applied (trade_request : TradeRequest.t) (holding : Holding.t)
    (quantity : Z) (price : Q) (self : t) : t :=
  let symbol := TradeRequest.symbol trade_request in
  let total_proceeds := inject_Z quantity * price in
  let s1 := set_available_cash self (available_cash self + total_proceeds) in
  let s2 := set_total_pnl s1
              (total_pnl self
               + (total_proceeds - inject_Z quantity * Holding.avg_price holding)) in
  let s3 := set_holdings s2
              (if (Holding.quantity holding - quantity =? 0)%Z
               then delete symbol (holdings self)
               else <[symbol := sold holding quantity price]> (holdings self)) in
  let s4 := percentages_updated s3 in
  set_trade_history s4 (trade_history s4 ++ [trade_request]).

(** The holding object [update_holding_price] leaves before it sets the
    percentage of the portfolio. *)
Definition repriced (holding : Holding.t) (current_price : Q) : Holding.t :=
  let value := inject_Z (Holding.quantity holding) * current_price in
  let basis := inject_Z (Holding.quantity holding) * Holding.avg_price holding in
  Holding.mk (Holding.symbol holding) (Holding.quantity holding)
    (Holding.avg_price holding) current_price value (value - basis)
    (if Qgtb basis 0 then ((value - basis) / basis) * 100
     else Holding.unrealized_pnl_percentage holding)
    (Holding.percentage_of_portfolio holding).

(** The manager [update_holding_price] leaves for a held symbol. *)
Definition price_applied (symbol : string) (holding : Holding.t)
    (current_price : Q) (self : t) : t :=
  let h := repriced holding current_price in
  let s1 := refresh (set_holdings self (<[symbol := h]> (holdings self))) in
  let total_value := sum_current_value (available_cash s1) (holdings s1) in
  if Qgtb total_value 0
  then set_holdings s1
         (<[symbol := Holding.set_percentage_of_portfolio h
                        ((Holding.current_value h / total_value) * 100)]>
            (holdings s1))
  else s1.

(** Cash, positions, realized PnL, trade history and budget all equal. *)
Definition same_books (s s' : t) : Prop :=
  initial_budget s' = initial_budget s /\
  available_cash s' = available_cash s /\
  holdings s' = holdings s /\
  total_pnl s' = total_pnl s /\
  trade_history s' = trade_history s.

(** The cost basis of the open positions: the sum of
    [quantity * avg_price]. *)
Definition cost_basis (hs : gmap string Holding.t) : Q :=
  map_fold (fun _ holding acc =>
              acc + inject_Z (Holding.quantity holding)
                    * Holding.avg_price holding) 0 hs.

(** The conservation equation of the ledger. *)
Definition conserved (self : t) : Prop :=
  available_cash self + cost_basis (holdings self) - total_pnl self
  == initial_budget self.

(** The cost basis of one holding. *)
Definition basis_of (holding : Holding.t) : Q :=
  inject_Z (Holding.quantity holding) * Holding.avg_price holding.

(** Cash is not negative and every stored holding has a positive
    quantity. *)
Definition non_negative (s : t) : Prop :=
  0 <= available_cash s /\
  forall symbol holding,
    holdings s !! symbol = Some holding ->
    (0 < Holding.quantity holding)%Z.

(** The invariant behind it: moreover every holding has a positive current
    value, and a ledger without holdings has cash. *)
Definition sound (s : t) : Prop :=
  0 <= available_cash s /\
  (forall symbol holding,
     holdings s !! symbol = Some holding ->
     (0 < Holding.quantity holding)%Z /\ 0 < Holding.current_value holding) /\
  (holdings s = ∅ -> 0 < available_cash s).

(** Calls whose numbers have the expected sign: a sell order with no
    negative quantity or percentage, a price update with a positive
    price.  Buy orders are unrestricted. *)
Definition signed (c : call) : Prop :=
  match c with
  | CallBuy _ => True
  | CallSell r =>
      (forall q, TradeRequest.quantity r = Some q -> (0 <= q)%Z) /\
      (forall pct, TradeRequest.percentage r = Some pct -> 0 <= pct)
  | CallUpdatePrice _ current_price => 0 < current_price
  end.

(** Example orders. *)
Definition buy_order (symbol : string) (quantity : Z) (price : Q)
  : TradeRequest.t :=
  TradeRequest.mk BUY symbol (Some quantity) None (Some price)
    None None None None.
Definition sell_order (symbol : string) (quantity : Z) (price : Q)
  : TradeRequest.t :=
  TradeRequest.mk SELL symbol (Some quantity) None (Some price)
    None None None None.
Definition sell_percentage (symbol : string) (percentage : Q) (price : Q)
  : TradeRequest.t :=
  TradeRequest.mk SELL symbol None (Some percentage) (Some price)
    None None None None.
Definition hold_order (symbol : string) : TradeRequest.t :=
  TradeRequest.mk HOLD symbol None None None None None None None.

(** A fresh ledger with the budget of the configuration test, and the
    ledger after the buy of [test_system.py]. *)
Definition fresh : t := init (Some 100000).
Definition after_first_buy : t :=
  after (CallBuy (buy_order "RELIANCE" 10 1500)) fresh.

Definition both_order : TradeRequest.t :=
  TradeRequest.mk BUY "RELIANCE" (Some 10%Z) (Some 20) (Some 1500)
    None None None None.
Definition empty_buy_order : TradeRequest.t :=
  TradeRequest.mk BUY "RELIANCE" None None (Some 1500) None None None None.
Definition empty_sell_order : TradeRequest.t :=
  TradeRequest.mk SELL "RELIANCE" None None (Some 1600) None None None None.
Definition tiny_buy_order : TradeRequest.t :=
  TradeRequest.mk BUY "RELIANCE" None (Some 1) (Some 1500) None None None None.

(** The ledger after a buy of 10 at 1500, a sale of 5 at 1600 and a sale
    of the other 5 at 3000. *)
Definition after_profitable_sells : t :=
  after_all [CallBuy (buy_order "RELIANCE" 10 1500);
             CallSell (sell_order "RELIANCE" 5 1600);
             CallSell (sell_order "RELIANCE" 5 3000)] fresh.

(** The end-to-end scenario: buy 10 at 1500, price update to 1600, sell
    50 percent at 1600. *)
Definition scenario_calls : list call :=
  [CallBuy (buy_order "RELIANCE" 10 1500);
   CallUpdatePrice "RELIANCE" 1600;
   CallSell (sell_percentage "RELIANCE" 50 1600)].

(** A buy of 10 at 1500 followed by a sell order for -100 shares. *)
Definition negative_sell_calls : list call :=
  [CallBuy (buy_order "RELIANCE" 10 1500);
   CallSell (sell_order "RELIANCE" (-100) 1500)].

(** A buy of 10 at 1500, a price update to -10000 and a buy order for -1
    share of another symbol. *)
Definition negative_price_calls : list call :=
  [CallBuy (buy_order "RELIANCE" 10 1500);
   CallUpdatePrice "RELIANCE" (-10000);
   CallBuy (buy_order "TCS" (-1) 1500)].

(** Example votes and inputs of the decision combination. *)
Definition buy_vote (confidence : Q) : AgentDecision.t :=
  AgentDecision.mk TECHNICAL DT_BUY confidence EmptyString [] None None.
Definition sample_analysis : AnalysisData.t :=
  AnalysisData.mk "RELIANCE" 1000.
Definition sample_portfolio_state : gmap string Q :=
  <["available_cash" := 50000]> (<["total_value" := 100000]> ∅).

(** Two holding objects that differ at most in [percentage_of_portfolio],
    the one field [_update_portfolio_percentages] writes. *)
Definition same_position (h h' : Holding.t) : Prop :=
  Holding.symbol h' = Holding.symbol h /\
  Holding.quantity h' = Holding.quantity h /\
  Holding.avg_price h' = Holding.avg_price h /\
  Holding.current_price h' = Holding.current_price h /\
  Holding.current_value h' = Holding.current_value h /\
  Holding.unrealized_pnl h' = Holding.unrealized_pnl h /\
  Holding.unrealized_pnl_percentage h' = Holding.unrealized_pnl_percentage h.

(** The ledger after the first buy and a second buy of 10 at 2000. *)
Definition after_second_buy : t :=
  after (CallBuy (buy_order "RELIANCE" 10 2000)) after_first_buy.

(** The order a trade call carries; a price update carries none. *)
Definition request_of (c : call) : list TradeRequest.t :=
  match c with
  | CallBuy r | CallSell r => [r]
  | CallUpdatePrice _ _ => []
  end.

(** The total value [get_portfolio_state] computes for a manager. *)
Definition total_value_of (s : t) : Q :=
  sum_current_value (available_cash s) (holdings s).

(** Quantity and current value held under a symbol, zero when it is not
    held. *)
Definition held_quantity (s : t) (symbol : string) : Z :=
  match holdings s !! symbol with
  | Some holding => Holding.quantity holding
  | None => 0%Z
  end.
Definition held_value (s : t) (symbol : string) : Q :=
  match holdings s !! symbol with
  | Some holding => Holding.current_value holding
  | None => 0
  end.

(** A buy of 10 at 1500 followed by a price update to -8500, which
    brings the total value to zero. *)
Definition zero_value_calls : list call :=
  [CallBuy (buy_order "RELIANCE" 10 1500);
   CallUpdatePrice "RELIANCE" (-8500)].

(** The sum of [percentage_of_portfolio] over the holdings. *)
Definition sum_percentages (hs : gmap string Holding.t) : Q :=
  map_fold (fun _ holding acc => acc + Holding.percentage_of_portfolio holding)
    0 hs.

(** An order by explicit quantity at a price. *)
Definition by_quantity (r : TradeRequest.t) (quantity : Z) : Prop :=
  truthy_float (TradeRequest.percentage r) = false /\
  TradeRequest.quantity r = Some quantity /\ quantity <> 0%Z.

(** The counter of [_make_final_decision] a vote feeds, and the weight
    its confidence gets. *)
Definition counted_as (d : AgentDecision.t) : ActionType :=
  match AgentDecision.decision d with
  | DT_STRONG_BUY | DT_BUY => BUY
  | DT_STRONG_SELL | DT_SELL => SELL
  | DT_HOLD => HOLD
  end.
Definition weight_of (d : AgentDecision.t) : Q :=
  match counted_as d with
  | BUY => 12 # 10
  | SELL => 11 # 10
  | _ => 1
  end.

(** The number of votes counted as [a]. *)
Definition count_votes (a : ActionType) (ds : list AgentDecision.t) : Z :=
  Z.of_nat (length (filter (fun d => counted_as d = a) ds)).

(** The sum of [f] over the votes, and its average, which is 0 for no
    votes as [avg_confidence] is. *)
Definition sum_over (f : AgentDecision.t -> Q) (ds : list AgentDecision.t)
  : Q :=
  foldr (fun d acc => acc + f d) 0 ds.
Definition average (f : AgentDecision.t -> Q) (ds : list AgentDecision.t)
  : Q :=
  match ds with
  | [] => 0
  | _ => sum_over f ds / MainAgent.len ds
  end.

(** The score [_determine_risk_level] adds for a vote. *)
Definition risk_score_of (d : AgentDecision.t) : Q :=
  match AgentDecision.risk_assessment d with
  | Some r => MainAgent.risk_scores r
  | None => 3
  end.

(** A vote with a decision, a confidence and a risk assessment. *)
Definition vote_of (decision : DecisionType) (confidence : Q)
    (risk : option RiskLevel) : AgentDecision.t :=
  AgentDecision.mk TECHNICAL decision confidence EmptyString [] risk None.

(** A portfolio dictionary whose total value is zero. *)
Definition zero_value_portfolio_state : gmap string Q :=
  <["available_cash" := 0]> (<["total_value" := 0]> ∅).

(** The size a vote proposes: [d.position_size or 10]. *)
Definition proposed_size (d : AgentDecision.t) : Q :=
  float_or (AgentDecision.position_size d) 10.

(** The cash share [_calculate_position_size] reads off the portfolio
    dictionary. *)
Definition cash_percentage_of (portfolio_state : gmap string Q) : Q :=
  (default 0 (portfolio_state !! "available_cash")
   / default 1 (portfolio_state !! "total_value")) * 100.

(** What C1 says one successful trade does.  A buy moves
    [quantity * price] from the cash into the cost basis and leaves the
    realized PnL; a sell takes [quantity * avg_price] out of the cost
    basis, adds [quantity * price] to the cash and books the difference
    into the realized PnL. *)
Definition moved (c : call) (s s' : t) : Prop :=
  match c with
  | CallBuy r =>
      let price := float_or (TradeRequest.price r) 0 in
      exists quantity,
        buy_quantity r price s = Some quantity /\
        available_cash s' == available_cash s - inject_Z quantity * price /\
        cost_basis (holdings s')
        == cost_basis (holdings s) + inject_Z quantity * price /\
        total_pnl s' == total_pnl s
  | CallSell r =>
      let price := float_or (TradeRequest.price r) 0 in
      exists holding quantity,
        holdings s !! TradeRequest.symbol r = Some holding /\
        sell_quantity r holding = Some quantity /\
        cost_basis (holdings s')
        == cost_basis (holdings s)
           - inject_Z quantity * Holding.avg_price holding /\
        available_cash s' == available_cash s + inject_Z quantity * price /\
        total_pnl s'
        == total_pnl s
           + (inject_Z quantity * price
              - inject_Z quantity * Holding.avg_price holding)
  | CallUpdatePrice _ _ => False
  end.

(** C4 in the words of the specification: the position in [symbol] as
    the candidate purchase would leave it, valued at the purchase price;
    the total value projected with that purchase (the cash less the
    cost, the other holdings as they are, and that position); and the
    share, in percent, of the one in the other. *)
Definition resulting_position (symbol : string) (quantity : Z) (price : Q)
    (s : t) : Q :=
  inject_Z (held_quantity s symbol + quantity) * price.
Definition projected_total_value (symbol : string) (quantity : Z) (price : Q)
    (s : t) : Q :=
  (available_cash s - inject_Z quantity * price)
  + (total_value_of s - available_cash s - held_value s symbol)
  + resulting_position symbol quantity price s.
Definition resulting_share (symbol : string) (quantity : Z) (price : Q)
    (s : t) : Q :=
  resulting_position symbol quantity price s
  / projected_total_value symbol quantity price s * 100.

(** ** How the methods run *)

Ltac run :=
  unfold mbind, M_bind, mret, M_ret, get, modify, raise in *;
  cbn beta iota in *.

Lemma get_portfolio_state_eq self :
  get_portfolio_state self = Ret (view self) (refresh self).
Proof.
  unfold get_portfolio_state, view, refresh, refreshed_percentage. run.
  destruct (Qgtb _ _); destruct self; reflexivity.
Qed.

Lemma refreshed_percentage_refresh self :
  refreshed_percentage (refresh self) = refreshed_percentage self.
Proof.
  unfold refresh, refreshed_percentage; cbn.
  destruct (Qgtb _ _); reflexivity.
Qed.

Lemma refresh_idem self : refresh (refresh self) = refresh self.
Proof.
  unfold refresh at 1 3. rewrite refreshed_percentage_refresh. reflexivity.
Qed.

Lemma view_refresh self : view (refresh self) = view self.
Proof.
  unfold view. rewrite refreshed_percentage_refresh. reflexivity.
Qed.

Lemma same_books_refl s : same_books s s.
Proof. repeat split. Qed.

Lemma same_books_refresh s : same_books s (refresh s).
Proof. repeat split. Qed.

Lemma can_buy_eq symbol quantity price self :
  can_buy symbol quantity price self =
  let total_cost := inject_Z quantity * price in
  if Qgtb total_cost (available_cash self)
  then Ret (false, MsgInsufficientCash) self
  else
    let total_value :=
      sum_current_value (available_cash self) (holdings self) in
    if Qeq_bool total_value 0 then Raise ZeroDivisionError (refresh self)
    else
      let position_percentage := (total_cost / total_value) * 100 in
      if Qgtb position_percentage (TradingConfig.MAX_POSITION_SIZE * 100)
      then Ret (false, MsgPositionTooLarge) (refresh self)
      else if Qltb position_percentage (TradingConfig.MIN_POSITION_SIZE * 100)
      then Ret (false, MsgPositionTooSmall) (refresh self)
      else Ret (true, MsgOK) (refresh self).
Proof.
  unfold can_buy. run.
  destruct (Qgtb _ _); [reflexivity|].
  rewrite get_portfolio_state_eq. cbn.
  repeat (destruct (_ : bool); try reflexivity).
Qed.

Lemma can_sell_eq symbol quantity self :
  can_sell symbol quantity self =
  match holdings self !! symbol with
  | None => Ret (false, MsgNoHoldings) self
  | Some holding =>
      if (quantity >? Holding.quantity holding)%Z
      then Ret (false, MsgInsufficientHoldings) self
      else Ret (true, MsgOK) self
  end.
Proof.
  unfold can_sell. run.
  destruct (holdings self !! symbol); [destruct (_ >? _)%Z|]; reflexivity.
Qed.

Lemma _update_portfolio_percentages_eq self :
  _update_portfolio_percentages self = Ret tt (percentages_updated self).
Proof.
  unfold _update_portfolio_percentages, percentages_updated. run.
  rewrite get_portfolio_state_eq. cbn.
  destruct (Qgtb _ _); reflexivity.
Qed.

Lemma execute_buy_eq r s :
  execute_buy r s =
  let symbol := TradeRequest.symbol r in
  let price := float_or (TradeRequest.price r) 0 in
  if negb (bool_decide (TradeRequest.action r = BUY))
  then Ret (false, MsgInvalidActionBuy) s
  else if Qleb price 0 then Ret (false, MsgInvalidPriceBuy) s
  else
    match buy_quantity r price s with
    | None => Ret (false, MsgMustSpecify) s
    | Some quantity =>
        match can_buy symbol quantity price s with
        | Ret (true, _) _ =>
            match holdings s !! symbol with
            | Some holding =>
                if (Holding.quantity holding + quantity =? 0)%Z
                then Raise ZeroDivisionError
                       (set_available_cash (refresh s)
                          (available_cash s - inject_Z quantity * price))
                else Ret (true, MsgBought quantity symbol price)
                       (buy_applied r quantity price s)
            | None => Ret (true, MsgBought quantity symbol price)
                        (buy_applied r quantity price s)
            end
        | Ret (false, msg) s1 => Ret (false, msg) s1
        | Raise e s1 => Raise e s1
        end
    end.
Proof.
  unfold execute_buy. run. cbn zeta.
  destruct (negb _); [reflexivity|].
  destruct (Qleb _ _); [reflexivity|].
  destruct (buy_quantity _ _ _) as [q|]; [|reflexivity].
  rewrite can_buy_eq. cbn zeta.
  destruct (Qgtb _ _); [reflexivity|].
  destruct (Qeq_bool _ _); [reflexivity|].
  destruct (Qgtb _ _); [reflexivity|].
  destruct (Qltb _ _); [reflexivity|].
  cbn.
  destruct (holdings s !! TradeRequest.symbol r) as [h|] eqn:E; cbn.
  - destruct (_ =? _)%Z; [reflexivity|].
    rewrite _update_portfolio_percentages_eq.
    unfold buy_applied. rewrite E. reflexivity.
  - rewrite _update_portfolio_percentages_eq.
    unfold buy_applied. rewrite E. reflexivity.
Qed.

Lemma execute_sell_eq r s :
  execute_sell r s =
  let symbol := TradeRequest.symbol r in
  let price := float_or (TradeRequest.price r) 0 in
  if negb (bool_decide (TradeRequest.action r = SELL))
  then Ret (false, MsgInvalidActionSell) s
  else if Qleb price 0 then Ret (false, MsgInvalidPriceSell) s
  else
    match holdings s !! symbol with
    | None => Ret (false, MsgNoHoldings) s
    | Some holding =>
        match sell_quantity r holding with
        | None => Ret (false, MsgMustSpecify) s
        | Some quantity =>
            if (quantity >? Holding.quantity holding)%Z
            then Ret (false, MsgInsufficientHoldings) s
            else Ret (true, MsgSold quantity symbol price
                             (inject_Z quantity * price
                              - inject_Z quantity * Holding.avg_price holding))
                     (sell_applied r holding quantity price s)
        end
    end.
Proof.
  unfold execute_sell. run. cbn zeta.
  destruct (negb _); [reflexivity|].
  destruct (Qleb _ _); [reflexivity|].
  destruct (holdings s !! TradeRequest.symbol r) as [h|] eqn:E; [|reflexivity].
  destruct (sell_quantity _ _) as [q|]; [|reflexivity].
  rewrite can_sell_eq, E.
  destruct (_ >? _)%Z; [reflexivity|]. cbn.
  unfold sell_applied.
  destruct (_ =? _)%Z; cbn; rewrite _update_portfolio_percentages_eq;
    [reflexivity|].
  unfold sold. destruct (Qgtb (inject_Z _ * _) 0); reflexivity.
Qed.

Lemma update_holding_price_eq symbol current_price s :
  update_holding_price symbol current_price s =
  match holdings s !! symbol with
  | Some holding => Ret tt (price_applied symbol holding current_price s)
  | None => Ret tt s
  end.
Proof.
  unfold update_holding_price. run.
  destruct (holdings s !! symbol) as [h|]; [|reflexivity].
  rewrite get_portfolio_state_eq. cbn.
  unfold price_applied, repriced. cbn.
  destruct (Qgtb (inject_Z _ * _) 0); cbn; destruct (Qgtb _ 0); reflexivity.
Qed.

(** ** Rejected orders *)

Lemma execute_buy_failed r s msg s' :
  execute_buy r s = Ret (false, msg) s' -> s' = s \/ s' = refresh s.
Proof.
  rewrite execute_buy_eq. cbn zeta.
  destruct (negb _); [intros [= _ <-]; auto|].
  destruct (Qleb _ _); [intros [= _ <-]; auto|].
  destruct (buy_quantity _ _ _) as [q|]; [|intros [= _ <-]; auto].
  rewrite can_buy_eq. cbn zeta.
  destruct (Qgtb _ _); [intros [= _ <-]; auto|].
  destruct (Qeq_bool _ _); [discriminate|].
  destruct (Qgtb _ _); [intros [= _ <-]; auto|].
  destruct (Qltb _ _); [intros [= _ <-]; auto|].
  destruct (holdings s !! _); [destruct (_ =? _)%Z|]; discriminate.
Qed.

Lemma execute_sell_failed r s msg s' :
  execute_sell r s = Ret (false, msg) s' -> s' = s.
Proof.
  rewrite execute_sell_eq. cbn zeta.
  destruct (negb _); [intros [= _ <-]; auto|].
  destruct (Qleb _ _); [intros [= _ <-]; auto|].
  destruct (holdings s !! _); [|intros [= _ <-]; auto].
  destruct (sell_quantity _ _) as [q|]; [|intros [= _ <-]; auto].
  destruct (_ >? _)%Z; [intros [= _ <-]; auto|discriminate].
Qed.

(** C2.  A rejected order changes nothing: when [execute_buy] or
    [execute_sell] returns [(False, reason)], the budget, the available
    cash, the holdings with every field of every holding, the realized PnL
    and the trade history are those before the call, and
    [get_portfolio_state] returns the value it returned before the call. *)
Theorem rejected_order_is_atomic (r : TradeRequest.t) (s s' : t) (msg : message) :
  execute_buy r s = Ret (false, msg) s' \/
  execute_sell r s = Ret (false, msg) s' ->
  same_books s s' /\
  value_of (get_portfolio_state s') = value_of (get_portfolio_state s).
Proof.
  intros H.
  assert (Hs : s' = s \/ s' = refresh s).
  { destruct H as [H|H];
      [eapply execute_buy_failed; eauto | left; eapply execute_sell_failed; eauto]. }
  destruct Hs as [->| ->].
  - split; [apply same_books_refl | reflexivity].
  - split; [apply same_books_refresh|].
    rewrite !get_portfolio_state_eq. cbn. now rewrite view_refresh.
Qed.

Lemma rejected_order_is_atomic_witness :
  (same_books fresh fresh /\
   value_of (get_portfolio_state fresh)
   = value_of (get_portfolio_state fresh)) /\
  (same_books after_first_buy after_first_buy /\
   value_of (get_portfolio_state after_first_buy)
   = value_of (get_portfolio_state after_first_buy)).
Proof.
  split.
  - apply (rejected_order_is_atomic (buy_order "RELIANCE" 1 10) fresh fresh
             MsgPositionTooSmall).
    left. vm_compute. reflexivity.
  - apply (rejected_order_is_atomic (sell_order "RELIANCE" 11 1600)
             after_first_buy after_first_buy MsgInsufficientHoldings).
    right. vm_compute. reflexivity.
Defined.

(** C10.  An order whose action is not [BUY] makes [execute_buy] return
    [(False, "Invalid action for buy execution")]: no exception, and the
    manager is the one before the call.  [execute_sell] does the same with
    an order whose action is not [SELL]. *)
Theorem mismatched_action_is_returned_failure (r : TradeRequest.t) (s : t) :
  (TradeRequest.action r <> BUY ->
   execute_buy r s = Ret (false, MsgInvalidActionBuy) s) /\
  (TradeRequest.action r <> SELL ->
   execute_sell r s = Ret (false, MsgInvalidActionSell) s).
Proof.
  split; intros H.
  - rewrite execute_buy_eq. cbn zeta.
    rewrite bool_decide_eq_false_2 by exact H. reflexivity.
  - rewrite execute_sell_eq. cbn zeta.
    rewrite bool_decide_eq_false_2 by exact H. reflexivity.
Qed.

Lemma mismatched_action_is_returned_failure_witness :
  execute_buy (sell_order "RELIANCE" 5 1600) after_first_buy
    = Ret (false, MsgInvalidActionBuy) after_first_buy /\
  execute_sell (hold_order "RELIANCE") after_first_buy
    = Ret (false, MsgInvalidActionSell) after_first_buy.
Proof.
  split.
  - apply (proj1 (mismatched_action_is_returned_failure
                    (sell_order "RELIANCE" 5 1600) after_first_buy)).
    cbn. discriminate.
  - apply (proj2 (mismatched_action_is_returned_failure
                    (hold_order "RELIANCE") after_first_buy)).
    cbn. discriminate.
Defined.

(** ** Comparisons *)

Lemma Qgtb_true a b : Qgtb a b = true <-> b < a.
Proof.
  unfold Qgtb. rewrite negb_true_iff, <- not_true_iff_false, Qle_bool_iff.
  split; [apply Qnot_le_lt | apply Qlt_not_le].
Qed.

Lemma Qgtb_false a b : Qgtb a b = false <-> a <= b.
Proof. unfold Qgtb. rewrite negb_false_iff. apply Qle_bool_iff. Qed.

Lemma Qltb_true a b : Qltb a b = true <-> a < b.
Proof. apply Qgtb_true. Qed.

Lemma Qltb_false a b : Qltb a b = false <-> b <= a.
Proof. apply Qgtb_false. Qed.

Lemma Qleb_false a b : Qleb a b = false <-> b < a.
Proof.
  unfold Qleb. rewrite <- not_true_iff_false, Qle_bool_iff.
  split; [apply Qnot_le_lt | apply Qlt_not_le].
Qed.

Lemma Qeq_bool_false a b : Qeq_bool a b = false <-> ~ a == b.
Proof. rewrite <- not_true_iff_false, Qeq_bool_iff. reflexivity. Qed.

Lemma percentage_times (x tv : Q) :
  ~ tv == 0 -> (x / tv * 100) * tv == x * 100.
Proof. intros. field. assumption. Qed.

(** ** The checks of [can_buy] *)

Lemma can_buy_same_books symbol quantity price s :
  same_books s (state_of (can_buy symbol quantity price s)).
Proof.
  rewrite can_buy_eq. cbn zeta.
  repeat (match goal with |- context [if ?b then _ else _] => destruct b end);
    cbn; auto using same_books_refl, same_books_refresh.
Qed.

Lemma can_buy_fresh symbol quantity price :
  can_buy symbol quantity price fresh =
  let share := (inject_Z quantity * price) / 100000 * 100 in
  if Qgtb (inject_Z quantity * price) 100000
  then Ret (false, MsgInsufficientCash) fresh
  else if Qgtb share (TradingConfig.MAX_POSITION_SIZE * 100)
  then Ret (false, MsgPositionTooLarge) fresh
  else if Qltb share (TradingConfig.MIN_POSITION_SIZE * 100)
  then Ret (false, MsgPositionTooSmall) fresh
  else Ret (true, MsgOK) fresh.
Proof. rewrite can_buy_eq. reflexivity. Qed.

Lemma resulting_share_not_held symbol quantity price s :
  holdings s !! symbol = None ->
  ~ total_value_of s == 0 ->
  resulting_share symbol quantity price s
  == inject_Z quantity * price / total_value_of s * 100.
Proof.
  intros Hl Htv.
  unfold resulting_share, projected_total_value, resulting_position,
    held_quantity, held_value.
  rewrite Hl. rewrite Z.add_0_l.
  assert (E : available_cash s - inject_Z quantity * price
              + (total_value_of s - available_cash s - 0)
              + inject_Z quantity * price == total_value_of s) by ring.
  rewrite E. reflexivity.
Qed.

(** C4, as the code has it.  [can_buy] has no price check of its own
    ([execute_buy] rejects a price [<= 0] before it calls [can_buy]).  Its
    first check, for every symbol: [quantity * price > available_cash]
    gives "Insufficient cash".  Then, for a symbol that is not held and a
    total value that is not zero, the resulting position's share of the
    projected total value, which is then the cost of the purchase as a
    percentage of the current total value, decides: above 30 gives
    "Position too large", below 5 "Position too small", and anything
    from 5 to 30 passes.  Budget, cash, holdings, realized PnL and trade
    history are never changed.  On a fresh ledger of 100000 a cost of
    40000 is too large, a cost of 3000 too small, and every cost from
    5000 to 30000 passes, the ledger staying as it was.  (What the bound
    does for a symbol that is already held is not part of the
    statement.) *)
Theorem can_buy_checks (symbol : string) (quantity : Z) (price : Q) (s : t) :
  let total_cost := inject_Z quantity * price in
  let share := resulting_share symbol quantity price s in
  (available_cash s < total_cost ->
   can_buy symbol quantity price s = Ret (false, MsgInsufficientCash) s) /\
  (holdings s !! symbol = None ->
   total_cost <= available_cash s -> ~ total_value_of s == 0 ->
   share == total_cost / total_value_of s * 100 /\
   (30 < share ->
    value_of (can_buy symbol quantity price s)
    = Some (false, MsgPositionTooLarge)) /\
   (share < 5 ->
    value_of (can_buy symbol quantity price s)
    = Some (false, MsgPositionTooSmall)) /\
   (5 <= share /\ share <= 30 ->
    value_of (can_buy symbol quantity price s) = Some (true, MsgOK))) /\
  same_books s (state_of (can_buy symbol quantity price s)) /\
  (total_cost == 40000 ->
   can_buy symbol quantity price fresh = Ret (false, MsgPositionTooLarge) fresh) /\
  (total_cost == 3000 ->
   can_buy symbol quantity price fresh = Ret (false, MsgPositionTooSmall) fresh) /\
  (5000 <= total_cost /\ total_cost <= 30000 ->
   can_buy symbol quantity price fresh = Ret (true, MsgOK) fresh).
Proof.
  intros total_cost share.
  assert (Hmax : TradingConfig.MAX_POSITION_SIZE * 100 == 30) by reflexivity.
  assert (Hmin : TradingConfig.MIN_POSITION_SIZE * 100 == 5) by reflexivity.
  split; [|split; [|split; [apply can_buy_same_books|]]].
  - intros H. rewrite can_buy_eq. cbn zeta.
    apply Qgtb_true in H. fold total_cost. now rewrite H.
  - intros Hnone Hcash Htv.
    pose proof (resulting_share_not_held symbol quantity price s Hnone Htv)
      as Hshare.
    fold share total_cost in Hshare. split; [exact Hshare|].
    rewrite can_buy_eq. cbn zeta.
    fold total_cost. fold (total_value_of s).
    apply Qgtb_false in Hcash. rewrite Hcash.
    apply Qeq_bool_false in Htv. rewrite Htv.
    set (pct := total_cost / total_value_of s * 100) in *.
    repeat split.
    + intros H. rewrite Hshare, <- Hmax in H. apply Qgtb_true in H.
      now rewrite H.
    + intros H. rewrite Hshare in H.
      assert (H1 : Qgtb pct (TradingConfig.MAX_POSITION_SIZE * 100) = false)
        by (apply Qgtb_false; lra).
      assert (H2 : Qltb pct (TradingConfig.MIN_POSITION_SIZE * 100) = true)
        by (apply Qltb_true; lra).
      now rewrite H1, H2.
    + intros [Hlo Hhi]. rewrite Hshare in Hlo, Hhi.
      assert (H1 : Qgtb pct (TradingConfig.MAX_POSITION_SIZE * 100) = false)
        by (apply Qgtb_false; lra).
      assert (H2 : Qltb pct (TradingConfig.MIN_POSITION_SIZE * 100) = false)
        by (apply Qltb_false; lra).
      now rewrite H1, H2.
  - assert (Hshare : total_cost / 100000 * 100 == total_cost * (1 # 1000))
      by field.
    repeat split; intros H; rewrite can_buy_fresh; cbn zeta;
      fold total_cost.
    + assert (H0 : Qgtb total_cost 100000 = false) by (apply Qgtb_false; lra).
      assert (H1 : Qgtb (total_cost / 100000 * 100)
                     (TradingConfig.MAX_POSITION_SIZE * 100) = true)
        by (apply Qgtb_true; lra).
      now rewrite H0, H1.
    + assert (H0 : Qgtb total_cost 100000 = false) by (apply Qgtb_false; lra).
      assert (H1 : Qgtb (total_cost / 100000 * 100)
                     (TradingConfig.MAX_POSITION_SIZE * 100) = false)
        by (apply Qgtb_false; lra).
      assert (H2 : Qltb (total_cost / 100000 * 100)
                     (TradingConfig.MIN_POSITION_SIZE * 100) = true)
        by (apply Qltb_true; lra).
      now rewrite H0, H1, H2.
    + destruct H as [Hlo Hhi].
      assert (H0 : Qgtb total_cost 100000 = false) by (apply Qgtb_false; lra).
      assert (H1 : Qgtb (total_cost / 100000 * 100)
                     (TradingConfig.MAX_POSITION_SIZE * 100) = false)
        by (apply Qgtb_false; lra).
      assert (H2 : Qltb (total_cost / 100000 * 100)
                     (TradingConfig.MIN_POSITION_SIZE * 100) = false)
        by (apply Qltb_false; lra).
      now rewrite H0, H1, H2.
Qed.

Lemma can_buy_checks_witness :
  can_buy "RELIANCE" 10 1500 fresh = Ret (true, MsgOK) fresh /\
  can_buy "RELIANCE" 10 4000 fresh = Ret (false, MsgPositionTooLarge) fresh /\
  can_buy "RELIANCE" 10 300 fresh = Ret (false, MsgPositionTooSmall) fresh /\
  can_buy "RELIANCE" 100 1500 fresh = Ret (false, MsgInsufficientCash) fresh /\
  value_of (can_buy "TCS" 10 1500 after_first_buy) = Some (true, MsgOK) /\
  value_of (can_buy "TCS" 10 4000 after_first_buy)
  = Some (false, MsgPositionTooLarge) /\
  value_of (can_buy "TCS" 1 100 after_first_buy)
  = Some (false, MsgPositionTooSmall).
Proof.
  split; [|split; [|split; [|split; [|split; [|split]]]]].
  - apply (can_buy_checks "RELIANCE" 10 1500 fresh).
    split; vm_compute; discriminate.
  - apply (can_buy_checks "RELIANCE" 10 4000 fresh). reflexivity.
  - apply (can_buy_checks "RELIANCE" 10 300 fresh). reflexivity.
  - apply (can_buy_checks "RELIANCE" 100 1500 fresh). reflexivity.
  - refine (proj2 (proj2 (proj2 (proj1 (proj2
              (can_buy_checks "TCS" 10 1500 after_first_buy)) _ _ _))) _);
      [vm_compute; reflexivity | vm_compute; discriminate
      | vm_compute; discriminate |].
    split; vm_compute; discriminate.
  - refine (proj1 (proj2 (proj1 (proj2
              (can_buy_checks "TCS" 10 4000 after_first_buy)) _ _ _)) _);
      [vm_compute; reflexivity | vm_compute; discriminate
      | vm_compute; discriminate |].
    vm_compute. reflexivity.
  - refine (proj1 (proj2 (proj2 (proj1 (proj2
              (can_buy_checks "TCS" 1 100 after_first_buy)) _ _ _))) _);
      [vm_compute; reflexivity | vm_compute; discriminate
      | vm_compute; discriminate |].
    vm_compute. reflexivity.
Defined.

(** C4 as stated fails, in two ways.  [can_buy] does not check the
    price: a negative quantity at a negative price passes on a fresh
    ledger.  And for a symbol that is already held it compares the cost
    of the purchase alone, not the resulting position: after the buy of
    10 at 1500 a second buy of 10 at 2000 passes with a cost of 20
    percent of the total value, although the resulting position of 20
    shares at 2000 is 40000 of a projected 105000, more than 30
    percent. *)
Lemma can_buy_misses_price_and_held_position :
  (-1500 <= 0 /\
   can_buy "RELIANCE" (-10) (-1500) fresh = Ret (true, MsgOK) fresh) /\
  (resulting_share "RELIANCE" 10 2000 after_first_buy
   == 40000 / 105000 * 100 /\
   30 < resulting_share "RELIANCE" 10 2000 after_first_buy /\
   value_of (can_buy "RELIANCE" 10 2000 after_first_buy)
   = Some (true, MsgOK)).
Proof.
  split.
  - split; [vm_compute; discriminate | reflexivity].
  - split; [vm_compute; reflexivity|].
    split; vm_compute; reflexivity.
Qed.

(** ** [update_holding_price] *)

(** C9, as the code has it.  [update_holding_price] never fails, whatever
    the sign of the price: for a symbol that is not held it returns with
    the manager as it was; for a held symbol it returns having stored the
    price as the holding's current price and [quantity * price] as its
    current value, with quantity, average price, cash, budget, realized
    PnL and trade history as they were. *)
Theorem update_holding_price_accepts_any_price
    (symbol : string) (current_price : Q) (s : t) :
  match holdings s !! symbol with
  | None => update_holding_price symbol current_price s = Ret tt s
  | Some holding =>
      exists s' holding',
        update_holding_price symbol current_price s = Ret tt s' /\
        holdings s' !! symbol = Some holding' /\
        Holding.current_price holding' = current_price /\
        Holding.current_value holding'
        = inject_Z (Holding.quantity holding) * current_price /\
        Holding.quantity holding' = Holding.quantity holding /\
        Holding.avg_price holding' = Holding.avg_price holding /\
        available_cash s' = available_cash s /\
        initial_budget s' = initial_budget s /\
        total_pnl s' = total_pnl s /\
        trade_history s' = trade_history s
  end.
Proof.
  rewrite update_holding_price_eq.
  destruct (holdings s !! symbol) as [holding|]; [|reflexivity].
  exists (price_applied symbol holding current_price s).
  unfold price_applied. cbn zeta.
  destruct (Qgtb _ 0); eexists; (split; [reflexivity|]); cbn;
    rewrite lookup_insert_eq; (split; [reflexivity|]); cbn; repeat split.
Qed.

(** C9 as stated fails: a price [<= 0] for a held symbol is not rejected;
    it is stored, here as the current price of the holding bought at
    1500. *)
Lemma update_holding_price_stores_negative_price :
  -1 <= 0 /\
  exists s',
    update_holding_price "RELIANCE" (-1) after_first_buy = Ret tt s' /\
    Holding.current_price <$> holdings s' !! "RELIANCE" = Some (-1) /\
    Holding.current_price <$> holdings after_first_buy !! "RELIANCE"
    = Some 1500.
Proof.
  split; [vm_compute; discriminate|].
  eexists. split; [vm_compute; reflexivity|].
  split; vm_compute; reflexivity.
Qed.

(** ** [get_portfolio_state] *)

Lemma refresh_nothing_invested s :
  initial_budget s - available_cash s <= 0 -> refresh s = s.
Proof.
  intros H. unfold refresh, refreshed_percentage. cbn zeta.
  apply Qgtb_false in H. rewrite H. now destruct s.
Qed.

(** C7, as the code has it.  [get_portfolio_state] always returns.  When
    [initial_budget - available_cash > 0] the percentage it returns is
    [total_pnl / (initial_budget - available_cash) * 100].  When that
    difference is [<= 0] the manager is left exactly as it was, and on a
    manager whose stored percentage is zero (a fresh one) the returned
    percentage is zero.  The method is not a pure read: it stores the
    percentage it returns in the attribute [total_pnl_percentage]; it
    changes no other attribute, and a second call right after the first
    returns the same value and changes nothing. *)
Theorem get_portfolio_state_percentage (s : t) :
  let total_invested := initial_budget s - available_cash s in
  exists v s',
    get_portfolio_state s = Ret v s' /\
    (0 < total_invested ->
     PortfolioState.total_pnl_percentage v
     = total_pnl s / total_invested * 100) /\
    (total_invested <= 0 ->
     s' = s /\
     (total_pnl_percentage s == 0 ->
      PortfolioState.total_pnl_percentage v == 0)) /\
    same_books s s' /\
    total_pnl_percentage s' = PortfolioState.total_pnl_percentage v /\
    get_portfolio_state s' = Ret v s'.
Proof.
  intros total_invested. exists (view s), (refresh s).
  split; [apply get_portfolio_state_eq|].
  split; [|split; [|split; [apply same_books_refresh|split; [reflexivity|]]]].
  - intros H. cbn. unfold refreshed_percentage. cbn zeta.
    apply Qgtb_true in H. fold total_invested. now rewrite H.
  - intros H. split; [now apply refresh_nothing_invested|].
    intros H0. cbn. unfold refreshed_percentage. cbn zeta.
    apply Qgtb_false in H. fold total_invested. now rewrite H.
  - now rewrite get_portfolio_state_eq, view_refresh, refresh_idem.
Qed.

Lemma get_portfolio_state_percentage_witness :
  (exists v s', get_portfolio_state fresh = Ret v s' /\
     s' = fresh /\ PortfolioState.total_pnl_percentage v == 0) /\
  (exists v s', get_portfolio_state after_first_buy = Ret v s' /\
     PortfolioState.total_pnl_percentage v = 0 / (100000 - 85000) * 100).
Proof.
  split.
  - destruct (get_portfolio_state_percentage fresh)
      as (v & s' & E & _ & H & _).
    exists v, s'. split; [exact E|].
    destruct H as [H1 H2]; [vm_compute; discriminate|].
    split; [exact H1 | apply H2; reflexivity].
  - destruct (get_portfolio_state_percentage after_first_buy)
      as (v & s' & E & H & _).
    exists v, s'. split; [exact E|].
    apply H. reflexivity.
Defined.

(** C7 as stated fails: after a buy of 10 at 1500 and sales of 5 at 1600
    and 5 at 3000 the cash exceeds the budget, so
    [initial_budget - available_cash <= 0], and [get_portfolio_state]
    returns the percentage stored after the first sale, [50/7], not 0. *)
Lemma get_portfolio_state_keeps_stored_percentage :
  initial_budget after_profitable_sells
  - available_cash after_profitable_sells <= 0 /\
  exists v s',
    get_portfolio_state after_profitable_sells = Ret v s' /\
    PortfolioState.total_pnl_percentage v == 50 # 7 /\
    ~ PortfolioState.total_pnl_percentage v == 0.
Proof.
  split; [vm_compute; discriminate|].
  eexists _, _. split; [vm_compute; reflexivity|].
  split; [reflexivity | vm_compute; discriminate].
Qed.

(** ** Which quantity an order resolves to *)

Lemma truthy_float_Some pct : ~ pct == 0 -> truthy_float (Some pct) = true.
Proof.
  intros H. cbn. apply negb_true_iff. now apply Qeq_bool_false.
Qed.

Lemma truthy_int_Some (q : Z) : q <> 0%Z -> truthy_int (Some q) = true.
Proof. intros H. cbn. apply negb_true_iff. now apply Z.eqb_neq. Qed.

Lemma zero_cost price : inject_Z 0 * price == 0.
Proof. unfold Qeq. cbn. lia. Qed.

(** C6, as the code has it.  A percentage that is supplied and not zero
    is used, whether or not a quantity is supplied: percentage wins.  The
    explicit quantity is used when the percentage is absent or zero and
    the quantity is supplied and not zero.  A successful call traded the
    quantity so resolved.  When neither is supplied (each absent or zero)
    both calls return failure with the manager as it was; the reason is
    "Must specify either quantity or percentage" once the checks before
    it (action, price and, for a sell, the holding) have passed.  A buy
    that resolves to 0 shares is rejected by [can_buy] as
    "Position too small" when the cash is not negative and the total
    value is not zero, with budget, cash, holdings, realized PnL and trade
    history unchanged. *)
Theorem order_quantity_resolution (r : TradeRequest.t) (s : t) :
  let price := float_or (TradeRequest.price r) 0 in
  (forall pct, TradeRequest.percentage r = Some pct -> ~ pct == 0 ->
     buy_quantity r price s
     = Some (py_int (available_cash s * (pct / 100) / price)) /\
     forall holding,
       sell_quantity r holding
       = Some (py_int (inject_Z (Holding.quantity holding) * (pct / 100)))) /\
  (forall q, truthy_float (TradeRequest.percentage r) = false ->
     TradeRequest.quantity r = Some q -> q <> 0%Z ->
     buy_quantity r price s = Some q /\
     forall holding, sell_quantity r holding = Some q) /\
  (forall q symbol p s',
     execute_buy r s = Ret (true, MsgBought q symbol p) s' ->
     buy_quantity r price s = Some q) /\
  (forall q symbol p pnl s',
     execute_sell r s = Ret (true, MsgSold q symbol p pnl) s' ->
     exists holding,
       holdings s !! TradeRequest.symbol r = Some holding /\
       sell_quantity r holding = Some q) /\
  (truthy_float (TradeRequest.percentage r) = false ->
   truthy_int (TradeRequest.quantity r) = false ->
   (exists msg, execute_buy r s = Ret (false, msg) s) /\
   (exists msg, execute_sell r s = Ret (false, msg) s) /\
   (TradeRequest.action r = BUY -> 0 < price ->
    execute_buy r s = Ret (false, MsgMustSpecify) s) /\
   (TradeRequest.action r = SELL -> 0 < price ->
    is_Some (holdings s !! TradeRequest.symbol r) ->
    execute_sell r s = Ret (false, MsgMustSpecify) s)) /\
  (TradeRequest.action r = BUY -> 0 < price ->
   buy_quantity r price s = Some 0%Z ->
   0 <= available_cash s ->
   ~ sum_current_value (available_cash s) (holdings s) == 0 ->
   execute_buy r s = Ret (false, MsgPositionTooSmall) (refresh s)).
Proof.
  intros price.
  split; [|split; [|split; [|split; [|split]]]].
  - intros pct Hp Hnz. unfold buy_quantity, sell_quantity.
    rewrite Hp, (truthy_float_Some _ Hnz). cbn. auto.
  - intros q Hp Hq Hnz. unfold buy_quantity, sell_quantity.
    rewrite Hp, Hq, (truthy_int_Some _ Hnz). cbn. auto.
  - intros q symbol p s'. rewrite execute_buy_eq. cbn zeta. fold price.
    destruct (negb _); [discriminate|].
    destruct (Qleb _ _); [discriminate|].
    destruct (buy_quantity r price s) as [q'|]; [|discriminate].
    destruct (can_buy _ _ _ _) as [[[|] ?] ?|]; try discriminate.
    destruct (holdings s !! _); [destruct (_ =? _)%Z; [discriminate|]|];
      intros [= -> _ _ _]; reflexivity.
  - intros q symbol p pnl s'. rewrite execute_sell_eq. cbn zeta.
    destruct (negb _); [discriminate|].
    destruct (Qleb _ _); [discriminate|].
    destruct (holdings s !! _) as [holding|] eqn:Hh; [|discriminate].
    destruct (sell_quantity r holding) as [q'|] eqn:Hq; [|discriminate].
    destruct (_ >? _)%Z; [discriminate|].
    intros [= -> _ _ _ _]. eauto.
  - intros Hp Hq.
    assert (Hb : buy_quantity r price s = None)
      by (unfold buy_quantity; now rewrite Hp, Hq).
    assert (Hs : forall holding, sell_quantity r holding = None)
      by (intros; unfold sell_quantity; now rewrite Hp, Hq).
    split; [|split; [|split]].
    + rewrite execute_buy_eq. cbn zeta. fold price. rewrite Hb.
      destruct (negb _); [eauto|]. destruct (Qleb _ _); eauto.
    + rewrite execute_sell_eq. cbn zeta.
      destruct (negb _); [eauto|]. destruct (Qleb _ _); [eauto|].
      destruct (holdings s !! _); [rewrite Hs|]; eauto.
    + intros Ha Hprice. rewrite execute_buy_eq. cbn zeta. fold price.
      rewrite Hb, Ha. apply Qleb_false in Hprice. now rewrite Hprice.
    + intros Ha Hprice [holding Hh]. rewrite execute_sell_eq. cbn zeta.
      fold price. rewrite Ha, Hh, Hs.
      apply Qleb_false in Hprice. now rewrite Hprice.
  - intros Ha Hprice Hb Hcash Htv. rewrite execute_buy_eq. cbn zeta.
    fold price. rewrite Hb, Ha, can_buy_eq. cbn zeta.
    apply Qleb_false in Hprice. rewrite Hprice. cbn.
    pose proof (zero_cost price) as H0.
    assert (H1 : Qgtb (inject_Z 0 * price) (available_cash s) = false)
      by (apply Qgtb_false; lra).
    assert (Hshare : inject_Z 0 * price
                     / sum_current_value (available_cash s) (holdings s)
                     * 100 == 0) by (rewrite H0; now field).
    assert (H2 : Qgtb (inject_Z 0 * price
                       / sum_current_value (available_cash s) (holdings s)
                       * 100) (TradingConfig.MAX_POSITION_SIZE * 100) = false)
      by (apply Qgtb_false; rewrite Hshare; vm_compute; discriminate).
    assert (H3 : Qltb (inject_Z 0 * price
                       / sum_current_value (available_cash s) (holdings s)
                       * 100) (TradingConfig.MIN_POSITION_SIZE * 100) = true)
      by (apply Qltb_true; rewrite Hshare; reflexivity).
    apply Qeq_bool_false in Htv. now rewrite H1, Htv, H2, H3.
Qed.

Lemma order_quantity_resolution_witness :
  buy_quantity both_order 1500 fresh = Some 13%Z /\
  buy_quantity (buy_order "RELIANCE" 10 1500) 1500 fresh = Some 10%Z /\
  execute_buy empty_buy_order fresh = Ret (false, MsgMustSpecify) fresh /\
  execute_sell empty_sell_order after_first_buy
    = Ret (false, MsgMustSpecify) after_first_buy /\
  execute_buy tiny_buy_order fresh
    = Ret (false, MsgPositionTooSmall) (refresh fresh) /\
  buy_quantity both_order (float_or (TradeRequest.price both_order) 0) fresh
    = Some 13%Z /\
  (exists holding,
     holdings after_first_buy !! "RELIANCE" = Some holding /\
     sell_quantity (sell_percentage "RELIANCE" 50 1600) holding = Some 5%Z).
Proof.
  split; [|split; [|split; [|split; [|split; [|split]]]]].
  - apply (proj1 (order_quantity_resolution both_order fresh) 20);
      [reflexivity | vm_compute; discriminate].
  - apply (proj1 (proj2 (order_quantity_resolution
                           (buy_order "RELIANCE" 10 1500) fresh)) 10%Z);
      [reflexivity | reflexivity | discriminate].
  - apply (order_quantity_resolution empty_buy_order fresh);
      reflexivity.
  - apply (order_quantity_resolution empty_sell_order after_first_buy);
      try reflexivity. vm_compute. eauto.
  - apply (order_quantity_resolution tiny_buy_order fresh);
      try reflexivity; vm_compute; discriminate.
  - refine (proj1 (proj2 (proj2 (order_quantity_resolution both_order fresh)))
              13%Z "RELIANCE" 1500
              (state_of (execute_buy both_order fresh)) _).
    vm_compute. reflexivity.
  - refine (proj1 (proj2 (proj2 (proj2
              (order_quantity_resolution
                 (sell_percentage "RELIANCE" 50 1600) after_first_buy))))
              5%Z "RELIANCE" 1600 (inject_Z 5 * 1600 - inject_Z 5 * 1500)
              (state_of (execute_sell (sell_percentage "RELIANCE" 50 1600)
                           after_first_buy)) _).
    vm_compute. reflexivity.
Defined.

(** C6 as stated fails.  With quantity 10 and percentage 20 both supplied,
    [execute_buy] on a fresh ledger of 100000 at price 1500 buys
    [int(20000 / 1500) = 13] shares, not 10.  And a sell whose percentage
    resolves to 0 shares is not rejected: it returns success and is
    appended to the trade history. *)
Lemma percentage_wins_over_quantity :
  TradeRequest.quantity both_order = Some 10%Z /\
  value_of (execute_buy both_order fresh)
  = Some (true, MsgBought 13 "RELIANCE" 1500) /\
  value_of (execute_sell (sell_percentage "RELIANCE" 1 1600) after_first_buy)
  = Some (true, MsgSold 0 "RELIANCE" 1600 (inject_Z 0 * 1600 - inject_Z 0 * 1500)) /\
  length (trade_history
            (after (CallSell (sell_percentage "RELIANCE" 1 1600))
                   after_first_buy)) = 2%nat.
Proof. repeat split. Qed.

(** ** Conservation *)

#[local] Instance Qeq_preorder : PreOrder Qeq.
Proof. split; [exact Qeq_refl | exact Qeq_trans]. Qed.

Lemma cost_basis_empty : cost_basis ∅ = 0.
Proof. unfold cost_basis. apply map_fold_empty. Qed.

Lemma cost_basis_insert_None hs symbol holding :
  hs !! symbol = None ->
  cost_basis (<[symbol := holding]> hs) == cost_basis hs + basis_of holding.
Proof.
  intros H. unfold cost_basis, basis_of.
  refine (map_fold_insert Qeq
            (fun _ h acc =>
               acc + inject_Z (Holding.quantity h) * Holding.avg_price h)
            0 symbol holding hs _ _ H).
  - intros j z x y E. now rewrite E.
  - intros. ring.
Qed.

Lemma cost_basis_delete hs symbol holding :
  hs !! symbol = Some holding ->
  cost_basis hs == cost_basis (delete symbol hs) + basis_of holding.
Proof.
  intros H. unfold cost_basis, basis_of.
  refine (map_fold_delete Qeq
            (fun _ h acc =>
               acc + inject_Z (Holding.quantity h) * Holding.avg_price h)
            0 symbol holding hs _ _ H).
  - intros j z x y E. now rewrite E.
  - intros. ring.
Qed.

Lemma cost_basis_insert_Some hs symbol holding holding' :
  hs !! symbol = Some holding ->
  cost_basis (<[symbol := holding']> hs)
  == cost_basis hs - basis_of holding + basis_of holding'.
Proof.
  intros H. rewrite <- insert_delete_eq.
  rewrite cost_basis_insert_None by apply lookup_delete_eq.
  rewrite (cost_basis_delete hs symbol holding H). ring.
Qed.

Lemma cost_basis_with_percentages total_value hs :
  cost_basis (with_percentages total_value hs) = cost_basis hs.
Proof. unfold cost_basis, with_percentages. now rewrite map_fold_fmap. Qed.

Lemma percentages_updated_fields s :
  initial_budget (percentages_updated s) = initial_budget s /\
  available_cash (percentages_updated s) = available_cash s /\
  total_pnl (percentages_updated s) = total_pnl s /\
  trade_history (percentages_updated s) = trade_history s /\
  (holdings (percentages_updated s) = holdings s \/
   exists total_value,
     holdings (percentages_updated s)
     = with_percentages total_value (holdings s)).
Proof.
  unfold percentages_updated. cbn zeta.
  destruct (Qgtb _ 0); cbn; repeat split; eauto.
Qed.

Lemma cost_basis_percentages_updated s :
  cost_basis (holdings (percentages_updated s)) = cost_basis (holdings s).
Proof.
  destruct (percentages_updated_fields s) as (_ & _ & _ & _ & [-> | [tv ->]]);
    [reflexivity | apply cost_basis_with_percentages].
Qed.

Lemma can_buy_passed symbol quantity price s msg s1 :
  can_buy symbol quantity price s = Ret (true, msg) s1 ->
  let total_cost := inject_Z quantity * price in
  let total_value := sum_current_value (available_cash s) (holdings s) in
  total_cost <= available_cash s /\ ~ total_value == 0 /\
  5 <= total_cost / total_value * 100 /\
  total_cost / total_value * 100 <= 30.
Proof.
  rewrite can_buy_eq. cbn zeta.
  destruct (Qgtb _ (available_cash s)) eqn:E1; [discriminate|].
  destruct (Qeq_bool _ 0) eqn:E2; [discriminate|].
  destruct (Qgtb _ (_ * 100)) eqn:E3; [discriminate|].
  destruct (Qltb _ (_ * 100)) eqn:E4; [discriminate|].
  intros _.
  apply Qgtb_false in E1, E3. apply Qltb_false in E4.
  apply Qeq_bool_false in E2.
  assert (TradingConfig.MAX_POSITION_SIZE * 100 == 30) by reflexivity.
  assert (TradingConfig.MIN_POSITION_SIZE * 100 == 5) by reflexivity.
  repeat split; [assumption | assumption | lra | lra].
Qed.

Lemma execute_buy_succeeded r s msg s' :
  execute_buy r s = Ret (true, msg) s' ->
  let price := float_or (TradeRequest.price r) 0 in
  exists quantity,
    0 < price /\
    buy_quantity r price s = Some quantity /\
    (exists m s1,
       can_buy (TradeRequest.symbol r) quantity price s = Ret (true, m) s1) /\
    (forall holding,
       holdings s !! TradeRequest.symbol r = Some holding ->
       (Holding.quantity holding + quantity)%Z <> 0%Z) /\
    s' = buy_applied r quantity price s.
Proof.
  rewrite execute_buy_eq. cbn zeta.
  destruct (negb _); [discriminate|].
  destruct (Qleb _ 0) eqn:Ep; [discriminate|].
  destruct (buy_quantity _ _ _) as [q|] eqn:Eb; [|discriminate].
  destruct (can_buy _ _ _ _) as [[[|] m] s1|] eqn:Ec; try discriminate.
  intros H. exists q. apply Qleb_false in Ep.
  split; [exact Ep|]. split; [reflexivity|]. split; [eauto|].
  destruct (holdings s !! _) as [h|].
  - destruct (_ =? _)%Z eqn:Ez; [discriminate|].
    apply Z.eqb_neq in Ez. injection H as _ <-.
    split; [now intros ? [= <-] | reflexivity].
  - injection H as _ <-. split; [discriminate | reflexivity].
Qed.

Lemma execute_sell_succeeded r s msg s' :
  execute_sell r s = Ret (true, msg) s' ->
  let price := float_or (TradeRequest.price r) 0 in
  exists holding quantity,
    0 < price /\
    holdings s !! TradeRequest.symbol r = Some holding /\
    sell_quantity r holding = Some quantity /\
    (quantity <= Holding.quantity holding)%Z /\
    s' = sell_applied r holding quantity price s.
Proof.
  rewrite execute_sell_eq. cbn zeta.
  destruct (negb _); [discriminate|].
  destruct (Qleb _ 0) eqn:Ep; [discriminate|].
  destruct (holdings s !! _) as [h|] eqn:Eh; [|discriminate].
  destruct (sell_quantity _ _) as [q|] eqn:Es; [|discriminate].
  destruct (_ >? _)%Z eqn:Eq; [discriminate|].
  intros [= _ <-]. exists h, q. apply Qleb_false in Ep.
  rewrite Z.gtb_ltb in Eq. apply Z.ltb_ge in Eq.
  split; [exact Ep|]. split; [reflexivity|]. split; [exact Es|].
  split; [exact Eq | reflexivity].
Qed.

Lemma basis_of_bought_new symbol quantity price :
  basis_of (bought None symbol quantity price) = inject_Z quantity * price.
Proof. reflexivity. Qed.

Lemma basis_of_bought_more holding symbol quantity price :
  (Holding.quantity holding + quantity)%Z <> 0%Z ->
  basis_of (bought (Some holding) symbol quantity price)
  == basis_of holding + inject_Z quantity * price.
Proof.
  intros H. unfold basis_of, bought. cbn.
  field. intros E. apply H.
  apply (eq_sym) in E. unfold Qeq in E. cbn in E. lia.
Qed.

Lemma conserved_buy_applied r quantity price s :
  conserved s ->
  (forall holding,
     holdings s !! TradeRequest.symbol r = Some holding ->
     (Holding.quantity holding + quantity)%Z <> 0%Z) ->
  conserved (buy_applied r quantity price s).
Proof.
  unfold conserved, buy_applied. cbn zeta. intros Hc Hq. cbn.
  rewrite cost_basis_percentages_updated.
  destruct (percentages_updated_fields
              (set_holdings
                 (set_available_cash (refresh s)
                    (available_cash s - inject_Z quantity * price))
                 (<[TradeRequest.symbol r :=
                      bought (holdings s !! TradeRequest.symbol r)
                        (TradeRequest.symbol r) quantity price]>
                    (holdings s))))
    as (-> & -> & -> & _).
  cbn.
  destruct (holdings s !! TradeRequest.symbol r) as [h|] eqn:E.
  - rewrite (cost_basis_insert_Some _ _ h) by exact E.
    rewrite basis_of_bought_more by auto. lra.
  - rewrite cost_basis_insert_None by exact E.
    rewrite basis_of_bought_new. lra.
Qed.

Lemma conserved_sell_applied r holding quantity price s :
  conserved s ->
  holdings s !! TradeRequest.symbol r = Some holding ->
  conserved (sell_applied r holding quantity price s).
Proof.
  unfold conserved, sell_applied. cbn zeta. intros Hc Hh. cbn.
  rewrite cost_basis_percentages_updated.
  match goal with |- context [percentages_updated ?x] =>
    destruct (percentages_updated_fields x) as (-> & -> & -> & _) end.
  cbn.
  pose proof (cost_basis_delete _ _ _ Hh) as Hd.
  destruct (_ =? _)%Z eqn:Ez.
  - apply Z.eqb_eq in Ez.
    assert (quantity = Holding.quantity holding) as -> by lia.
    unfold basis_of in Hd. lra.
  - rewrite (cost_basis_insert_Some _ _ holding) by exact Hh.
    unfold basis_of, sold. cbn.
    unfold Zminus. rewrite inject_Z_plus, inject_Z_opp. lra.
Qed.

Lemma trade_all_conserved calls : forall s0 s,
  conserved s0 -> trade_all calls s0 = Some s -> conserved s.
Proof.
  induction calls as [|c calls IH]; intros s0 s Hc; cbn.
  - now intros [= <-].
  - destruct (succeeds c s0) eqn:Es; [|discriminate].
    apply IH. destruct c as [r|r|]; cbn in *; [| |discriminate].
    + destruct (execute_buy r s0) as [[[|] m] s1|] eqn:E; try discriminate.
      destruct (execute_buy_succeeded _ _ _ _ E) as (q & _ & _ & _ & Hq & ->).
      cbn. now apply conserved_buy_applied.
    + destruct (execute_sell r s0) as [[[|] m] s1|] eqn:E; try discriminate.
      destruct (execute_sell_succeeded _ _ _ _ E)
        as (h & q & _ & Hh & _ & _ & ->).
      cbn. now apply conserved_sell_applied.
Qed.

Lemma trade_all_prefix calls : forall n s0 s,
  trade_all calls s0 = Some s ->
  exists s_n, trade_all (take n calls) s0 = Some s_n.
Proof.
  induction calls as [|c calls IH]; intros [|n] s0 s; cbn; eauto.
  destruct (succeeds c s0); [|discriminate]. apply IH.
Qed.

Lemma cost_basis_buy_applied r quantity price s :
  (forall holding,
     holdings s !! TradeRequest.symbol r = Some holding ->
     (Holding.quantity holding + quantity)%Z <> 0%Z) ->
  cost_basis (holdings (buy_applied r quantity price s))
  == cost_basis (holdings s) + inject_Z quantity * price.
Proof.
  intros Hq. unfold buy_applied. cbn zeta. cbn.
  rewrite cost_basis_percentages_updated. cbn.
  destruct (holdings s !! TradeRequest.symbol r) as [h|] eqn:E.
  - rewrite (cost_basis_insert_Some _ _ h) by exact E.
    rewrite basis_of_bought_more by auto. ring.
  - rewrite cost_basis_insert_None by exact E.
    rewrite basis_of_bought_new. reflexivity.
Qed.

Lemma cost_basis_sell_applied r holding quantity price s :
  holdings s !! TradeRequest.symbol r = Some holding ->
  cost_basis (holdings (sell_applied r holding quantity price s))
  == cost_basis (holdings s)
     - inject_Z quantity * Holding.avg_price holding.
Proof.
  intros Hh. unfold sell_applied. cbn zeta. cbn.
  rewrite cost_basis_percentages_updated. cbn.
  pose proof (cost_basis_delete _ _ _ Hh) as Hd.
  destruct (_ =? _)%Z eqn:Ez.
  - apply Z.eqb_eq in Ez.
    assert (quantity = Holding.quantity holding) as -> by lia.
    unfold basis_of in Hd. rewrite Hd. ring.
  - rewrite (cost_basis_insert_Some _ _ holding) by exact Hh.
    unfold basis_of, sold. cbn.
    unfold Zminus. rewrite inject_Z_plus, inject_Z_opp. ring.
Qed.

Lemma succeeds_moved c s : succeeds c s = true -> moved c s (after c s).
Proof.
  destruct c as [r|r|]; cbn; [| |discriminate].
  - destruct (execute_buy r s) as [[[|] m] s1|] eqn:E; try discriminate.
    intros _.
    destruct (execute_buy_succeeded _ _ _ _ E) as (q & _ & Hq & _ & Hne & ->).
    exists q. split; [exact Hq|]. cbn [state_of].
    split; [|split; [apply cost_basis_buy_applied; exact Hne|]].
    + unfold buy_applied. cbn zeta. cbn.
      match goal with |- context [percentages_updated ?x] =>
        destruct (percentages_updated_fields x) as (_ & -> & _) end.
      reflexivity.
    + unfold buy_applied. cbn zeta. cbn.
      match goal with |- context [percentages_updated ?x] =>
        destruct (percentages_updated_fields x) as (_ & _ & -> & _) end.
      reflexivity.
  - destruct (execute_sell r s) as [[[|] m] s1|] eqn:E; try discriminate.
    intros _.
    destruct (execute_sell_succeeded _ _ _ _ E)
      as (h & q & _ & Hh & Hq & _ & ->).
    exists h, q. split; [exact Hh|]. split; [exact Hq|]. cbn [state_of].
    split; [apply cost_basis_sell_applied; exact Hh|].
    unfold sell_applied. cbn zeta. cbn.
    match goal with |- context [percentages_updated ?x] =>
      destruct (percentages_updated_fields x) as (_ & -> & -> & _) end.
    split; reflexivity.
Qed.

Lemma trade_all_lookup calls : forall n c s0 s,
  trade_all calls s0 = Some s ->
  calls !! n = Some c ->
  succeeds c (after_all (take n calls) s0) = true /\
  after_all (take (S n) calls) s0 = after c (after_all (take n calls) s0).
Proof.
  induction calls as [|c0 calls IH]; intros n c s0 s; [discriminate 2|].
  cbn [trade_all]. destruct (succeeds c0 s0) eqn:Es; [|discriminate].
  destruct n as [|n].
  - intros _ [= <-]. cbn. rewrite take_0. split; [exact Es | reflexivity].
  - intros H Hl. cbn in Hl.
    change (after_all (take (S n) (c0 :: calls)) s0)
      with (after_all (take n calls) (after c0 s0)).
    change (after_all (take (S (S n)) (c0 :: calls)) s0)
      with (after_all (take (S n) calls) (after c0 s0)).
    exact (IH n c _ _ H Hl).
Qed.

(** C1.  Conservation: starting from a fresh ledger, for any sequence of
    [execute_buy] and [execute_sell] calls that each return success,
    [available_cash + sum of quantity * avg_price over the holdings
    - total_pnl] equals [initial_budget], in exact arithmetic, after the
    whole sequence and after each of its calls (after every prefix).
    And each call of the sequence moves the value as stated: a buy takes
    [quantity * price] out of the cash and puts exactly that into the
    cost basis, the realized PnL staying; a sell takes
    [quantity * avg_price] out of the cost basis, adds [quantity * price]
    to the cash and books the difference into the realized PnL. *)
Theorem conservation (budget : option Q) (calls : list call) (s : t) :
  trade_all calls (init budget) = Some s ->
  conserved s /\
  (forall n, exists s_n,
     trade_all (take n calls) (init budget) = Some s_n /\ conserved s_n) /\
  (forall n c,
     calls !! n = Some c ->
     moved c (after_all (take n calls) (init budget))
       (after_all (take (S n) calls) (init budget))).
Proof.
  assert (Hinit : conserved (init budget)).
  { unfold conserved, init. cbn. rewrite cost_basis_empty. ring. }
  intros H. split; [eapply trade_all_conserved; eauto|]. split.
  - intros n. destruct (trade_all_prefix calls n _ _ H) as [s_n Hn].
    exists s_n. split; [exact Hn | eapply trade_all_conserved; eauto].
  - intros n c Hl.
    destruct (trade_all_lookup calls n c _ _ H Hl) as [Hs ->].
    apply succeeds_moved. exact Hs.
Qed.

Lemma conservation_witness :
  conserved after_profitable_sells /\
  moved (CallSell (sell_order "RELIANCE" 5 3000))
    (after_all [CallBuy (buy_order "RELIANCE" 10 1500);
                CallSell (sell_order "RELIANCE" 5 1600)] fresh)
    after_profitable_sells.
Proof.
  assert (H : trade_all
                [CallBuy (buy_order "RELIANCE" 10 1500);
                 CallSell (sell_order "RELIANCE" 5 1600);
                 CallSell (sell_order "RELIANCE" 5 3000)]
                (init (Some 100000))
              = Some after_profitable_sells) by (vm_compute; reflexivity).
  destruct (conservation _ _ _ H) as (H1 & _ & H3).
  split; [exact H1|]. exact (H3 2%nat _ eq_refl).
Defined.

(** ** Non-negativity *)

Lemma inject_Z_pos (n : Z) : (0 < n)%Z -> 0 < inject_Z n.
Proof. now rewrite Zlt_Qlt. Qed.

Lemma inject_Z_pos_inv (n : Z) : 0 < inject_Z n -> (0 < n)%Z.
Proof. now rewrite Zlt_Qlt. Qed.

Lemma inject_Z_nonneg (n : Z) : (0 <= n)%Z -> 0 <= inject_Z n.
Proof. now rewrite Zle_Qle. Qed.

Lemma py_int_nonneg x : 0 <= x -> (0 <= py_int x)%Z.
Proof.
  intros H. unfold py_int. apply Z.quot_pos; [|lia].
  unfold Qle in H. cbn in H. lia.
Qed.

Lemma sum_current_value_pos start (hs : gmap string Holding.t) :
  (forall symbol holding,
     hs !! symbol = Some holding -> 0 < Holding.current_value holding) ->
  start <= sum_current_value start hs /\
  (hs <> ∅ -> start < sum_current_value start hs).
Proof.
  unfold sum_current_value.
  apply (map_fold_weak_ind
           (fun r (m : gmap string Holding.t) =>
              (forall symbol holding,
                 m !! symbol = Some holding ->
                 0 < Holding.current_value holding) ->
              start <= r /\ (m <> ∅ -> start < r))).
  - intros _. split; [lra | congruence].
  - intros i x m r Hi IH Hpos.
    destruct IH as [IH _].
    { intros k h Hk. apply (Hpos k h).
      rewrite lookup_insert_ne; [exact Hk | congruence]. }
    pose proof (Hpos i x (lookup_insert_eq m i x)).
    split; [lra | intros _; lra].
Qed.

Lemma sound_total_value s :
  sound s -> 0 < sum_current_value (available_cash s) (holdings s).
Proof.
  intros (Hc & Hh & He).
  destruct (sum_current_value_pos (available_cash s) (holdings s)) as [H1 H2].
  { intros k h Hk. now apply (Hh k h). }
  destruct (decide (holdings s = ∅)) as [E|E].
  - specialize (He E). lra.
  - specialize (H2 E). lra.
Qed.

Lemma sound_non_negative s : sound s -> non_negative s.
Proof.
  intros (Hc & Hh & _). split; [exact Hc|].
  intros k h Hk. now apply (Hh k h).
Qed.

Lemma sound_same_books s s' : same_books s s' -> sound s -> sound s'.
Proof.
  intros (_ & Ec & Eh & _) H. unfold sound. now rewrite Ec, Eh.
Qed.

Lemma sound_percentages_updated s : sound s -> sound (percentages_updated s).
Proof.
  intros (Hc & Hh & He).
  destruct (percentages_updated_fields s) as (_ & Ec & _ & _ & [Eh | [tv Eh]]);
    unfold sound; rewrite Ec, Eh; [auto|].
  split; [exact Hc|]. split.
  - intros k h. unfold with_percentages. rewrite lookup_fmap.
    destruct (holdings s !! k) as [h0|] eqn:E; [|discriminate].
    intros [= <-]. cbn. now apply (Hh k).
  - intros E. apply He. eapply fmap_empty_inv. exact E.
Qed.

Lemma sound_init budget : 0 < budget -> sound (init (Some budget)).
Proof.
  intros H. unfold init, float_or.
  assert (E : Qeq_bool budget 0 = false) by (apply Qeq_bool_false; lra).
  rewrite E. unfold sound. cbn.
  split; [lra|]. split; [|auto].
  intros k h. rewrite lookup_empty. discriminate.
Qed.

Lemma sound_buy_applied r quantity price s :
  sound s -> 0 < price -> (0 < quantity)%Z ->
  inject_Z quantity * price <= available_cash s ->
  sound (buy_applied r quantity price s).
Proof.
  intros (Hc & Hh & He) Hp Hq Hcost. unfold buy_applied. cbn zeta.
  match goal with |- sound (set_trade_history ?x _) =>
    assert (Hs : sound x); [|exact Hs] end.
  apply sound_percentages_updated. unfold sound. cbn.
  split; [lra|]. split; [|intros E; now apply insert_non_empty in E].
  intros k h. destruct (decide (TradeRequest.symbol r = k)) as [<-|Hne].
  - rewrite lookup_insert_eq. intros [= <-].
    destruct (holdings s !! TradeRequest.symbol r) as [h0|] eqn:E; cbn.
    + destruct (Hh _ _ E) as [Hq0 _].
      assert (0 < Holding.quantity h0 + quantity)%Z by (clear - Hq Hq0; lia).
      split; [assumption|]. apply Qmult_lt_0_compat; [|exact Hp].
      now apply inject_Z_pos.
    + split; [exact Hq|]. apply Qmult_lt_0_compat; [|exact Hp].
      now apply inject_Z_pos.
  - rewrite lookup_insert_ne by exact Hne. apply Hh.
Qed.

Lemma sound_sell_applied r holding quantity price s :
  sound s -> holdings s !! TradeRequest.symbol r = Some holding ->
  0 < price -> (0 <= quantity <= Holding.quantity holding)%Z ->
  sound (sell_applied r holding quantity price s).
Proof.
  intros (Hc & Hh & He) Hl Hp Hq. unfold sell_applied. cbn zeta.
  match goal with |- sound (set_trade_history ?x _) =>
    assert (Hs : sound x); [|exact Hs] end.
  apply sound_percentages_updated. unfold sound. cbn.
  assert (Hproceeds : 0 <= inject_Z quantity * price).
  { apply Qmult_le_0_compat; [apply inject_Z_nonneg; lia | lra]. }
  split; [lra|].
  destruct (_ =? _)%Z eqn:Ez.
  - apply Z.eqb_eq in Ez. split.
    + intros k h Hk. apply (Hh k h).
      apply lookup_delete_Some in Hk. tauto.
    + intros _. destruct (Hh _ _ Hl) as [Hq0 _].
      assert (0 < inject_Z quantity * price);
        [apply Qmult_lt_0_compat; [apply inject_Z_pos; lia | exact Hp] | lra].
  - apply Z.eqb_neq in Ez.
    split; [|intros E; now apply insert_non_empty in E].
    intros k h. destruct (decide (TradeRequest.symbol r = k)) as [<-|Hne].
    + rewrite lookup_insert_eq. intros [= <-]. cbn.
      split; [lia|]. apply Qmult_lt_0_compat; [|exact Hp].
      apply inject_Z_pos. lia.
    + rewrite lookup_insert_ne by exact Hne. apply Hh.
Qed.

Lemma sound_price_applied symbol holding current_price s :
  sound s -> holdings s !! symbol = Some holding -> 0 < current_price ->
  sound (price_applied symbol holding current_price s).
Proof.
  intros (Hc & Hh & He) Hl Hp. unfold price_applied. cbn zeta.
  destruct (Hh _ _ Hl) as [Hq0 _].
  assert (Hv : 0 < inject_Z (Holding.quantity holding) * current_price)
    by (apply Qmult_lt_0_compat; [now apply inject_Z_pos | exact Hp]).
  destruct (Qgtb _ 0); unfold sound; cbn;
    (split; [exact Hc|];
     split; [|intros E; now apply insert_non_empty in E]);
    intros k h; (destruct (decide (symbol = k)) as [<-|Hne]);
    rewrite ?lookup_insert_eq, ?lookup_insert_ne by exact Hne;
    try (intros [= <-]; cbn; split; assumption);
    try apply Hh.
Qed.

Lemma sell_quantity_nonneg r holding quantity :
  signed (CallSell r) -> (0 < Holding.quantity holding)%Z ->
  sell_quantity r holding = Some quantity -> (0 <= quantity)%Z.
Proof.
  intros [Hq Hpct] Hh. unfold sell_quantity.
  destruct (TradeRequest.percentage r) as [pct|] eqn:Ep; cbn.
  - destruct (negb (Qeq_bool pct 0)).
    + intros [= <-]. apply py_int_nonneg.
      specialize (Hpct pct eq_refl).
      apply Qmult_le_0_compat; [apply inject_Z_nonneg; lia|].
      assert (pct / 100 == pct * (1 # 100)) as -> by field. lra.
    + destruct (TradeRequest.quantity r) as [q|]; cbn; [|discriminate].
      destruct (negb _); [|discriminate]. intros [= <-]. now apply Hq.
  - destruct (TradeRequest.quantity r) as [q|]; cbn; [|discriminate].
    destruct (negb _); [|discriminate]. intros [= <-]. now apply Hq.
Qed.

Lemma sound_after c s : sound s -> signed c -> sound (after c s).
Proof.
  intros Hs Hc. destruct c as [r|r|symbol p]; cbn.
  - destruct (execute_buy r s) as [[[|] m] s'|e s'] eqn:E; cbn.
    + destruct (execute_buy_succeeded _ _ _ _ E)
        as (q & Hp & _ & (m' & s1 & Hcan) & _ & ->).
      apply can_buy_passed in Hcan. cbn zeta in Hcan.
      destruct Hcan as (Hcost & Htv & Hlo & _).
      pose proof (sound_total_value s Hs) as Hpos.
      pose proof (percentage_times
                    (inject_Z q * float_or (TradeRequest.price r) 0) _ Htv).
      apply sound_buy_applied; try assumption.
      apply inject_Z_pos_inv. nra.
    + destruct (execute_buy_failed _ _ _ _ E) as [-> | ->];
        [assumption | eapply sound_same_books; eauto using same_books_refresh].
    + revert E. rewrite execute_buy_eq. cbn zeta.
      destruct (negb _); [discriminate|].
      destruct (Qleb _ 0) eqn:Ep; [discriminate|].
      destruct (buy_quantity _ _ _) as [q|]; [|discriminate].
      destruct (can_buy _ _ _ _) as [[[|] m] s1|e1 s1] eqn:Ec.
      * pose proof (can_buy_passed _ _ _ _ _ _ Ec) as Hcan.
        cbn zeta in Hcan. destruct Hcan as (Hcost & Htv & Hlo & _).
        pose proof (sound_total_value s Hs) as Hpos.
        pose proof (percentage_times
                      (inject_Z q * float_or (TradeRequest.price r) 0) _ Htv).
        apply Qleb_false in Ep.
        assert (Hq : (0 < q)%Z) by (apply inject_Z_pos_inv; nra).
        destruct (holdings s !! _) as [h|] eqn:Eh; [|discriminate].
        destruct Hs as (_ & Hh & _). destruct (Hh _ _ Eh) as [Hq0 _].
        destruct (_ =? _)%Z eqn:Ez; [|discriminate].
        apply Z.eqb_eq in Ez. lia.
      * discriminate.
      * inversion 1; subst.
        pose proof (can_buy_same_books (TradeRequest.symbol r) q
                      (float_or (TradeRequest.price r) 0) s) as Hb.
        rewrite Ec in Hb. cbn in Hb. eapply sound_same_books; eauto.
  - destruct (execute_sell r s) as [[[|] m] s'|e s'] eqn:E; cbn.
    + destruct (execute_sell_succeeded _ _ _ _ E)
        as (h & q & Hp & Hl & Hq & Hle & ->).
      pose proof Hs as (H1 & Hh & H3). destruct (Hh _ _ Hl) as [Hq0 _].
      pose proof (sell_quantity_nonneg r h q Hc Hq0 Hq).
      apply sound_sell_applied; try assumption. split; assumption.
    + now rewrite (execute_sell_failed _ _ _ _ E).
    + revert E. rewrite execute_sell_eq. cbn zeta.
      repeat (match goal with |- context [match ?b with _ => _ end] =>
                destruct b end; try discriminate).
  - rewrite update_holding_price_eq.
    destruct (holdings s !! symbol) as [h|] eqn:Eh; cbn; [|assumption].
    now apply sound_price_applied.
Qed.

Lemma full_sell_removes_holding r s msg s' holding :
  execute_sell r s = Ret (true, msg) s' ->
  holdings s !! TradeRequest.symbol r = Some holding ->
  sell_quantity r holding = Some (Holding.quantity holding) ->
  holdings s' !! TradeRequest.symbol r = None.
Proof.
  intros E Hl Hq.
  destruct (execute_sell_succeeded _ _ _ _ E) as (h & q & _ & Hl' & Hq' & _ & ->).
  rewrite Hl in Hl'. injection Hl' as <-.
  rewrite Hq in Hq'. injection Hq' as <-.
  unfold sell_applied. cbn zeta. cbn.
  match goal with |- holdings (percentages_updated ?x) !! _ = _ =>
    destruct (percentages_updated_fields x) as (_ & _ & _ & _ & [-> | [tv ->]])
  end; cbn; rewrite Z.sub_diag; cbn.
  - apply lookup_delete_eq.
  - unfold with_percentages. now rewrite lookup_fmap, lookup_delete_eq.
Qed.

(** C3, as the code has it.  From a fresh ledger with a positive budget,
    after any sequence of [update_holding_price], [execute_buy] and
    [execute_sell] calls on finite numbers whose results stay finite, in
    which every price update has a positive price and no sell order has
    a negative quantity or percentage (buy orders are otherwise
    arbitrary), the available cash is not negative and every stored
    holding has a positive quantity; and a sell that succeeds there for
    the whole quantity of a holding, bringing it to 0, deletes the
    holding.  The numbers of the statement are rationals: a [nan] or
    infinite price, percentage or budget, and a product that overflows
    to one, are not among them, and the statement says nothing of
    ledgers that hold such a value. *)
Theorem non_negativity (budget : Q) (calls : list call) :
  0 < budget -> Forall signed calls ->
  let s := after_all calls (init (Some budget)) in
  non_negative s /\
  forall r msg s' holding,
    execute_sell r s = Ret (true, msg) s' ->
    holdings s !! TradeRequest.symbol r = Some holding ->
    sell_quantity r holding = Some (Holding.quantity holding) ->
    holdings s' !! TradeRequest.symbol r = None.
Proof.
  intros Hb Hcalls s.
  split; [|intros r msg s' holding; apply full_sell_removes_holding].
  apply sound_non_negative. subst s.
  pose proof (sound_init budget Hb) as Hs.
  revert Hs. generalize (init (Some budget)) as s.
  induction Hcalls as [|c calls Hc _ IH]; intros s Hs; cbn; [exact Hs|].
  apply IH. now apply sound_after.
Qed.

Lemma non_negativity_witness :
  non_negative (after_all scenario_calls (init (Some 100000))).
Proof.
  refine (proj1 (non_negativity 100000 scenario_calls _ _));
    [reflexivity|].
  repeat constructor; cbn; try discriminate.
  intros pct [= <-]. vm_compute. discriminate.
Defined.

(** C3 as stated fails: with arbitrary order values a sell order for -100
    shares passes [can_sell] (which only checks [quantity > held]), and
    after a buy of 10 at 1500 on a budget of 100000 it leaves the
    available cash at -65000.  And with an arbitrary update price: once
    the price of the holding is set to -10000 the total value is
    negative, a buy order for -1 share passes [can_buy] and is stored as a
    holding of quantity -1. *)
Lemma negative_sell_makes_cash_negative :
  0 < initial_budget fresh /\
  trade_all negative_sell_calls fresh
  = Some (after_all negative_sell_calls fresh) /\
  available_cash (after_all negative_sell_calls fresh) == -65000 /\
  ~ non_negative (after_all negative_sell_calls fresh) /\
  Holding.quantity
    <$> holdings (after_all negative_price_calls fresh) !! "TCS"
  = Some (-1)%Z /\
  ~ non_negative (after_all negative_price_calls fresh).
Proof.
  split; [reflexivity|]. split; [vm_compute; reflexivity|].
  split; [vm_compute; reflexivity|].
  split; [intros [H _]; vm_compute in H; apply H; reflexivity|].
  split; [vm_compute; reflexivity|].
  intros [_ H].
  destruct (holdings (after_all negative_price_calls fresh) !! "TCS")
    as [h|] eqn:E; [|vm_compute in E; discriminate].
  specialize (H "TCS" h E).
  assert (Eq : Holding.quantity h = (-1)%Z).
  { assert (E' : Holding.quantity
                   <$> holdings (after_all negative_price_calls fresh) !! "TCS"
                 = Some (-1)%Z) by (vm_compute; reflexivity).
    rewrite E in E'. now injection E'. }
  rewrite Eq in H. clear - H. discriminate H.
Qed.

(** ** The decision combination *)

Import MainAgent.

Lemma _calculate_position_size_returns {S} agent_decisions
    (portfolio_state : gmap string Q) (s : S) :
  ~ default 1 (portfolio_state !! "total_value") == 0 ->
  exists position_size,
    _calculate_position_size agent_decisions portfolio_state s
    = Ret position_size s.
Proof.
  intros H. apply Qeq_bool_false in H.
  unfold _calculate_position_size.
  destruct agent_decisions; [eexists; reflexivity|].
  rewrite H. eexists; reflexivity.
Qed.

Lemma vote_buy acc d :
  AgentDecision.decision d = DT_BUY ->
  vote acc d
  = mk_tally (buy_votes acc + 1) (sell_votes acc) (hold_votes acc)
      (total_confidence acc + AgentDecision.confidence d)
      (weighted_confidence acc + AgentDecision.confidence d * (12 # 10)).
Proof. intros E. unfold vote. rewrite E. reflexivity. Qed.

Lemma tally_three_buys d1 d2 d3 :
  AgentDecision.decision d1 = DT_BUY ->
  AgentDecision.decision d2 = DT_BUY ->
  AgentDecision.decision d3 = DT_BUY ->
  foldl vote (mk_tally 0 0 0 0 0) [d1; d2; d3]
  = mk_tally 3 0 0
      (0 + AgentDecision.confidence d1 + AgentDecision.confidence d2
       + AgentDecision.confidence d3)
      (0 + AgentDecision.confidence d1 * (12 # 10)
       + AgentDecision.confidence d2 * (12 # 10)
       + AgentDecision.confidence d3 * (12 # 10)).
Proof.
  intros E1 E2 E3. change (foldl vote (mk_tally 0 0 0 0 0) [d1; d2; d3])
    with (vote (vote (vote (mk_tally 0 0 0 0 0) d1) d2) d3).
  rewrite (vote_buy _ d1 E1), (vote_buy _ d2 E2), (vote_buy _ d3 E3).
  reflexivity.
Qed.

(** C5, as the code has it.  Three votes that are all BUY with the same
    confidence [c] combine, when the portfolio dictionary does not carry
    a total value of zero, to the confidence [c * 1.2], because the
    combination weights buy votes by 1.2 before it compares with the buy
    threshold of 70.  The final action is then BUY when [c * 1.2 >= 70]
    and HOLD when [c * 1.2 < 70]; at confidence 60 the weighted
    confidence is 72 and the final action is BUY.  When the dictionary
    carries a total value of zero, the position sizing divides by it:
    the function raises [ZeroDivisionError] and returns no decision. *)
Theorem three_buy_votes_gating {S} (analysis_data : AnalysisData.t)
    (portfolio_state : gmap string Q) (s : S)
    (d1 d2 d3 : AgentDecision.t) (c : Q) :
  Forall (fun d => AgentDecision.decision d = DT_BUY /\
                   AgentDecision.confidence d == c) [d1; d2; d3] ->
  (default 1 (portfolio_state !! "total_value") == 0 ->
   _make_final_decision analysis_data [d1; d2; d3] portfolio_state s
   = Raise ZeroDivisionError s) /\
  (~ default 1 (portfolio_state !! "total_value") == 0 ->
   exists decision,
     _make_final_decision analysis_data [d1; d2; d3] portfolio_state s
     = Ret decision s /\
     MainAgentDecision.confidence decision == c * (12 # 10) /\
     (70 <= c * (12 # 10) -> MainAgentDecision.final_action decision = BUY) /\
     (c * (12 # 10) < 70 -> MainAgentDecision.final_action decision = HOLD) /\
     (c == 60 ->
      MainAgentDecision.final_action decision = BUY /\
      MainAgentDecision.confidence decision == 72)).
Proof.
  intros Hv. split.
  { intros Hz. apply Qeq_bool_iff in Hz.
    unfold _make_final_decision. unfold mbind, M_bind.
    unfold _calculate_position_size. rewrite Hz. reflexivity. }
  intros Htv.
  apply Forall_cons in Hv as [[E1 C1] Hv].
  apply Forall_cons in Hv as [[E2 C2] Hv].
  apply Forall_cons in Hv as [[E3 C3] _].
  destruct (_calculate_position_size_returns [d1; d2; d3] portfolio_state s Htv)
    as [position_size Hps].
  unfold _make_final_decision. unfold mbind, M_bind. rewrite Hps.
  destruct (_calculate_risk_levels _ _) as [stop_loss take_profit].
  eexists. split; [reflexivity|].
  rewrite (tally_three_buys d1 d2 d3 E1 E2 E3). cbn.
  set (w := (0 + AgentDecision.confidence d1 * (12 # 10)
             + AgentDecision.confidence d2 * (12 # 10)
             + AgentDecision.confidence d3 * (12 # 10)) / len [d1; d2; d3]).
  assert (Hw : w == c * (12 # 10)).
  { unfold w, len. cbn. rewrite C1, C2, C3. field. }
  unfold final_action_of, Qgeb. cbn.
  split; [exact Hw|]. split; [|split].
  - intros H. assert (Hb : Qle_bool TradingConfig.BUY_CONFIDENCE_THRESHOLD w = true).
    { apply Qle_bool_iff. rewrite Hw. exact H. }
    now rewrite Hb.
  - intros H. assert (Hb : Qle_bool TradingConfig.BUY_CONFIDENCE_THRESHOLD w = false).
    { apply Qleb_false. rewrite Hw. exact H. }
    now rewrite Hb.
  - intros Hc. assert (Hb : Qle_bool TradingConfig.BUY_CONFIDENCE_THRESHOLD w = true).
    { apply Qle_bool_iff. rewrite Hw, Hc. vm_compute. discriminate. }
    rewrite Hb. split; [reflexivity|]. rewrite Hw, Hc. reflexivity.
Qed.

Lemma three_buy_votes_gating_witness :
  (exists decision,
     _make_final_decision sample_analysis
       [buy_vote 60; buy_vote 60; buy_vote 60]
       sample_portfolio_state tt = Ret decision tt /\
     MainAgentDecision.final_action decision = BUY /\
     MainAgentDecision.confidence decision == 72) /\
  (exists decision,
     _make_final_decision sample_analysis
       [buy_vote 58; buy_vote 58; buy_vote 58]
       sample_portfolio_state tt = Ret decision tt /\
     MainAgentDecision.final_action decision = HOLD) /\
  _make_final_decision sample_analysis
    [buy_vote 60; buy_vote 60; buy_vote 60]
    zero_value_portfolio_state tt = Raise ZeroDivisionError tt.
Proof.
  split; [|split].
  - destruct (proj2 (three_buy_votes_gating sample_analysis
                       sample_portfolio_state tt
                       (buy_vote 60) (buy_vote 60) (buy_vote 60) 60
                       ltac:(repeat constructor)))
      as (decision & E & _ & _ & _ & H).
    + vm_compute. discriminate.
    + exists decision. split; [exact E|]. apply H. reflexivity.
  - destruct (proj2 (three_buy_votes_gating sample_analysis
                       sample_portfolio_state tt
                       (buy_vote 58) (buy_vote 58) (buy_vote 58) 58
                       ltac:(repeat constructor)))
      as (decision & E & _ & _ & H & _).
    + vm_compute. discriminate.
    + exists decision. split; [exact E|]. apply H. reflexivity.
  - refine (proj1 (three_buy_votes_gating sample_analysis
                     zero_value_portfolio_state tt
                     (buy_vote 60) (buy_vote 60) (buy_vote 60) 60
                     ltac:(repeat constructor)) _).
    reflexivity.
Defined.

(** C5 as stated fails: three BUY votes with confidence 60 combine, under
    the buy threshold 70, to the final action BUY (weighted confidence
    72), not HOLD. *)
Lemma three_buy_votes_at_60_give_buy :
  TradingConfig.BUY_CONFIDENCE_THRESHOLD = 70 /\
  MainAgentDecision.final_action
    <$> value_of (_make_final_decision sample_analysis
                    [buy_vote 60; buy_vote 60; buy_vote 60]
                    sample_portfolio_state tt)
  = Some BUY.
Proof. split; reflexivity. Qed.

(** C8, as the code has it.  An empty vote list returns normally, for
    every portfolio dictionary, the decision with final action HOLD,
    confidence 0, risk MEDIUM, position size 10 and next interval
    "1hour"; its stop loss and take profit are not absent: they are the
    MEDIUM levels [price * (1 - 0.05)] and [price * (1 + 0.15)] of the
    current price. *)
Theorem empty_votes_decision {S} (analysis_data : AnalysisData.t)
    (portfolio_state : gmap string Q) (s : S) :
  _make_final_decision analysis_data [] portfolio_state s
  = Ret (MainAgentDecision.mk HOLD (AnalysisData.symbol analysis_data)
           None None None 0 [] MEDIUM 10
           (Some (AnalysisData.current_price analysis_data
                  * (1 - TradingConfig.STOP_LOSS_PERCENTAGE)))
           (Some (AnalysisData.current_price analysis_data
                  * (1 + TradingConfig.TAKE_PROFIT_PERCENTAGE)))
           (Some "1hour")) s.
Proof.
  unfold _make_final_decision, mbind, M_bind.
  change (_calculate_position_size [] portfolio_state s) with (Ret 10 s).
  change (_determine_risk_level []) with MEDIUM.
  cbn. reflexivity.
Qed.

(** C8 as stated fails: with no votes and a current price of 1000 the
    decision carries a stop loss of 950 and a take profit of 1150. *)
Lemma empty_votes_have_stop_and_target :
  exists decision,
    _make_final_decision sample_analysis [] sample_portfolio_state tt
    = Ret decision tt /\
    MainAgentDecision.final_action decision = HOLD /\
    MainAgentDecision.stop_loss decision = Some (1000 * (1 - (5 # 100))) /\
    MainAgentDecision.take_profit decision = Some (1000 * (1 + (15 # 100))) /\
    MainAgentDecision.stop_loss decision <> None /\
    MainAgentDecision.take_profit decision <> None.
Proof.
  eexists. split; [reflexivity|]. cbn.
  repeat split; discriminate.
Qed.

(** * Further properties of the ledger *)

(** ** What a trade leaves in the holdings *)

Lemma lookup_percentages_updated s symbol :
  match holdings s !! symbol with
  | None => holdings (percentages_updated s) !! symbol = None
  | Some h =>
      exists h', holdings (percentages_updated s) !! symbol = Some h' /\
                 same_position h h'
  end.
Proof.
  destruct (percentages_updated_fields s) as (_ & _ & _ & _ & [-> | [tv ->]]).
  - destruct (holdings s !! symbol) as [h|]; [|reflexivity].
    exists h. split; [reflexivity | repeat split].
  - unfold with_percentages. rewrite lookup_fmap.
    destruct (holdings s !! symbol) as [h|]; [|reflexivity]. cbn.
    eexists. split; [reflexivity | repeat split].
Qed.

Lemma lookup_buy_applied r quantity price s :
  exists h',
    holdings (buy_applied r quantity price s) !! TradeRequest.symbol r
    = Some h' /\
    same_position
      (bought (holdings s !! TradeRequest.symbol r) (TradeRequest.symbol r)
         quantity price) h'.
Proof.
  unfold buy_applied. cbn zeta. cbn.
  match goal with |- context [percentages_updated ?x] =>
    pose proof (lookup_percentages_updated x (TradeRequest.symbol r)) as H end.
  cbn in H. rewrite lookup_insert_eq in H. exact H.
Qed.

Lemma lookup_buy_applied_ne r quantity price s symbol :
  TradeRequest.symbol r <> symbol ->
  match holdings s !! symbol with
  | None => holdings (buy_applied r quantity price s) !! symbol = None
  | Some h =>
      exists h', holdings (buy_applied r quantity price s) !! symbol = Some h' /\
                 same_position h h'
  end.
Proof.
  intros Hne. unfold buy_applied. cbn zeta. cbn.
  match goal with |- context [percentages_updated ?x] =>
    pose proof (lookup_percentages_updated x symbol) as H end.
  cbn in H. rewrite lookup_insert_ne in H by exact Hne. exact H.
Qed.

Lemma lookup_sell_applied r holding quantity price s :
  holdings s !! TradeRequest.symbol r = Some holding ->
  if (Holding.quantity holding - quantity =? 0)%Z
  then holdings (sell_applied r holding quantity price s)
       !! TradeRequest.symbol r = None
  else exists h',
         holdings (sell_applied r holding quantity price s)
         !! TradeRequest.symbol r = Some h' /\
         same_position (sold holding quantity price) h'.
Proof.
  intros Hl. unfold sell_applied. cbn zeta. cbn.
  match goal with |- context [percentages_updated ?x] =>
    pose proof (lookup_percentages_updated x (TradeRequest.symbol r)) as H end.
  cbn in H. destruct (_ =? _)%Z.
  - rewrite lookup_delete_eq in H. exact H.
  - rewrite lookup_insert_eq in H. exact H.
Qed.

Lemma buy_applied_fields r quantity price s :
  initial_budget (buy_applied r quantity price s) = initial_budget s /\
  available_cash (buy_applied r quantity price s)
  = available_cash s - inject_Z quantity * price /\
  total_pnl (buy_applied r quantity price s) = total_pnl s /\
  trade_history (buy_applied r quantity price s) = trade_history s ++ [r].
Proof.
  unfold buy_applied. cbn zeta. cbn.
  match goal with |- context [percentages_updated ?x] =>
    destruct (percentages_updated_fields x) as (-> & -> & -> & -> & _) end.
  repeat split.
Qed.

Lemma sell_applied_fields r holding quantity price s :
  initial_budget (sell_applied r holding quantity price s) = initial_budget s /\
  available_cash (sell_applied r holding quantity price s)
  = available_cash s + inject_Z quantity * price /\
  total_pnl (sell_applied r holding quantity price s)
  = total_pnl s
    + (inject_Z quantity * price
       - inject_Z quantity * Holding.avg_price holding) /\
  trade_history (sell_applied r holding quantity price s)
  = trade_history s ++ [r].
Proof.
  unfold sell_applied. cbn zeta. cbn.
  match goal with |- context [percentages_updated ?x] =>
    destruct (percentages_updated_fields x) as (-> & -> & -> & -> & _) end.
  repeat split.
Qed.

(** ** Cost basis across buys and sells *)

(** X1.  A successful [execute_buy] of [quantity > 0] shares onto a holding
    with a positive quantity adds the quantities, keeps the total cost
    basis ([quantity * avg_price] grows by exactly [quantity * price]),
    leaves the new average price between the old average and the order
    price, and stores the order price as the current price. *)
Theorem buy_more_averages_cost (r : TradeRequest.t) (s s' : t) (msg : message)
    (holding : Holding.t) (quantity : Z) :
  let price := float_or (TradeRequest.price r) 0 in
  execute_buy r s = Ret (true, msg) s' ->
  holdings s !! TradeRequest.symbol r = Some holding ->
  buy_quantity r price s = Some quantity ->
  (0 < Holding.quantity holding)%Z -> (0 < quantity)%Z ->
  exists holding',
    holdings s' !! TradeRequest.symbol r = Some holding' /\
    Holding.quantity holding' = (Holding.quantity holding + quantity)%Z /\
    basis_of holding' == basis_of holding + inject_Z quantity * price /\
    (Holding.avg_price holding <= price ->
     Holding.avg_price holding <= Holding.avg_price holding' /\
     Holding.avg_price holding' <= price) /\
    (price <= Holding.avg_price holding ->
     price <= Holding.avg_price holding' /\
     Holding.avg_price holding' <= Holding.avg_price holding) /\
    Holding.current_price holding' = price.
Proof.
  intros price E Hl Hq Hqh Hq0.
  destruct (execute_buy_succeeded _ _ _ _ E) as (q & _ & Hq' & _ & _ & ->).
  fold price in Hq'. rewrite Hq in Hq'. injection Hq' as <-.
  destruct (lookup_buy_applied r quantity price s)
    as (h' & Hl' & _ & Eq & Ea & Ep & _).
  rewrite Hl in Eq, Ea, Ep. cbn in Eq, Ea, Ep.
  exists h'. split; [exact Hl'|]. split; [exact Eq|].
  assert (Hd : 0 < inject_Z (Holding.quantity holding + quantity))
    by (apply inject_Z_pos; clear - Hqh Hq0; lia).
  assert (HA : 0 < inject_Z (Holding.quantity holding))
    by now apply inject_Z_pos.
  assert (HB : 0 < inject_Z quantity) by now apply inject_Z_pos.
  assert (Hsum : inject_Z (Holding.quantity holding + quantity)
                 == inject_Z (Holding.quantity holding) + inject_Z quantity)
    by (rewrite inject_Z_plus; reflexivity).
  assert (Hb : Holding.avg_price h'
               * inject_Z (Holding.quantity holding + quantity)
               == inject_Z (Holding.quantity holding)
                  * Holding.avg_price holding
                  + inject_Z quantity * price).
  { rewrite Ea. field. lra. }
  split; [|split; [|split; [|exact Ep]]].
  - unfold basis_of. rewrite Eq. rewrite <- Hb. ring.
  - intros Hle. rewrite Hsum in Hb. split; nra.
  - intros Hle. rewrite Hsum in Hb. split; nra.
Qed.

Lemma buy_more_averages_cost_witness :
  exists holding',
    holdings after_second_buy !! "RELIANCE" = Some holding' /\
    Holding.quantity holding' = 20%Z /\
    1500 <= Holding.avg_price holding' /\
    Holding.avg_price holding' <= 2000.
Proof.
  destruct (holdings after_first_buy !! "RELIANCE") as [h|] eqn:Eh;
    [|vm_compute in Eh; discriminate Eh].
  assert (Hq : Holding.quantity h = 10%Z).
  { assert (E : Holding.quantity <$> holdings after_first_buy !! "RELIANCE"
                = Some 10%Z) by (vm_compute; reflexivity).
    rewrite Eh in E. injection E as E1. exact E1. }
  assert (Ha : Holding.avg_price h = 1500).
  { assert (E : Holding.avg_price <$> holdings after_first_buy !! "RELIANCE"
                = Some 1500) by (vm_compute; reflexivity).
    rewrite Eh in E. injection E as E1. exact E1. }
  destruct (buy_more_averages_cost (buy_order "RELIANCE" 10 2000)
              after_first_buy after_second_buy
              (MsgBought 10 "RELIANCE" 2000) h 10)
    as (h' & Hl & Hq' & _ & Hlo & _).
  - vm_compute. reflexivity.
  - exact Eh.
  - reflexivity.
  - rewrite Hq. reflexivity.
  - reflexivity.
  - exists h'. split; [exact Hl|]. split; [rewrite Hq', Hq; reflexivity|].
    rewrite Ha in Hlo. apply Hlo. vm_compute. discriminate.
Defined.

(** X2.  A successful [execute_sell] credits [quantity * price] to the cash,
    adds [quantity * price - quantity * avg_price] to the realized PnL and
    reports that amount in its message.  When shares remain, the holding
    keeps its average price and its stored current price, has the
    quantity reduced, and is valued at the sale price. *)
Theorem sell_books_realized_pnl (r : TradeRequest.t) (s s' : t) (msg : message) :
  let price := float_or (TradeRequest.price r) 0 in
  execute_sell r s = Ret (true, msg) s' ->
  exists holding quantity,
    holdings s !! TradeRequest.symbol r = Some holding /\
    sell_quantity r holding = Some quantity /\
    let realized_pnl :=
      inject_Z quantity * price
      - inject_Z quantity * Holding.avg_price holding in
    msg = MsgSold quantity (TradeRequest.symbol r) price realized_pnl /\
    available_cash s' = available_cash s + inject_Z quantity * price /\
    total_pnl s' = total_pnl s + realized_pnl /\
    (quantity <> Holding.quantity holding ->
     exists holding',
       holdings s' !! TradeRequest.symbol r = Some holding' /\
       Holding.quantity holding' = (Holding.quantity holding - quantity)%Z /\
       Holding.avg_price holding' = Holding.avg_price holding /\
       Holding.current_price holding' = Holding.current_price holding /\
       Holding.current_value holding'
       = inject_Z (Holding.quantity holding - quantity) * price).
Proof.
  intros price E.
  destruct (execute_sell_succeeded _ _ _ _ E) as (h & q & _ & Hl & Hq & _ & Es).
  exists h, q. split; [exact Hl|]. split; [exact Hq|]. cbn zeta.
  split.
  - revert E. rewrite execute_sell_eq. cbn zeta. rewrite Hl, Hq.
    destruct (negb _); [discriminate|].
    destruct (Qleb _ 0); [discriminate|].
    destruct (_ >? _)%Z; [discriminate|]. now intros [= <- _].
  - subst s'. fold price.
    destruct (sell_applied_fields r h q price s) as (_ & -> & -> & _).
    split; [reflexivity|]. split; [reflexivity|].
    intros Hne. pose proof (lookup_sell_applied r h q price s Hl) as H.
    destruct (_ =? _)%Z eqn:Ez; [apply Z.eqb_eq in Ez; clear - Ez Hne; lia|].
    destruct H as (h' & Hl' & _ & Eq & Ea & Ep & Ev & _).
    exists h'. cbn in Eq, Ea, Ep, Ev. now repeat split.
Qed.

Lemma sell_books_realized_pnl_witness :
  exists holding quantity,
    holdings after_first_buy !! "RELIANCE" = Some holding /\
    sell_quantity (sell_order "RELIANCE" 5 1600) holding = Some quantity /\
    total_pnl (after (CallSell (sell_order "RELIANCE" 5 1600)) after_first_buy)
    = total_pnl after_first_buy
      + (inject_Z quantity * 1600
         - inject_Z quantity * Holding.avg_price holding).
Proof.
  destruct (sell_books_realized_pnl (sell_order "RELIANCE" 5 1600)
              after_first_buy
              (after (CallSell (sell_order "RELIANCE" 5 1600)) after_first_buy)
              (MsgSold 5 "RELIANCE" 1600 (inject_Z 5 * 1600 - inject_Z 5 * 1500)))
    as (h & q & Hl & Hq & _ & _ & Hp & _).
  - vm_compute. reflexivity.
  - exists h, q. split; [exact Hl|]. split; [exact Hq | exact Hp].
Defined.

(** X3.  Selling the whole quantity of a holding and then buying the symbol
    again starts a fresh cost basis: the new holding has the bought
    quantity, the new order's price as average price and current price,
    and no unrealized PnL; nothing of the old average survives. *)
Theorem full_close_resets_basis (r1 r2 : TradeRequest.t) (s s1 s2 : t)
    (m1 m2 : message) (holding : Holding.t) :
  execute_sell r1 s = Ret (true, m1) s1 ->
  holdings s !! TradeRequest.symbol r1 = Some holding ->
  sell_quantity r1 holding = Some (Holding.quantity holding) ->
  TradeRequest.symbol r2 = TradeRequest.symbol r1 ->
  execute_buy r2 s1 = Ret (true, m2) s2 ->
  let price := float_or (TradeRequest.price r2) 0 in
  exists holding' quantity,
    buy_quantity r2 price s1 = Some quantity /\
    holdings s2 !! TradeRequest.symbol r2 = Some holding' /\
    Holding.quantity holding' = quantity /\
    Holding.avg_price holding' = price /\
    Holding.current_price holding' = price /\
    Holding.current_value holding' = inject_Z quantity * price /\
    Holding.unrealized_pnl holding' = 0.
Proof.
  intros E1 Hl Hq Hsym E2 price.
  pose proof (full_sell_removes_holding _ _ _ _ _ E1 Hl Hq) as Hnone.
  rewrite <- Hsym in Hnone.
  destruct (execute_buy_succeeded _ _ _ _ E2) as (q & _ & Hq' & _ & _ & ->).
  destruct (lookup_buy_applied r2 q price s1)
    as (h' & Hl' & _ & Eq & Ea & Ep & Ev & Eu & _).
  rewrite Hnone in Eq, Ea, Ep, Ev, Eu. cbn in Eq, Ea, Ep, Ev, Eu.
  exists h', q. now repeat split.
Qed.

Lemma full_close_resets_basis_witness :
  exists holding' quantity,
    buy_quantity (buy_order "RELIANCE" 5 2000) 2000 after_profitable_sells
    = Some quantity /\
    holdings (after (CallBuy (buy_order "RELIANCE" 5 2000))
                after_profitable_sells) !! "RELIANCE" = Some holding' /\
    Holding.avg_price holding' = 2000.
Proof.
  destruct (holdings (after_all [CallBuy (buy_order "RELIANCE" 10 1500);
                                 CallSell (sell_order "RELIANCE" 5 1600)] fresh)
            !! "RELIANCE") as [h|] eqn:Eh;
    [|vm_compute in Eh; discriminate Eh].
  assert (Hq : Holding.quantity h = 5%Z).
  { assert (E : Holding.quantity
                  <$> holdings (after_all
                                  [CallBuy (buy_order "RELIANCE" 10 1500);
                                   CallSell (sell_order "RELIANCE" 5 1600)]
                                  fresh) !! "RELIANCE"
                = Some 5%Z) by (vm_compute; reflexivity).
    rewrite Eh in E. injection E as E1. exact E1. }
  destruct (full_close_resets_basis
              (sell_order "RELIANCE" 5 3000) (buy_order "RELIANCE" 5 2000)
              (after_all [CallBuy (buy_order "RELIANCE" 10 1500);
                          CallSell (sell_order "RELIANCE" 5 1600)] fresh)
              after_profitable_sells
              (after (CallBuy (buy_order "RELIANCE" 5 2000))
                 after_profitable_sells)
              (MsgSold 5 "RELIANCE" 3000 (inject_Z 5 * 3000 - inject_Z 5 * 1500))
              (MsgBought 5 "RELIANCE" 2000) h)
    as (h' & q & H1 & H2 & _ & H3 & _).
  - vm_compute. reflexivity.
  - exact Eh.
  - rewrite Hq. reflexivity.
  - reflexivity.
  - vm_compute. reflexivity.
  - exists h', q. split; [exact H1|]. split; [exact H2 | exact H3].
Defined.

(** ** Round trip, history and budget *)

(** X4.  Buying a symbol that is not held and selling the bought quantity
    again at the same price is a round trip: the sell succeeds, the
    holding is gone, cash and realized PnL are back at their values, and
    the two orders are the only additions to the trade history. *)
Theorem buy_sell_round_trip (r : TradeRequest.t) (s s1 : t)
    (quantity : Z) (symbol : string) (price : Q) :
  holdings s !! TradeRequest.symbol r = None ->
  execute_buy r s = Ret (true, MsgBought quantity symbol price) s1 ->
  exists s2 pnl,
    execute_sell (sell_order symbol quantity price) s1
    = Ret (true, MsgSold quantity symbol price pnl) s2 /\
    pnl == 0 /\
    holdings s2 !! symbol = None /\
    available_cash s2 == available_cash s /\
    total_pnl s2 == total_pnl s /\
    trade_history s2
    = trade_history s ++ [r; sell_order symbol quantity price].
Proof.
  intros Hnone E.
  destruct (execute_buy_succeeded _ _ _ _ E)
    as (q & Hp & Hq & (m & s0 & Hcan) & _ & Es).
  assert (Hmsg : quantity = q /\ symbol = TradeRequest.symbol r /\
                 price = float_or (TradeRequest.price r) 0).
  { revert E. rewrite execute_buy_eq. cbn zeta. rewrite Hq, Hcan, Hnone.
    destruct (negb _); [discriminate|].
    destruct (Qleb _ 0); [discriminate|]. now intros [= <- <- <- _]. }
  destruct Hmsg as (<- & -> & Eprice). rewrite <- Eprice in *. clear Eprice.
  assert (Hnz : quantity <> 0%Z).
  { intros ->. apply can_buy_passed in Hcan. cbn zeta in Hcan.
    destruct Hcan as (_ & Htv & Hlo & _).
    pose proof (zero_cost price) as H0.
    assert (inject_Z 0 * price
            / sum_current_value (available_cash s) (holdings s) * 100 == 0)
      by (rewrite H0; now field).
    lra. }
  destruct (lookup_buy_applied r quantity price s)
    as (h1 & Hl1 & _ & Eq & Ea & _).
  rewrite Hnone in Eq, Ea. cbn in Eq, Ea. rewrite <- Es in Hl1.
  set (r2 := sell_order (TradeRequest.symbol r) quantity price).
  assert (Hsq : sell_quantity r2 h1 = Some quantity).
  { unfold sell_quantity, r2. cbn. apply Z.eqb_neq in Hnz. now rewrite Hnz. }
  assert (Hprice2 : float_or (TradeRequest.price r2) 0 = price).
  { unfold r2. cbn.
    assert (Qeq_bool price 0 = false) as -> by (apply Qeq_bool_false; lra).
    reflexivity. }
  eexists _, _. split.
  - rewrite execute_sell_eq. cbn zeta. rewrite Hprice2.
    change (TradeRequest.symbol r2) with (TradeRequest.symbol r).
    rewrite Hl1, Hsq. change (TradeRequest.action r2) with SELL.
    assert (Qleb price 0 = false) as -> by now apply Qleb_false.
    rewrite Eq. rewrite Z.gtb_ltb, Z.ltb_irrefl. cbn. reflexivity.
  - rewrite Ea. split; [ring|].
    pose proof (lookup_sell_applied r2 h1 quantity price s1 Hl1) as Hl2.
    rewrite Eq, Z.sub_diag in Hl2. cbn in Hl2.
    destruct (sell_applied_fields r2 h1 quantity price s1)
      as (_ & -> & -> & ->).
    subst s1.
    destruct (buy_applied_fields r quantity price s) as (_ & -> & -> & ->).
    split; [exact Hl2|]. split; [ring|]. split; [rewrite Ea; ring|].
    now rewrite <- app_assoc.
Qed.

Lemma buy_sell_round_trip_witness :
  exists s2 pnl,
    execute_sell (sell_order "RELIANCE" 10 1500) after_first_buy
    = Ret (true, MsgSold 10 "RELIANCE" 1500 pnl) s2 /\
    available_cash s2 == available_cash fresh.
Proof.
  destruct (buy_sell_round_trip (buy_order "RELIANCE" 10 1500) fresh
              after_first_buy 10 "RELIANCE" 1500)
    as (s2 & pnl & E & _ & _ & Hc & _).
  - reflexivity.
  - vm_compute. reflexivity.
  - exists s2, pnl. split; [exact E | exact Hc].
Defined.

(** X5.  Each call appends to the trade history exactly when it returns
    success, and then it appends the order it was given; a rejected
    order, a call that raises and a price update leave the history as it
    was.  So over any sequence of calls the history only grows at its
    end. *)
Theorem trade_history_append_only (calls : list call) (c : call) (s : t) :
  trade_history (after c s)
  = trade_history s ++ (if succeeds c s then request_of c else []) /\
  trade_history s `prefix_of` trade_history (after_all calls s).
Proof.
  assert (Hstep : forall c s,
            trade_history (after c s)
            = trade_history s ++ (if succeeds c s then request_of c else [])).
  { clear. intros c s. destruct c as [r|r|symbol p]; cbn.
    - rewrite execute_buy_eq. cbn zeta.
      destruct (negb _); [now rewrite app_nil_r|].
      destruct (Qleb _ 0); [now rewrite app_nil_r|].
      destruct (buy_quantity _ _ _) as [q|]; [|now rewrite app_nil_r].
      pose proof (can_buy_same_books (TradeRequest.symbol r) q
                    (float_or (TradeRequest.price r) 0) s) as Hb.
      destruct (can_buy _ _ _ _) as [[[|] m] s1|e s1]; cbn in Hb;
        destruct Hb as (_ & _ & _ & _ & Hh);
        try (cbn; now rewrite Hh, app_nil_r).
      destruct (holdings s !! _) as [h|];
        [destruct (_ =? _)%Z; [cbn; now rewrite app_nil_r|]|];
        cbn; apply buy_applied_fields.
    - rewrite execute_sell_eq. cbn zeta.
      destruct (negb _); [now rewrite app_nil_r|].
      destruct (Qleb _ 0); [now rewrite app_nil_r|].
      destruct (holdings s !! _) as [h|]; [|now rewrite app_nil_r].
      destruct (sell_quantity _ _) as [q|]; [|now rewrite app_nil_r].
      destruct (_ >? _)%Z; [now rewrite app_nil_r|].
      cbn. apply sell_applied_fields.
    - rewrite update_holding_price_eq.
      destruct (holdings s !! symbol) as [h|]; cbn;
        [|now rewrite app_nil_r].
      rewrite app_nil_r. unfold price_applied. cbn zeta.
      destruct (Qgtb _ 0); reflexivity. }
  split; [apply Hstep|].
  revert s. induction calls as [|c' calls IH]; intros s; [reflexivity|].
  change (after_all (c' :: calls) s) with (after_all calls (after c' s)).
  etransitivity; [|apply IH]. rewrite Hstep. now apply prefix_app_r.
Qed.

(** X6.  No call, accepted, rejected or raising, changes [initial_budget]:
    after any sequence of calls it is the budget the manager was created
    with. *)
Theorem initial_budget_is_fixed (calls : list call) (s : t) :
  initial_budget (after_all calls s) = initial_budget s.
Proof.
  revert s. induction calls as [|c calls IH]; intros s; [reflexivity|].
  change (after_all (c :: calls) s) with (after_all calls (after c s)).
  rewrite IH. clear. destruct c as [r|r|symbol p]; cbn.
  - rewrite execute_buy_eq. cbn zeta.
    destruct (negb _); [reflexivity|].
    destruct (Qleb _ 0); [reflexivity|].
    destruct (buy_quantity _ _ _) as [q|]; [|reflexivity].
    pose proof (can_buy_same_books (TradeRequest.symbol r) q
                  (float_or (TradeRequest.price r) 0) s) as Hb.
    destruct (can_buy _ _ _ _) as [[[|] m] s1|e s1]; cbn in Hb;
      destruct Hb as (Hb & _); try (cbn; exact Hb).
    destruct (holdings s !! _) as [h|];
      [destruct (_ =? _)%Z; [reflexivity|]|];
      cbn; apply buy_applied_fields.
  - rewrite execute_sell_eq. cbn zeta.
    repeat (match goal with |- context [match ?b with _ => _ end] =>
              destruct b end; try reflexivity).
    cbn. apply sell_applied_fields.
  - rewrite update_holding_price_eq.
    destruct (holdings s !! symbol) as [h|]; cbn; [|reflexivity].
    unfold price_applied. cbn zeta. destruct (Qgtb _ 0); reflexivity.
Qed.

(** ** Exceptions *)

Lemma sound_after_all calls : forall s,
  sound s -> Forall signed calls -> sound (after_all calls s).
Proof.
  induction calls as [|c calls IH]; intros s Hs Hc; [exact Hs|].
  apply Forall_cons in Hc as [Hc Hcs].
  change (after_all (c :: calls) s) with (after_all calls (after c s)).
  apply IH; [now apply sound_after | exact Hcs].
Qed.

Lemma sound_buy_returns r s :
  sound s -> exists v s', execute_buy r s = Ret v s'.
Proof.
  intros Hs. rewrite execute_buy_eq. cbn zeta.
  destruct (negb _); [eauto|].
  destruct (Qleb _ 0) eqn:Ep; [eauto|].
  destruct (buy_quantity _ _ _) as [q|]; [|eauto].
  pose proof (sound_total_value s Hs) as Hpos.
  destruct (can_buy _ _ _ _) as [[[|] m] s1|e1 s1] eqn:Ec; [|eauto|].
  - pose proof (can_buy_passed _ _ _ _ _ _ Ec) as Hcan.
    cbn zeta in Hcan. destruct Hcan as (Hcost & Htv & Hlo & _).
    pose proof (percentage_times
                  (inject_Z q * float_or (TradeRequest.price r) 0) _ Htv).
    apply Qleb_false in Ep.
    assert (Hq : (0 < q)%Z) by (apply inject_Z_pos_inv; nra).
    destruct (holdings s !! _) as [h|] eqn:Eh; [|eauto].
    destruct Hs as (_ & Hh & _). destruct (Hh _ _ Eh) as [Hq0 _].
    destruct (_ =? _)%Z eqn:Ez; [|eauto].
    apply Z.eqb_eq in Ez. clear - Ez Hq Hq0. lia.
  - revert Ec. rewrite can_buy_eq. cbn zeta.
    destruct (Qgtb _ (available_cash s)); [discriminate|].
    destruct (Qeq_bool _ 0) eqn:E0.
    + apply Qeq_bool_iff in E0. lra.
    + destruct (Qgtb _ _); [discriminate|].
      destruct (Qltb _ _); discriminate.
Qed.

(** X7.  In a state reached from a fresh ledger with a positive budget by
    calls on finite numbers whose price updates are positive and whose
    sell orders carry no negative quantity or percentage, the next call,
    on any finite numbers, does not raise [ZeroDivisionError]: the total
    value is positive, so [can_buy] does not divide by zero, and an
    accepted buy has a positive quantity, so the average price is not
    divided by zero. *)
Theorem sound_ledger_never_divides_by_zero
    (budget : Q) (calls : list call) (c : call) (s' : t) :
  0 < budget -> Forall signed calls ->
  run_call c (after_all calls (init (Some budget)))
  <> Raise ZeroDivisionError s'.
Proof.
  intros Hb Hcalls.
  pose proof (sound_after_all calls _ (sound_init budget Hb) Hcalls) as Hs.
  revert Hs. generalize (after_all calls (init (Some budget))) as s.
  intros s Hs. destruct c as [r|r|symbol p]; cbn.
  - destruct (sound_buy_returns r s Hs) as (v & s1 & ->). discriminate.
  - rewrite execute_sell_eq. cbn zeta.
    destruct (negb _); [discriminate|]. destruct (Qleb _ 0); [discriminate|].
    destruct (holdings s !! _) as [h|]; [|discriminate].
    destruct (sell_quantity _ _) as [q|]; [|discriminate].
    destruct (_ >? _)%Z; discriminate.
  - rewrite update_holding_price_eq.
    destruct (holdings s !! symbol); discriminate.
Qed.

Lemma sound_ledger_never_divides_by_zero_witness :
  run_call (CallBuy (buy_order "RELIANCE" (-5) 1600))
    (after_all scenario_calls (init (Some 100000)))
  <> Raise ZeroDivisionError
       (after_all scenario_calls (init (Some 100000))).
Proof.
  apply (sound_ledger_never_divides_by_zero 100000 scenario_calls);
    [reflexivity|].
  repeat constructor; cbn; try discriminate.
  intros pct [= <-]. vm_compute. discriminate.
Defined.

(** X8.  When [execute_buy] raises [ZeroDivisionError], it is at one of
    its two unguarded divisions.  Either [can_buy] divides by a total
    value of zero, and budget, cash, holdings, realized PnL and history
    are untouched; or the order brings the quantity of the held symbol
    to exactly zero, and the division for the average price raises after
    the cash has been debited: the cash is
    [available_cash - quantity * price] while holdings and history are
    as before. *)
Theorem execute_buy_zero_division_cases (r : TradeRequest.t) (s s' : t) :
  execute_buy r s = Raise ZeroDivisionError s' ->
  let price := float_or (TradeRequest.price r) 0 in
  (total_value_of s == 0 /\ same_books s s') \/
  (exists quantity holding,
     buy_quantity r price s = Some quantity /\
     holdings s !! TradeRequest.symbol r = Some holding /\
     (Holding.quantity holding + quantity)%Z = 0%Z /\
     available_cash s' = available_cash s - inject_Z quantity * price /\
     holdings s' = holdings s /\
     trade_history s' = trade_history s /\
     total_pnl s' = total_pnl s).
Proof.
  rewrite execute_buy_eq. cbn zeta.
  destruct (negb _); [discriminate|].
  destruct (Qleb _ 0); [discriminate|].
  destruct (buy_quantity _ _ _) as [q|] eqn:Eq; [|discriminate].
  destruct (can_buy _ _ _ _) as [[[|] m] s1|e1 s1] eqn:Ec; [|discriminate|].
  - destruct (holdings s !! _) as [h|] eqn:Eh; [|discriminate].
    destruct (_ =? _)%Z eqn:Ez; [|discriminate].
    apply Z.eqb_eq in Ez. inversion 1; subst. right.
    exists q, h. repeat split; assumption.
  - inversion 1; subst. left. revert Ec. rewrite can_buy_eq. cbn zeta.
    destruct (Qgtb _ (available_cash s)); [discriminate|].
    destruct (Qeq_bool _ 0) eqn:E0.
    + inversion 1; subst. apply Qeq_bool_iff in E0.
      split; [exact E0 | apply same_books_refresh].
    + destruct (Qgtb _ _); [discriminate|].
      destruct (Qltb _ _); discriminate.
Qed.

Lemma execute_buy_zero_division_cases_witness :
  (total_value_of (after_all zero_value_calls fresh) == 0 /\
   same_books (after_all zero_value_calls fresh)
     (state_of (execute_buy (buy_order "TCS" 5 3000)
                  (after_all zero_value_calls fresh)))) /\
  (exists quantity holding,
     holdings (after_all (take 2 negative_price_calls) fresh) !! "RELIANCE"
     = Some holding /\
     (Holding.quantity holding + quantity)%Z = 0%Z /\
     available_cash
       (state_of (execute_buy (buy_order "RELIANCE" (-10) 150)
                    (after_all (take 2 negative_price_calls) fresh)))
     = available_cash (after_all (take 2 negative_price_calls) fresh)
       - inject_Z quantity * 150).
Proof.
  split.
  - destruct (execute_buy_zero_division_cases (buy_order "TCS" 5 3000)
                (after_all zero_value_calls fresh)
                (state_of (execute_buy (buy_order "TCS" 5 3000)
                             (after_all zero_value_calls fresh))))
      as [H|(q & h & _ & Hl & _)].
    + vm_compute. reflexivity.
    + exact H.
    + exfalso. clear - Hl. vm_compute in Hl. discriminate Hl.
  - destruct (execute_buy_zero_division_cases
                (buy_order "RELIANCE" (-10) 150)
                (after_all (take 2 negative_price_calls) fresh)
                (state_of (execute_buy (buy_order "RELIANCE" (-10) 150)
                             (after_all (take 2 negative_price_calls) fresh))))
      as [[H _]|(q & h & _ & Hl & Hz & Hc & _)].
    + vm_compute. reflexivity.
    + exfalso. clear - H. vm_compute in H. discriminate H.
    + exists q, h. split; [exact Hl|]. split; [exact Hz | exact Hc].
Defined.

(** ** The checks and the execution agree *)

Lemma by_quantity_buy r quantity price s :
  by_quantity r quantity -> buy_quantity r price s = Some quantity.
Proof.
  intros (Hp & Hq & Hnz). unfold buy_quantity.
  now rewrite Hp, Hq, (truthy_int_Some _ Hnz).
Qed.

Lemma by_quantity_sell r quantity holding :
  by_quantity r quantity -> sell_quantity r holding = Some quantity.
Proof.
  intros (Hp & Hq & Hnz). unfold sell_quantity.
  now rewrite Hp, Hq, (truthy_int_Some _ Hnz).
Qed.

(** X9.  For an order by explicit quantity at a positive price, the checks
    predict the execution.  [execute_sell] returns the failure of
    [can_sell] with the same reason, and succeeds for that quantity when
    [can_sell] passes.  [execute_buy] returns the failure of [can_buy]
    with the same reason, raises when [can_buy] raises, and succeeds for
    that quantity when [can_buy] passes, unless the order brings the held
    quantity to exactly zero. *)
Theorem checks_predict_execution (r : TradeRequest.t) (quantity : Z) (s : t) :
  let symbol := TradeRequest.symbol r in
  let price := float_or (TradeRequest.price r) 0 in
  by_quantity r quantity -> 0 < price ->
  (TradeRequest.action r = SELL ->
   match can_sell symbol quantity s with
   | Ret (false, msg) _ => execute_sell r s = Ret (false, msg) s
   | Ret (true, _) _ =>
       exists pnl s',
         execute_sell r s = Ret (true, MsgSold quantity symbol price pnl) s'
   | Raise _ _ => False
   end) /\
  (TradeRequest.action r = BUY ->
   match can_buy symbol quantity price s with
   | Ret (false, msg) s1 => execute_buy r s = Ret (false, msg) s1
   | Ret (true, _) _ =>
       (held_quantity s symbol + quantity)%Z <> 0%Z ->
       exists s',
         execute_buy r s = Ret (true, MsgBought quantity symbol price) s'
   | Raise e s1 => execute_buy r s = Raise e s1
   end).
Proof.
  intros symbol price Hby Hprice.
  apply Qleb_false in Hprice.
  split; intros Ha.
  - rewrite can_sell_eq, execute_sell_eq. cbn zeta.
    fold symbol price. rewrite Ha, Hprice. cbn.
    destruct (holdings s !! symbol) as [h|]; [|reflexivity].
    rewrite (by_quantity_sell r quantity h Hby).
    destruct (_ >? _)%Z; [reflexivity | eauto].
  - rewrite execute_buy_eq. cbn zeta. fold symbol price.
    rewrite Ha, Hprice, (by_quantity_buy r quantity price s Hby). cbn.
    destruct (can_buy symbol quantity price s) as [[[|] m] s1|e s1];
      [|reflexivity|reflexivity].
    unfold held_quantity.
    destruct (holdings s !! symbol) as [h|]; [|eauto].
    intros Hnz. apply Z.eqb_neq in Hnz. rewrite Hnz. eauto.
Qed.

Lemma checks_predict_execution_witness :
  execute_sell (sell_order "RELIANCE" 11 1600) after_first_buy
  = Ret (false, MsgInsufficientHoldings) after_first_buy /\
  (exists s',
     execute_buy (buy_order "RELIANCE" 10 2000) after_first_buy
     = Ret (true, MsgBought 10 "RELIANCE" 2000) s').
Proof.
  split.
  - refine (proj1 (checks_predict_execution (sell_order "RELIANCE" 11 1600)
                     11 after_first_buy _ _) _).
    + repeat split. discriminate.
    + reflexivity.
    + reflexivity.
  - pose proof (proj2 (checks_predict_execution (buy_order "RELIANCE" 10 2000)
                         10 after_first_buy
                         ltac:(repeat split; discriminate)
                         ltac:(reflexivity)) eq_refl) as H.
    cbn zeta in H.
    change (can_buy (TradeRequest.symbol (buy_order "RELIANCE" 10 2000)) 10
              (float_or (TradeRequest.price (buy_order "RELIANCE" 10 2000)) 0)
              after_first_buy)
      with (can_buy "RELIANCE" 10 2000 after_first_buy) in H.
    assert (E : can_buy "RELIANCE" 10 2000 after_first_buy
                = Ret (true, MsgOK) (refresh after_first_buy))
      by (vm_compute; reflexivity).
    rewrite E in H. apply H. vm_compute. discriminate.
Defined.

(** ** Total value and the percentages of the portfolio *)

Lemma sum_current_value_insert_None start hs symbol holding :
  hs !! symbol = None ->
  sum_current_value start (<[symbol := holding]> hs)
  == sum_current_value start hs + Holding.current_value holding.
Proof.
  intros H. unfold sum_current_value.
  refine (map_fold_insert Qeq
            (fun _ h acc => acc + Holding.current_value h)
            start symbol holding hs _ _ H).
  - intros j z x y E. now rewrite E.
  - intros. ring.
Qed.

Lemma sum_current_value_delete start hs symbol holding :
  hs !! symbol = Some holding ->
  sum_current_value start hs
  == sum_current_value start (delete symbol hs)
     + Holding.current_value holding.
Proof.
  intros H. unfold sum_current_value.
  refine (map_fold_delete Qeq
            (fun _ h acc => acc + Holding.current_value h)
            start symbol holding hs _ _ H).
  - intros j z x y E. now rewrite E.
  - intros. ring.
Qed.

Lemma sum_current_value_insert_Some start hs symbol holding holding' :
  hs !! symbol = Some holding ->
  sum_current_value start (<[symbol := holding']> hs)
  == sum_current_value start hs - Holding.current_value holding
     + Holding.current_value holding'.
Proof.
  intros H. rewrite <- insert_delete_eq.
  rewrite sum_current_value_insert_None by apply lookup_delete_eq.
  rewrite (sum_current_value_delete start hs symbol holding H). ring.
Qed.

Lemma sum_current_value_shift start delta hs :
  sum_current_value (start + delta) hs
  == sum_current_value start hs + delta.
Proof.
  unfold sum_current_value. rewrite !map_fold_foldr.
  induction (map_to_list hs) as [|[k h] l IH]; cbn; [reflexivity|].
  rewrite IH. ring.
Qed.

Lemma sum_current_value_shift_minus start delta hs :
  sum_current_value (start - delta) hs
  == sum_current_value start hs - delta.
Proof.
  unfold sum_current_value. rewrite !map_fold_foldr.
  induction (map_to_list hs) as [|[k h] l IH]; cbn; [reflexivity|].
  rewrite IH. ring.
Qed.

Lemma sum_current_value_with_percentages start total_value hs :
  sum_current_value start (with_percentages total_value hs)
  = sum_current_value start hs.
Proof.
  unfold sum_current_value, with_percentages. now rewrite map_fold_fmap.
Qed.

Lemma total_value_of_percentages_updated s :
  total_value_of (percentages_updated s) = total_value_of s.
Proof.
  unfold total_value_of.
  destruct (percentages_updated_fields s) as (_ & -> & _ & _ & [-> | [tv ->]]);
    [reflexivity | apply sum_current_value_with_percentages].
Qed.

Lemma total_value_of_buy_applied r quantity price s :
  total_value_of (buy_applied r quantity price s)
  == total_value_of s
     + (inject_Z (held_quantity s (TradeRequest.symbol r)) * price
        - held_value s (TradeRequest.symbol r)).
Proof.
  unfold buy_applied. cbn zeta.
  match goal with |- total_value_of (set_trade_history ?x _) == _ =>
    change (total_value_of x == total_value_of s
            + (inject_Z (held_quantity s (TradeRequest.symbol r)) * price
               - held_value s (TradeRequest.symbol r))) end.
  rewrite total_value_of_percentages_updated.
  unfold total_value_of, held_quantity, held_value. cbn.
  destruct (holdings s !! TradeRequest.symbol r) as [h|] eqn:E.
  - rewrite (sum_current_value_insert_Some _ _ _ h) by exact E. cbn.
    rewrite sum_current_value_shift_minus.
    rewrite inject_Z_plus. ring.
  - rewrite sum_current_value_insert_None by exact E. cbn.
    rewrite sum_current_value_shift_minus. ring.
Qed.

Lemma total_value_of_sell_applied r holding quantity price s :
  holdings s !! TradeRequest.symbol r = Some holding ->
  total_value_of (sell_applied r holding quantity price s)
  == total_value_of s
     + (inject_Z (held_quantity s (TradeRequest.symbol r)) * price
        - held_value s (TradeRequest.symbol r)).
Proof.
  intros Hl. unfold sell_applied. cbn zeta.
  match goal with |- total_value_of (set_trade_history ?x _) == _ =>
    change (total_value_of x == total_value_of s
            + (inject_Z (held_quantity s (TradeRequest.symbol r)) * price
               - held_value s (TradeRequest.symbol r))) end.
  rewrite total_value_of_percentages_updated.
  unfold total_value_of, held_quantity, held_value. cbn. rewrite Hl.
  destruct (_ =? _)%Z eqn:Ez.
  - apply Z.eqb_eq in Ez.
    assert (quantity = Holding.quantity holding) as -> by (clear - Ez; lia).
    rewrite sum_current_value_shift.
    rewrite (sum_current_value_delete (available_cash s) _ _ _ Hl). ring.
  - rewrite (sum_current_value_insert_Some _ _ _ holding) by exact Hl. cbn.
    rewrite sum_current_value_shift.
    unfold Zminus. rewrite inject_Z_plus, inject_Z_opp. ring.
Qed.

(** X10.  A successful trade at price [p] changes the total value of the
    portfolio by exactly the revaluation of the shares held before it:
    [held quantity * p - held current value].  Cash and shares exchanged
    cancel out; in particular buying a symbol that is not held leaves the
    total value as it was. *)
Theorem trade_revalues_holding (c : call) (s : t) :
  succeeds c s = true ->
  exists r,
    request_of c = [r] /\
    let symbol := TradeRequest.symbol r in
    let price := float_or (TradeRequest.price r) 0 in
    total_value_of (after c s)
    == total_value_of s
       + (inject_Z (held_quantity s symbol) * price - held_value s symbol) /\
    (holdings s !! symbol = None ->
     total_value_of (after c s) == total_value_of s).
Proof.
  intros Hs.
  assert (H0 : forall r,
            holdings s !! TradeRequest.symbol r = None ->
            inject_Z (held_quantity s (TradeRequest.symbol r))
            * float_or (TradeRequest.price r) 0
            - held_value s (TradeRequest.symbol r) == 0).
  { intros r Hn. unfold held_quantity, held_value. rewrite Hn. ring. }
  destruct c as [r|r|]; cbn in Hs; [| |discriminate]; exists r;
    (split; [reflexivity|]); cbn zeta; cbn.
  - destruct (execute_buy r s) as [[[|] m] s1|] eqn:E; try discriminate.
    destruct (execute_buy_succeeded _ _ _ _ E) as (q & _ & _ & _ & _ & ->).
    cbn. pose proof (total_value_of_buy_applied r q
                       (float_or (TradeRequest.price r) 0) s) as Ht.
    split; [exact Ht|]. intros Hn. rewrite Ht, (H0 r Hn). ring.
  - destruct (execute_sell r s) as [[[|] m] s1|] eqn:E; try discriminate.
    destruct (execute_sell_succeeded _ _ _ _ E)
      as (h & q & _ & Hl & _ & _ & ->).
    cbn. pose proof (total_value_of_sell_applied r h q
                       (float_or (TradeRequest.price r) 0) s Hl) as Ht.
    split; [exact Ht|]. intros Hn. rewrite Ht, (H0 r Hn). ring.
Qed.

Lemma trade_revalues_holding_witness :
  total_value_of after_first_buy == total_value_of fresh /\
  total_value_of after_second_buy
  == total_value_of after_first_buy + (inject_Z 10 * 2000 - 15000).
Proof.
  split.
  - destruct (trade_revalues_holding (CallBuy (buy_order "RELIANCE" 10 1500))
                fresh) as (r & Hr & _ & H).
    + vm_compute. reflexivity.
    + injection Hr as <-. apply H. reflexivity.
  - destruct (trade_revalues_holding (CallBuy (buy_order "RELIANCE" 10 2000))
                after_first_buy) as (r & Hr & H & _).
    + vm_compute. reflexivity.
    + injection Hr as <-. cbn zeta in H. rewrite H. vm_compute. reflexivity.
Defined.

Lemma sum_current_value_from_zero start hs :
  sum_current_value start hs == start + sum_current_value 0 hs.
Proof.
  unfold sum_current_value. rewrite !map_fold_foldr.
  induction (map_to_list hs) as [|[k h] l IH]; cbn; [ring|].
  rewrite IH. ring.
Qed.

Lemma sum_percentages_with_percentages total_value hs :
  sum_percentages (with_percentages total_value hs)
  == sum_current_value 0 hs / total_value * 100.
Proof.
  unfold sum_percentages, with_percentages, sum_current_value.
  rewrite map_fold_fmap, !map_fold_foldr.
  induction (map_to_list hs) as [|[k h] l IH]; cbn.
  - unfold Qdiv. ring.
  - rewrite IH. unfold Qdiv. ring.
Qed.

Lemma percentages_updated_positive s :
  0 < total_value_of s ->
  holdings (percentages_updated s)
  = with_percentages (total_value_of s) (holdings s).
Proof.
  intros H. unfold percentages_updated, total_value_of in *. cbn zeta.
  apply Qgtb_true in H. now rewrite H.
Qed.

Lemma percentages_of_updated s :
  0 < total_value_of s ->
  (forall symbol holding,
     holdings (percentages_updated s) !! symbol = Some holding ->
     Holding.percentage_of_portfolio holding
     = Holding.current_value holding / total_value_of s * 100) /\
  sum_percentages (holdings (percentages_updated s))
  + available_cash s / total_value_of s * 100 == 100.
Proof.
  intros H. rewrite (percentages_updated_positive s H). split.
  - intros k h. unfold with_percentages. rewrite lookup_fmap.
    destruct (holdings s !! k) as [h0|]; [|discriminate].
    now intros [= <-].
  - rewrite sum_percentages_with_percentages.
    pose proof (sum_current_value_from_zero (available_cash s) (holdings s))
      as Hz. fold (total_value_of s) in Hz.
    assert (Hs : sum_current_value 0 (holdings s)
                 == total_value_of s - available_cash s) by (rewrite Hz; ring).
    rewrite Hs. field. lra.
Qed.

(** X11.  After a successful trade that leaves a positive total value, every
    holding's [percentage_of_portfolio] is its current value as a
    percentage of the total value, and these percentages together with
    the cash's percentage add up to 100. *)
Theorem percentages_after_trade (c : call) (s : t) :
  succeeds c s = true ->
  let s' := after c s in
  0 < total_value_of s' ->
  (forall symbol holding,
     holdings s' !! symbol = Some holding ->
     Holding.percentage_of_portfolio holding
     = Holding.current_value holding / total_value_of s' * 100) /\
  sum_percentages (holdings s')
  + available_cash s' / total_value_of s' * 100 == 100.
Proof.
  intros Hs s'.
  assert (Hx : exists x history,
            s' = set_trade_history (percentages_updated x) history).
  { subst s'. destruct c as [r|r|]; cbn in Hs; [| |discriminate]; cbn.
    - destruct (execute_buy r s) as [[[|] m] s1|] eqn:E; try discriminate.
      destruct (execute_buy_succeeded _ _ _ _ E) as (q & _ & _ & _ & _ & ->).
      cbn. unfold buy_applied. cbn zeta. eauto.
    - destruct (execute_sell r s) as [[[|] m] s1|] eqn:E; try discriminate.
      destruct (execute_sell_succeeded _ _ _ _ E)
        as (h & q & _ & _ & _ & _ & ->).
      cbn. unfold sell_applied. cbn zeta. eauto. }
  destruct Hx as (x & history & ->).
  change (total_value_of (set_trade_history (percentages_updated x) history))
    with (total_value_of (percentages_updated x)).
  change (holdings (set_trade_history (percentages_updated x) history))
    with (holdings (percentages_updated x)).
  change (available_cash (set_trade_history (percentages_updated x) history))
    with (available_cash (percentages_updated x)).
  rewrite total_value_of_percentages_updated.
  destruct (percentages_updated_fields x) as (_ & -> & _).
  apply percentages_of_updated.
Qed.

Lemma percentages_after_trade_witness :
  sum_percentages (holdings after_first_buy)
  + available_cash after_first_buy / total_value_of after_first_buy * 100
  == 100.
Proof.
  refine (proj2 (percentages_after_trade
                   (CallBuy (buy_order "RELIANCE" 10 1500)) fresh _ _)).
  - vm_compute. reflexivity.
  - vm_compute. reflexivity.
Defined.

(** ** Marking a holding to market *)

(** X12.  [update_holding_price] for a held symbol recomputes that holding:
    the unrealized PnL is [quantity * (price - avg_price)]; with a
    positive cost basis the unrealized PnL percentage is
    [(price - avg_price) / avg_price * 100], otherwise the stored one is
    kept; when the new total value is positive the holding's percentage
    of the portfolio is its new value over that total.  Every other
    holding is left exactly as stored, its percentage of the portfolio
    included. *)
Theorem update_holding_price_marks_to_market
    (symbol : string) (current_price : Q) (s : t) (holding : Holding.t) :
  holdings s !! symbol = Some holding ->
  exists s' holding',
    update_holding_price symbol current_price s = Ret tt s' /\
    holdings s' !! symbol = Some holding' /\
    Holding.unrealized_pnl holding'
    == inject_Z (Holding.quantity holding)
       * (current_price - Holding.avg_price holding) /\
    (0 < basis_of holding ->
     Holding.unrealized_pnl_percentage holding'
     == (current_price - Holding.avg_price holding)
        / Holding.avg_price holding * 100) /\
    (basis_of holding <= 0 ->
     Holding.unrealized_pnl_percentage holding'
     = Holding.unrealized_pnl_percentage holding) /\
    (0 < total_value_of s' ->
     Holding.percentage_of_portfolio holding'
     == Holding.current_value holding' / total_value_of s' * 100) /\
    (forall other, other <> symbol ->
       holdings s' !! other = holdings s !! other).
Proof.
  intros Hl. rewrite update_holding_price_eq, Hl.
  set (hr := repriced holding current_price).
  assert (Hpnl : Holding.unrealized_pnl hr
                 == inject_Z (Holding.quantity holding)
                    * (current_price - Holding.avg_price holding))
    by (cbn; ring).
  assert (Hpos : 0 < basis_of holding ->
                 Holding.unrealized_pnl_percentage hr
                 == (current_price - Holding.avg_price holding)
                    / Holding.avg_price holding * 100).
  { intros Hb. unfold basis_of in Hb. cbn.
    assert (Qgtb (inject_Z (Holding.quantity holding)
                  * Holding.avg_price holding) 0 = true) as ->
      by now apply Qgtb_true.
    field. split; intros E; rewrite E in Hb; lra. }
  assert (Hneg : basis_of holding <= 0 ->
                 Holding.unrealized_pnl_percentage hr
                 = Holding.unrealized_pnl_percentage holding).
  { intros Hb. unfold basis_of in Hb. cbn.
    now assert (Qgtb (inject_Z (Holding.quantity holding)
                      * Holding.avg_price holding) 0 = false) as ->
      by now apply Qgtb_false. }
  exists (price_applied symbol holding current_price s).
  unfold price_applied. fold hr. cbn zeta. cbn.
  set (tv1 := sum_current_value (available_cash s)
                (<[symbol := hr]> (holdings s))).
  destruct (Qgtb tv1 0) eqn:Etv; eexists; (split; [reflexivity|]); cbn;
    rewrite lookup_insert_eq; (split; [reflexivity|]); cbn;
    (split; [exact Hpnl|]); (split; [exact Hpos|]); (split; [exact Hneg|]).
  - split.
    + intros _. unfold total_value_of. cbn.
      rewrite insert_insert_eq.
      rewrite (sum_current_value_insert_Some _ _ _ holding) by exact Hl.
      cbn. unfold tv1.
      rewrite (sum_current_value_insert_Some _ _ _ holding) by exact Hl.
      cbn. reflexivity.
    + intros other Hne. rewrite !lookup_insert_ne by congruence. reflexivity.
  - split.
    + intros H. unfold total_value_of in H. cbn in H. fold tv1 in H.
      apply Qgtb_false in Etv. lra.
    + intros other Hne. rewrite lookup_insert_ne by congruence. reflexivity.
Qed.

Lemma update_holding_price_marks_to_market_witness :
  exists s' holding',
    update_holding_price "RELIANCE" 1600 after_first_buy = Ret tt s' /\
    holdings s' !! "RELIANCE" = Some holding' /\
    Holding.unrealized_pnl holding' == 1000.
Proof.
  destruct (holdings after_first_buy !! "RELIANCE") as [h|] eqn:Eh;
    [|vm_compute in Eh; discriminate Eh].
  assert (Hq : Holding.quantity h = 10%Z /\ Holding.avg_price h = 1500).
  { assert (E : (fun x => (Holding.quantity x, Holding.avg_price x))
                  <$> holdings after_first_buy !! "RELIANCE"
                = Some (10%Z, 1500)) by (vm_compute; reflexivity).
    rewrite Eh in E. injection E as E1 E2. split; [exact E1|exact E2]. }
  destruct Hq as [Hq Ha].
  destruct (update_holding_price_marks_to_market "RELIANCE" 1600
              after_first_buy h Eh) as (s' & h' & E & Hl & Hp & _).
  exists s', h'. split; [exact E|]. split; [exact Hl|].
  rewrite Hp, Hq, Ha. reflexivity.
Defined.

(** ** Summaries *)

(** X13.  [get_holding_summary] never changes the manager; it returns [None]
    exactly for a symbol that is not held.  Right after a successful
    [execute_buy] the summary of the bought symbol exists, carries that
    symbol, the quantity held before plus the quantity bought, and the
    order price as current price. *)
Theorem holding_summary_lookup (r : TradeRequest.t) (symbol : string) (s : t) :
  (exists v, get_holding_summary symbol s = Ret v s /\
             (v = None <-> holdings s !! symbol = None)) /\
  (forall msg s' quantity,
     let price := float_or (TradeRequest.price r) 0 in
     execute_buy r s = Ret (true, msg) s' ->
     buy_quantity r price s = Some quantity ->
     exists v,
       get_holding_summary (TradeRequest.symbol r) s' = Ret (Some v) s' /\
       HoldingSummary.symbol v = TradeRequest.symbol r /\
       HoldingSummary.quantity v
       = (held_quantity s (TradeRequest.symbol r) + quantity)%Z /\
       HoldingSummary.current_price v = price).
Proof.
  split.
  - unfold get_holding_summary. run.
    destruct (holdings s !! symbol) as [h|]; eexists;
      (split; [reflexivity|]); split; congruence.
  - intros msg s' quantity price E Hq.
    destruct (execute_buy_succeeded _ _ _ _ E) as (q & _ & Hq' & _ & _ & ->).
    fold price in Hq'. rewrite Hq in Hq'. injection Hq' as <-.
    destruct (lookup_buy_applied r quantity price s)
      as (h' & Hl' & _ & Eq & _ & Ep & _).
    unfold get_holding_summary. run. fold price. rewrite Hl'.
    eexists. split; [reflexivity|]. cbn. split; [reflexivity|].
    rewrite Eq, Ep. unfold held_quantity, bought.
    destruct (holdings s !! TradeRequest.symbol r); cbn; split;
      reflexivity.
Qed.

Lemma holding_summary_lookup_witness :
  exists v,
    get_holding_summary "RELIANCE" after_second_buy
    = Ret (Some v) after_second_buy /\
    HoldingSummary.quantity v = 20%Z.
Proof.
  destruct (proj2 (holding_summary_lookup (buy_order "RELIANCE" 10 2000)
                     "RELIANCE" after_first_buy)
              (MsgBought 10 "RELIANCE" 2000) after_second_buy 10%Z)
    as (v & E & _ & Hq & _).
  - vm_compute. reflexivity.
  - reflexivity.
  - exists v. split; [exact E|]. rewrite Hq. vm_compute. reflexivity.
Defined.

Lemma mapM_cons {S A B} (f : A -> M S B) (x : A) (l : list A) (s : S) :
  mapM f (x :: l) s
  = match f x s with
    | Ret a s' => match mapM f l s' with
                  | Ret a0 s'' => Ret (a :: a0) s''
                  | Raise e s'' => Raise e s''
                  end
    | Raise e s' => Raise e s'
    end.
Proof. reflexivity. Qed.

Lemma mapM_get_holding_summary (keys : list string) (s : t) :
  Forall (fun k => is_Some (holdings s !! k)) keys ->
  exists summaries,
    mapM get_holding_summary keys s = Ret summaries s /\
    length summaries = length keys /\
    Forall is_Some summaries.
Proof.
  induction 1 as [|k keys [h Hk] _ (vs & E & Hlen & Hall)].
  - exists []. split; [reflexivity|]. split; [reflexivity|constructor].
  - rewrite mapM_cons.
    assert (Ek : exists v, get_holding_summary k s = Ret (Some v) s).
    { unfold get_holding_summary. run. rewrite Hk. eexists. reflexivity. }
    destruct Ek as [v ->]. rewrite E. eexists. split; [reflexivity|].
    split; [cbn; rewrite Hlen; reflexivity | constructor; eauto].
Qed.

(** X14.  [get_portfolio_summary] always returns and changes at most the stored
    PnL percentage.  Its list of holdings has one entry per held symbol,
    none of them [None], and [num_holdings] is its length.  The cash
    percentage is [available_cash / total_value * 100] when the total
    value is positive and 100 otherwise; in a ledger with non-negative
    cash and positively valued holdings it lies between 0 and 100. *)
Theorem portfolio_summary_consistent (s : t) :
  exists v,
    get_portfolio_summary s = Ret v (refresh s) /\
    PortfolioSummary.num_holdings v = size (holdings s) /\
    length (PortfolioSummary.holdings v) = PortfolioSummary.num_holdings v /\
    Forall is_Some (PortfolioSummary.holdings v) /\
    PortfolioSummary.total_value v = total_value_of s /\
    (total_value_of s <= 0 -> PortfolioSummary.cash_percentage v = 100) /\
    (0 < total_value_of s ->
     PortfolioSummary.cash_percentage v
     = available_cash s / total_value_of s * 100) /\
    (sound s ->
     0 <= PortfolioSummary.cash_percentage v /\
     PortfolioSummary.cash_percentage v <= 100).
Proof.
  destruct (mapM_get_holding_summary
              (map_to_list (holdings (refresh s))).*1 (refresh s))
    as (vs & E & Hlen & Hall).
  { apply Forall_forall. intros k Hk.
    apply list_elem_of_fmap in Hk as ([k' h] & -> & Hk).
    apply elem_of_map_to_list in Hk. cbn. eauto. }
  unfold get_portfolio_summary. run. rewrite get_portfolio_state_eq.
  rewrite E. eexists. split; [reflexivity|]. cbn.
  fold (total_value_of s).
  split; [reflexivity|].
  split; [now rewrite Hlen, length_fmap, length_map_to_list|].
  split; [exact Hall|]. split; [reflexivity|].
  split; [|split].
  - intros H. apply Qgtb_false in H. now rewrite H.
  - intros H. apply Qgtb_true in H. now rewrite H.
  - intros Hs. pose proof (sound_total_value s Hs) as Hpos.
    fold (total_value_of s) in Hpos.
    assert (Qgtb (total_value_of s) 0 = true) as -> by now apply Qgtb_true.
    destruct Hs as (Hc & Hh & _).
    destruct (sum_current_value_pos (available_cash s) (holdings s)) as [Hle _].
    { intros k h Hk. now apply (Hh k h). }
    fold (total_value_of s) in Hle.
    pose proof (percentage_times (available_cash s) (total_value_of s)
                  ltac:(lra)) as Ht.
    split; nra.
Qed.

Lemma portfolio_summary_consistent_witness :
  exists v,
    get_portfolio_summary after_first_buy = Ret v (refresh after_first_buy) /\
    PortfolioSummary.num_holdings v = 1%nat /\
    PortfolioSummary.cash_percentage v <= 100.
Proof.
  destruct (portfolio_summary_consistent after_first_buy)
    as (v & E & Hn & _ & _ & _ & _ & _ & Hs).
  exists v. split; [exact E|]. split; [rewrite Hn; vm_compute; reflexivity|].
  apply Hs.
  apply (sound_after (CallBuy (buy_order "RELIANCE" 10 1500)) fresh);
    [apply sound_init; reflexivity | exact I].
Defined.

(** ** [calculate_position_size] of the manager *)

Lemma risk_multiplier_range risk_level :
  let m := default (8 # 10) (risk_multipliers !! risk_level) in
  (4 # 10) <= m /\ m <= (12 # 10).
Proof.
  cbn zeta. unfold risk_multipliers.
  repeat (rewrite lookup_insert; case_decide;
          [cbn; split; vm_compute; discriminate|]).
  rewrite lookup_empty. cbn. split; vm_compute; discriminate.
Qed.

Lemma clamp_range x :
  TradingConfig.MIN_POSITION_SIZE
  <= py_min (py_max x TradingConfig.MIN_POSITION_SIZE)
       TradingConfig.MAX_POSITION_SIZE /\
  py_min (py_max x TradingConfig.MIN_POSITION_SIZE)
    TradingConfig.MAX_POSITION_SIZE
  <= TradingConfig.MAX_POSITION_SIZE.
Proof.
  unfold py_min, py_max, TradingConfig.MIN_POSITION_SIZE,
    TradingConfig.MAX_POSITION_SIZE.
  destruct (Qgtb (5 # 100) x) eqn:E1;
    [apply Qgtb_true in E1 | apply Qgtb_false in E1];
    destruct (Qltb (3 # 10) _) eqn:E2;
    [apply Qltb_true in E2 | apply Qltb_false in E2
    |apply Qltb_true in E2 | apply Qltb_false in E2];
    split; lra.
Qed.

Lemma clamp_monotone x y :
  x <= y ->
  py_min (py_max x TradingConfig.MIN_POSITION_SIZE)
    TradingConfig.MAX_POSITION_SIZE
  <= py_min (py_max y TradingConfig.MIN_POSITION_SIZE)
       TradingConfig.MAX_POSITION_SIZE.
Proof.
  intros Hxy.
  unfold py_min, py_max, TradingConfig.MIN_POSITION_SIZE,
    TradingConfig.MAX_POSITION_SIZE.
  destruct (Qgtb (5 # 100) x) eqn:E1;
    [apply Qgtb_true in E1 | apply Qgtb_false in E1];
    destruct (Qgtb (5 # 100) y) eqn:E2;
    [apply Qgtb_true in E2 | apply Qgtb_false in E2
    |apply Qgtb_true in E2 | apply Qgtb_false in E2];
    repeat (match goal with
            | |- context [Qltb ?a ?b] =>
                let E := fresh "E" in
                destruct (Qltb a b) eqn:E;
                [apply Qltb_true in E | apply Qltb_false in E]
            end);
    lra.
Qed.

(** X15.  [calculate_position_size] returns a percentage between 5 and 30 for
    every confidence and every risk-level text; it does not depend on the
    symbol; it never decreases when the confidence grows; and a
    risk-level text that is not one of the five known ones is treated as
    "Medium". *)
Theorem calculate_position_size_bounds
    (symbol symbol' : string) (confidence confidence' : Q)
    (risk_level : string) :
  5 <= calculate_position_size symbol confidence risk_level /\
  calculate_position_size symbol confidence risk_level <= 30 /\
  calculate_position_size symbol' confidence risk_level
  = calculate_position_size symbol confidence risk_level /\
  (confidence <= confidence' ->
   calculate_position_size symbol confidence risk_level
   <= calculate_position_size symbol confidence' risk_level) /\
  (risk_multipliers !! risk_level = None ->
   calculate_position_size symbol confidence risk_level
   = calculate_position_size symbol confidence "Medium").
Proof.
  unfold calculate_position_size. cbn zeta.
  destruct (risk_multiplier_range risk_level) as [Hlo Hhi]. cbn zeta in Hlo, Hhi.
  set (m := default (8 # 10) (risk_multipliers !! risk_level)) in *.
  pose proof (clamp_range (confidence / 100 * TradingConfig.MAX_POSITION_SIZE * m))
    as [H1 H2].
  unfold TradingConfig.MIN_POSITION_SIZE, TradingConfig.MAX_POSITION_SIZE
    in H1, H2 |- *.
  split; [lra|]. split; [lra|]. split; [reflexivity|]. split.
  - intros Hc.
    pose proof (clamp_monotone
                  (confidence / 100 * TradingConfig.MAX_POSITION_SIZE * m)
                  (confidence' / 100 * TradingConfig.MAX_POSITION_SIZE * m))
      as Hm.
    unfold TradingConfig.MIN_POSITION_SIZE, TradingConfig.MAX_POSITION_SIZE
      in Hm.
    assert (Hx : confidence / 100 * (3 # 10) * m
                 <= confidence' / 100 * (3 # 10) * m).
    { assert (E1 : confidence / 100 * (3 # 10) * m
                   == confidence * ((3 # 1000) * m)) by field.
      assert (E2 : confidence' / 100 * (3 # 10) * m
                   == confidence' * ((3 # 1000) * m)) by field.
      rewrite E1, E2. nra. }
    specialize (Hm Hx). lra.
  - intros Hn. subst m. rewrite Hn. reflexivity.
Qed.

Lemma calculate_position_size_bounds_witness :
  calculate_position_size "RELIANCE" 50 "High"
  <= calculate_position_size "RELIANCE" 90 "High" /\
  calculate_position_size "RELIANCE" 50 "Unknown"
  = calculate_position_size "RELIANCE" 50 "Medium".
Proof.
  split.
  - refine (proj1 (proj2 (proj2 (proj2
              (calculate_position_size_bounds "RELIANCE" "RELIANCE" 50 90
                 "High")))) _).
    vm_compute. discriminate.
  - refine (proj2 (proj2 (proj2 (proj2
              (calculate_position_size_bounds "RELIANCE" "RELIANCE" 50 50
                 "Unknown")))) _).
    vm_compute. reflexivity.
Defined.

(** * Further properties of the decision combination *)

(** ** The voting loop *)

Lemma count_votes_cons a d ds :
  count_votes a (d :: ds)
  = ((if decide (counted_as d = a) then 1 else 0) + count_votes a ds)%Z.
Proof.
  unfold count_votes. rewrite filter_cons.
  destruct (decide (counted_as d = a)); [|lia].
  cbn [length]. lia.
Qed.

Lemma vote_fields acc d :
  buy_votes (vote acc d)
  = (buy_votes acc + (if decide (counted_as d = BUY) then 1 else 0))%Z /\
  sell_votes (vote acc d)
  = (sell_votes acc + (if decide (counted_as d = SELL) then 1 else 0))%Z /\
  hold_votes (vote acc d)
  = (hold_votes acc + (if decide (counted_as d = HOLD) then 1 else 0))%Z /\
  total_confidence (vote acc d)
  = total_confidence acc + AgentDecision.confidence d /\
  weighted_confidence (vote acc d)
  == weighted_confidence acc + AgentDecision.confidence d * weight_of d.
Proof.
  unfold vote, weight_of, counted_as.
  destruct (AgentDecision.decision d); cbn;
    repeat case_decide; try congruence;
    (split; [lia|]); (split; [lia|]); (split; [lia|]);
    (split; [reflexivity|]); ring.
Qed.

Lemma foldl_vote ds acc :
  buy_votes (foldl vote acc ds) = (buy_votes acc + count_votes BUY ds)%Z /\
  sell_votes (foldl vote acc ds) = (sell_votes acc + count_votes SELL ds)%Z /\
  hold_votes (foldl vote acc ds) = (hold_votes acc + count_votes HOLD ds)%Z /\
  total_confidence (foldl vote acc ds)
  == total_confidence acc + sum_over AgentDecision.confidence ds /\
  weighted_confidence (foldl vote acc ds)
  == weighted_confidence acc
     + sum_over (fun d => AgentDecision.confidence d * weight_of d) ds.
Proof.
  revert acc. induction ds as [|d ds IH]; intros acc.
  - unfold count_votes. cbn. repeat split; try lia; ring.
  - change (foldl vote acc (d :: ds)) with (foldl vote (vote acc d) ds).
    destruct (IH (vote acc d)) as (-> & -> & -> & -> & ->).
    destruct (vote_fields acc d) as (-> & -> & -> & -> & ->).
    rewrite !count_votes_cons. cbn [sum_over foldr].
    fold (sum_over AgentDecision.confidence ds).
    fold (sum_over (fun d => AgentDecision.confidence d * weight_of d) ds).
    (split; [lia|]); (split; [lia|]); (split; [lia|]); split; ring.
Qed.

Lemma count_votes_total ds :
  (count_votes BUY ds + count_votes SELL ds + count_votes HOLD ds
   = Z.of_nat (length ds))%Z.
Proof.
  induction ds as [|d ds IH]; [reflexivity|].
  rewrite !count_votes_cons. cbn [length]. rewrite Nat2Z.inj_succ.
  unfold counted_as.
  destruct (AgentDecision.decision d); cbn;
    repeat case_decide; try congruence; lia.
Qed.

Lemma count_votes_nonneg a ds : (0 <= count_votes a ds)%Z.
Proof. unfold count_votes. lia. Qed.

Lemma _calculate_position_size_state {S} ds (ps : gmap string Q) (s : S) :
  state_of (_calculate_position_size ds ps s) = s.
Proof.
  unfold _calculate_position_size.
  destruct ds; [reflexivity|]. destruct (Qeq_bool _ _); reflexivity.
Qed.

(** What a returned decision holds, field by field. *)
Lemma _make_final_decision_fields {S} (analysis_data : AnalysisData.t)
    (ds : list AgentDecision.t) (ps : gmap string Q) (s s' : S)
    (d : MainAgentDecision.t) :
  _make_final_decision analysis_data ds ps s = Ret d s' ->
  s' = s /\
  _calculate_position_size ds ps s = Ret (MainAgentDecision.position_size d) s /\
  MainAgentDecision.confidence d
  = match ds with
    | [] => 0
    | _ => weighted_confidence (foldl vote (mk_tally 0 0 0 0 0) ds) / len ds
    end /\
  MainAgentDecision.final_action d
  = final_action_of (foldl vote (mk_tally 0 0 0 0 0) ds)
      (MainAgentDecision.confidence d) /\
  MainAgentDecision.symbol d = AnalysisData.symbol analysis_data /\
  MainAgentDecision.agent_decisions d = ds /\
  MainAgentDecision.risk_assessment d = _determine_risk_level ds /\
  (MainAgentDecision.stop_loss d, MainAgentDecision.take_profit d)
  = _calculate_risk_levels (AnalysisData.current_price analysis_data)
      (_determine_risk_level ds) /\
  MainAgentDecision.next_interval d
  = Some (_determine_next_interval (MainAgentDecision.final_action d)
            (MainAgentDecision.confidence d)).
Proof.
  unfold _make_final_decision. unfold mbind, M_bind, mret, M_ret.
  pose proof (_calculate_position_size_state ds ps s) as Hs.
  destruct (_calculate_position_size ds ps s) as [p s1|e s1];
    [|intros E; clear - E; discriminate E].
  cbn in Hs. subst s1.
  destruct (_calculate_risk_levels _ _) as [stop_loss take_profit].
  intros E. injection E as <- <-. cbn. repeat split.
Qed.

Lemma Qle_bool_false a b : Qle_bool a b = false -> ~ a <= b.
Proof. intros E H. apply Qle_bool_iff in H. congruence. Qed.

Lemma final_action_of_BUY votes w :
  final_action_of votes w = BUY <->
  (sell_votes votes < buy_votes votes)%Z /\
  (hold_votes votes < buy_votes votes)%Z /\ 70 <= w.
Proof.
  unfold final_action_of, Qgeb, TradingConfig.BUY_CONFIDENCE_THRESHOLD,
    TradingConfig.SELL_CONFIDENCE_THRESHOLD.
  rewrite !Z.gtb_ltb.
  destruct (Z.ltb_spec (sell_votes votes) (buy_votes votes)) as [H1|H1];
    destruct (Z.ltb_spec (hold_votes votes) (buy_votes votes)) as [H2|H2];
    cbn [andb].
  1: { destruct (Qle_bool 70 w) eqn:E70.
       - apply Qle_bool_iff in E70. split; [intros _; auto|reflexivity].
       - apply Qle_bool_false in E70.
         split; [intros Hf; clear - Hf; discriminate Hf|].
         intros (_ & _ & G). destruct (E70 G). }
  all: split;
    [|intros (G1 & G2 & _); exfalso; clear - H1 H2 G1 G2; lia].
  all: destruct (_ && _); [destruct (Qle_bool _ _)|];
    intros Hf; clear - Hf; discriminate Hf.
Qed.

Lemma final_action_of_SELL votes w :
  final_action_of votes w = SELL <->
  (buy_votes votes < sell_votes votes)%Z /\
  (hold_votes votes < sell_votes votes)%Z /\ 60 <= w.
Proof.
  unfold final_action_of, Qgeb, TradingConfig.BUY_CONFIDENCE_THRESHOLD,
    TradingConfig.SELL_CONFIDENCE_THRESHOLD.
  rewrite !Z.gtb_ltb.
  destruct (Z.ltb_spec (sell_votes votes) (buy_votes votes)) as [H1|H1];
    destruct (Z.ltb_spec (hold_votes votes) (buy_votes votes)) as [H2|H2];
    cbn [andb].
  1: { split.
       - destruct (Qle_bool _ _); intros Hf; clear - Hf; discriminate Hf.
       - intros (G1 & _). exfalso. clear - H1 G1. lia. }
  all: destruct (Z.ltb_spec (buy_votes votes) (sell_votes votes)) as [H3|H3];
    destruct (Z.ltb_spec (hold_votes votes) (sell_votes votes)) as [H4|H4];
    cbn [andb];
    try (split;
         [intros Hf; clear - Hf; discriminate Hf
         |intros (G1 & G2 & _); exfalso; clear - H3 H4 G1 G2; lia]).
  all: destruct (Qle_bool 60 w) eqn:E60;
    [apply Qle_bool_iff in E60; split; [intros _; auto|reflexivity]
    |apply Qle_bool_false in E60;
     split; [intros Hf; clear - Hf; discriminate Hf|];
     intros (_ & _ & G); destruct (E60 G)].
Qed.

Lemma final_action_of_cases votes w :
  final_action_of votes w = BUY \/ final_action_of votes w = SELL \/
  final_action_of votes w = HOLD.
Proof.
  unfold final_action_of.
  destruct (_ && _); [destruct (Qgeb _ _); auto|].
  destruct (_ && _); [destruct (Qgeb _ _); auto|auto].
Qed.

(** X16.  The final action follows the strict plurality of the votes, gated
    by the weighted confidence.  Every vote feeds exactly one of the
    three counters.  A returned decision is BUY exactly when the buy
    votes outnumber both the sell votes and the hold votes and the
    decision's confidence is at least 70; it is SELL exactly when the
    sell votes outnumber both others and the confidence is at least 60;
    in every other case, ties included, it is HOLD. *)
Theorem final_action_by_plurality {S} (analysis_data : AnalysisData.t)
    (ds : list AgentDecision.t) (ps : gmap string Q) (s s' : S)
    (d : MainAgentDecision.t) :
  _make_final_decision analysis_data ds ps s = Ret d s' ->
  (count_votes BUY ds + count_votes SELL ds + count_votes HOLD ds
   = Z.of_nat (length ds))%Z /\
  (MainAgentDecision.final_action d = BUY <->
   (count_votes SELL ds < count_votes BUY ds)%Z /\
   (count_votes HOLD ds < count_votes BUY ds)%Z /\
   70 <= MainAgentDecision.confidence d) /\
  (MainAgentDecision.final_action d = SELL <->
   (count_votes BUY ds < count_votes SELL ds)%Z /\
   (count_votes HOLD ds < count_votes SELL ds)%Z /\
   60 <= MainAgentDecision.confidence d) /\
  (MainAgentDecision.final_action d <> BUY ->
   MainAgentDecision.final_action d <> SELL ->
   MainAgentDecision.final_action d = HOLD).
Proof.
  intros E.
  destruct (_make_final_decision_fields _ _ _ _ _ _ E)
    as (_ & _ & _ & -> & _).
  split; [apply count_votes_total|].
  destruct (foldl_vote ds (mk_tally 0 0 0 0 0)) as (Hb & Hs & Hh & _).
  cbn in Hb, Hs, Hh. rewrite Z.add_0_l in Hb, Hs, Hh.
  rewrite <- Hb, <- Hs, <- Hh.
  split; [apply final_action_of_BUY|].
  split; [apply final_action_of_SELL|].
  intros N1 N2.
  destruct (final_action_of_cases (foldl vote (mk_tally 0 0 0 0 0) ds)
              (MainAgentDecision.confidence d)) as [H|[H|H]];
    [destruct (N1 H) | destruct (N2 H) | exact H].
Qed.

Lemma final_action_by_plurality_witness :
  exists d,
    _make_final_decision sample_analysis
      [vote_of DT_SELL 90 None; vote_of DT_STRONG_SELL 80 None;
       vote_of DT_BUY 100 None]
      sample_portfolio_state tt = Ret d tt /\
    MainAgentDecision.final_action d = SELL.
Proof.
  eexists. split; [vm_compute; reflexivity|].
  refine (proj2 (proj1 (proj2 (proj2
            (final_action_by_plurality sample_analysis
               [vote_of DT_SELL 90 None; vote_of DT_STRONG_SELL 80 None;
                vote_of DT_BUY 100 None]
               sample_portfolio_state tt tt _ _)))) _).
  - vm_compute. reflexivity.
  - split; [reflexivity|]. split; [reflexivity|]. vm_compute. discriminate.
Defined.

(** ** Averages over the votes *)

Lemma len_pos d ds : 0 < len (d :: ds).
Proof.
  unfold len. apply inject_Z_pos. cbn [length]. lia.
Qed.

Lemma Qdiv_le_compat_r (a b n : Q) : 0 < n -> a <= b -> a / n <= b / n.
Proof.
  intros Hn Hab. unfold Qdiv. apply Qmult_le_compat_r; [exact Hab|].
  apply Qinv_le_0_compat. lra.
Qed.

Lemma foldl_sum_over (f : AgentDecision.t -> Q) ds a :
  foldl (fun acc d => acc + f d) a ds == a + sum_over f ds.
Proof.
  revert a. induction ds as [|d ds IH]; intros a; cbn.
  - ring.
  - rewrite IH. fold (sum_over f ds). ring.
Qed.

Lemma weight_of_range d : 1 <= weight_of d /\ weight_of d <= 12 # 10.
Proof.
  unfold weight_of. destruct (counted_as d); split; vm_compute; discriminate.
Qed.

Lemma weighted_sum_bounds ds :
  Forall (fun v => 0 <= AgentDecision.confidence v) ds ->
  sum_over AgentDecision.confidence ds
  <= sum_over (fun v => AgentDecision.confidence v * weight_of v) ds /\
  sum_over (fun v => AgentDecision.confidence v * weight_of v) ds
  <= (12 # 10) * sum_over AgentDecision.confidence ds.
Proof.
  induction 1 as [|d ds Hd _ [IH1 IH2]]; cbn.
  - split; lra.
  - fold (sum_over AgentDecision.confidence ds).
    fold (sum_over (fun v => AgentDecision.confidence v * weight_of v) ds).
    destruct (weight_of_range d) as [W1 W2]. split; nra.
Qed.

Lemma sum_over_le_100 ds :
  Forall (fun v => AgentDecision.confidence v <= 100) ds ->
  sum_over AgentDecision.confidence ds <= 100 * len ds.
Proof.
  induction 1 as [|d ds Hd _ IH].
  - vm_compute. discriminate.
  - cbn [sum_over foldr]. fold (sum_over AgentDecision.confidence ds).
    assert (E : len (d :: ds) == len ds + 1).
    { unfold len. cbn [length]. rewrite Nat2Z.inj_succ, <- Z.add_1_r.
      rewrite inject_Z_plus. reflexivity. }
    rewrite E. lra.
Qed.

(** X17.  The confidence of a returned decision is the average of the votes'
    confidences, each weighted 1.2 for a buy vote, 1.1 for a sell vote
    and 1 for a hold vote.  With no negative confidence among the votes
    it lies between the plain average and 1.2 times the plain average,
    so for confidences up to 100 it can reach 120 but not exceed it. *)
Theorem confidence_between_averages {S} (analysis_data : AnalysisData.t)
    (ds : list AgentDecision.t) (ps : gmap string Q) (s s' : S)
    (d : MainAgentDecision.t) :
  _make_final_decision analysis_data ds ps s = Ret d s' ->
  Forall (fun v => 0 <= AgentDecision.confidence v) ds ->
  MainAgentDecision.confidence d
  == average (fun v => AgentDecision.confidence v * weight_of v) ds /\
  average AgentDecision.confidence ds <= MainAgentDecision.confidence d /\
  MainAgentDecision.confidence d
  <= (12 # 10) * average AgentDecision.confidence ds /\
  (Forall (fun v => AgentDecision.confidence v <= 100) ds ->
   MainAgentDecision.confidence d <= 120).
Proof.
  intros E Hpos.
  destruct (_make_final_decision_fields _ _ _ _ _ _ E)
    as (_ & _ & -> & _).
  destruct ds as [|d0 ds].
  - cbn. split; [reflexivity|]. split; [lra|]. split; [lra|].
    intros _. vm_compute. discriminate.
  - set (l := d0 :: ds) in *.
    destruct (foldl_vote l (mk_tally 0 0 0 0 0)) as (_ & _ & _ & _ & Hw).
    cbn [weighted_confidence] in Hw.
    destruct (weighted_sum_bounds l Hpos) as [B1 B2].
    pose proof (len_pos d0 ds) as Hn. fold l in Hn.
    unfold average. subst l. cbv iota. set (l := d0 :: ds) in *.
    set (W := weighted_confidence (foldl vote (mk_tally 0 0 0 0 0) l)) in *.
    set (sw := sum_over (fun v => AgentDecision.confidence v * weight_of v) l)
      in *.
    set (sc := sum_over AgentDecision.confidence l) in *.
    assert (EW : W == sw) by (rewrite Hw; ring).
    split; [rewrite EW; reflexivity|].
    split; [rewrite EW; apply Qdiv_le_compat_r; assumption|].
    split.
    + rewrite EW.
      assert (E12 : (12 # 10) * (sc / len l) == ((12 # 10) * sc) / len l)
        by (field; lra).
      rewrite E12. apply Qdiv_le_compat_r; assumption.
    + intros H100. apply sum_over_le_100 in H100. fold sc in H100.
      rewrite EW.
      assert (E120 : 120 == ((12 # 10) * (100 * len l)) / len l)
        by (field; lra).
      rewrite E120. apply Qdiv_le_compat_r; [assumption|lra].
Qed.

Lemma confidence_between_averages_witness :
  exists d,
    _make_final_decision sample_analysis
      [vote_of DT_BUY 100 None; vote_of DT_STRONG_BUY 100 None]
      sample_portfolio_state tt = Ret d tt /\
    100 <= MainAgentDecision.confidence d /\
    MainAgentDecision.confidence d <= 120.
Proof.
  eexists. split; [vm_compute; reflexivity|].
  destruct (confidence_between_averages sample_analysis
              [vote_of DT_BUY 100 None; vote_of DT_STRONG_BUY 100 None]
              sample_portfolio_state tt tt _ ltac:(vm_compute; reflexivity))
    as (_ & Hlo & _ & Hhi).
  - repeat constructor; vm_compute; discriminate.
  - split.
    + refine (Qle_trans _ _ _ _ Hlo). vm_compute. discriminate.
    + apply Hhi. repeat constructor; vm_compute; discriminate.
Defined.

(** ** Position sizing *)

Lemma _calculate_position_size_cases {S} (ds : list AgentDecision.t)
    (ps : gmap string Q) (s : S) :
  state_of (_calculate_position_size ds ps s) = s /\
  (ds = [] -> _calculate_position_size ds ps s = Ret 10 s) /\
  (ds <> [] -> default 1 (ps !! "total_value") == 0 ->
   _calculate_position_size ds ps s = Raise ZeroDivisionError s) /\
  (ds <> [] -> ~ default 1 (ps !! "total_value") == 0 ->
   exists v,
     _calculate_position_size ds ps s = Ret v s /\ 5 <= v /\ v <= 30).
Proof.
  split; [apply _calculate_position_size_state|].
  split; [intros ->; reflexivity|].
  split.
  - intros Hne Hz. destruct ds as [|d0 ds]; [congruence|].
    unfold _calculate_position_size.
    apply Qeq_bool_iff in Hz. rewrite Hz. reflexivity.
  - intros Hne Hz. destruct ds as [|d0 ds]; [congruence|].
    unfold _calculate_position_size.
    apply Qeq_bool_false in Hz. rewrite Hz.
    unfold mret, M_ret. eexists. split; [reflexivity|].
    match goal with
    | |- 5 <= py_min (py_max ?x _) _ /\ _ => generalize x
    end.
    intros x.
    unfold py_min, py_max, TradingConfig.MIN_POSITION_SIZE,
      TradingConfig.MAX_POSITION_SIZE.
    destruct (Qgtb _ x) eqn:E1;
      [apply Qgtb_true in E1 | apply Qgtb_false in E1];
      destruct (Qltb _ _) eqn:E2;
      [apply Qltb_true in E2 | apply Qltb_false in E2
      |apply Qltb_true in E2 | apply Qltb_false in E2];
      split; lra.
Qed.

(** X18.  [_calculate_position_size] never touches the agent.  For no votes it
    returns 10.  For some votes and a portfolio dictionary whose total
    value is zero it raises [ZeroDivisionError].  Otherwise it returns a
    size between 5 and 30: the average of the proposed sizes (10 for a
    vote that proposes none or zero) when the cash share is between 20
    and 80 percent and that average is within the limits; half of it
    when the cash share is below 20 percent; 1.2 times it when the cash
    share is above 80 percent. *)
Theorem _calculate_position_size_range {S} (ds : list AgentDecision.t)
    (ps : gmap string Q) (s : S) :
  state_of (_calculate_position_size ds ps s) = s /\
  (ds = [] -> _calculate_position_size ds ps s = Ret 10 s) /\
  (ds <> [] -> default 1 (ps !! "total_value") == 0 ->
   _calculate_position_size ds ps s = Raise ZeroDivisionError s) /\
  (ds <> [] -> ~ default 1 (ps !! "total_value") == 0 ->
   exists v,
     _calculate_position_size ds ps s = Ret v s /\
     5 <= v /\ v <= 30 /\
     (20 <= cash_percentage_of ps -> cash_percentage_of ps <= 80 ->
      5 <= average proposed_size ds -> average proposed_size ds <= 30 ->
      v == average proposed_size ds) /\
     (cash_percentage_of ps < 20 ->
      10 <= average proposed_size ds -> average proposed_size ds <= 60 ->
      v == average proposed_size ds * (5 # 10)) /\
     (80 < cash_percentage_of ps ->
      5 <= average proposed_size ds * (12 # 10) ->
      average proposed_size ds <= 25 ->
      v == average proposed_size ds * (12 # 10))).
Proof.
  split; [apply _calculate_position_size_state|].
  split; [intros ->; reflexivity|].
  split.
  - intros Hne Hz. destruct ds as [|d0 ds]; [congruence|].
    unfold _calculate_position_size.
    apply Qeq_bool_iff in Hz. rewrite Hz. reflexivity.
  - intros Hne Hz. destruct ds as [|d0 ds]; [congruence|].
    unfold _calculate_position_size.
    apply Qeq_bool_false in Hz. rewrite Hz.
    fold (cash_percentage_of ps).
    pose proof (foldl_sum_over proposed_size (d0 :: ds) 0) as Hsum.
    unfold proposed_size in Hsum at 1.
    unfold average. cbv iota.
    set (l := d0 :: ds) in *.
    set (total := foldl _ 0 l) in *.
    assert (Havg : total / len l == sum_over proposed_size l / len l).
    { rewrite Hsum. field.
      pose proof (len_pos d0 ds) as Hn. fold l in Hn. lra. }
    set (avg := sum_over proposed_size l / len l) in *.
    set (a := total / len l) in *.
    unfold mret, M_ret. eexists. split; [reflexivity|].
    unfold py_min, py_max, TradingConfig.MIN_POSITION_SIZE,
      TradingConfig.MAX_POSITION_SIZE.
    set (cp := cash_percentage_of ps).
    destruct (Qltb cp 20) eqn:E20;
      [apply Qltb_true in E20
      |apply Qltb_false in E20;
       destruct (Qgtb cp 80) eqn:E80;
       [apply Qgtb_true in E80 | apply Qgtb_false in E80]];
      repeat match goal with
             | |- context [Qgtb ?x ?y] =>
                 let E := fresh "E" in
                 destruct (Qgtb x y) eqn:E;
                 [apply Qgtb_true in E | apply Qgtb_false in E]
             | |- context [Qltb ?x ?y] =>
                 let E := fresh "E" in
                 destruct (Qltb x y) eqn:E;
                 [apply Qltb_true in E | apply Qltb_false in E]
             end;
      (split; [lra|]); (split; [lra|]);
      (split; [intros; lra|]); (split; intros; lra).
Qed.

Lemma _calculate_position_size_range_witness :
  _calculate_position_size
    [vote_of DT_BUY 80 None; vote_of DT_HOLD 50 None]
    zero_value_portfolio_state tt
  = Raise ZeroDivisionError tt /\
  exists v,
    _calculate_position_size
      [vote_of DT_BUY 80 None; vote_of DT_HOLD 50 None]
      sample_portfolio_state tt = Ret v tt /\
    v == 10.
Proof.
  split.
  - refine (proj1 (proj2 (proj2
              (_calculate_position_size_range
                 [vote_of DT_BUY 80 None; vote_of DT_HOLD 50 None]
                 zero_value_portfolio_state tt))) _ _).
    + clear. discriminate.
    + vm_compute. reflexivity.
  - destruct (proj2 (proj2 (proj2
                (_calculate_position_size_range
                   [vote_of DT_BUY 80 None; vote_of DT_HOLD 50 None]
                   sample_portfolio_state tt))))
      as (v & E & _ & _ & Hmid & _).
    + clear. discriminate.
    + vm_compute. clear. discriminate.
    + exists v. split; [exact E|].
      rewrite Hmid; [vm_compute; reflexivity| | | |];
        vm_compute; clear; discriminate.
Defined.

(** ** The decision as a whole *)

(** X19.  [_make_final_decision] never touches the agent.  It raises, with
    [ZeroDivisionError], exactly when there is at least one vote and the
    portfolio dictionary holds a total value of zero; otherwise (no
    votes, or a total value that is absent or not zero) it returns a
    decision for the analysed symbol that carries the votes as given, a
    position size between 5 and 30, and as next interval one of the
    keys of [TradingConfig.DATA_INTERVALS]. *)
Theorem _make_final_decision_outcome {S} (analysis_data : AnalysisData.t)
    (ds : list AgentDecision.t) (ps : gmap string Q) (s : S) :
  state_of (_make_final_decision analysis_data ds ps s) = s /\
  (ds <> [] -> default 1 (ps !! "total_value") == 0 ->
   _make_final_decision analysis_data ds ps s = Raise ZeroDivisionError s) /\
  (ds = [] \/ ~ default 1 (ps !! "total_value") == 0 ->
   exists d interval,
     _make_final_decision analysis_data ds ps s = Ret d s /\
     MainAgentDecision.symbol d = AnalysisData.symbol analysis_data /\
     MainAgentDecision.agent_decisions d = ds /\
     5 <= MainAgentDecision.position_size d /\
     MainAgentDecision.position_size d <= 30 /\
     MainAgentDecision.next_interval d = Some interval /\
     is_Some (TradingConfig.DATA_INTERVALS !! interval)).
Proof.
  destruct (_calculate_position_size_cases ds ps s)
    as (Hst & Hnil & Hraise & Hret).
  assert (Hint : forall a c,
             is_Some (TradingConfig.DATA_INTERVALS
                      !! _determine_next_interval a c)).
  { intros a c. unfold _determine_next_interval.
    destruct (_ && _); [vm_compute; eauto|].
    destruct (_ && _); [vm_compute; eauto|].
    destruct (Qgtb c 70); [vm_compute; eauto|].
    destruct (Qgtb c 50); vm_compute; eauto. }
  unfold _make_final_decision. unfold mbind, M_bind, mret, M_ret.
  destruct (_calculate_risk_levels _ _) as [stop_loss take_profit].
  split; [|split].
  - destruct (_calculate_position_size ds ps s); exact Hst.
  - intros Hne Hz. rewrite (Hraise Hne Hz). reflexivity.
  - intros [->|Hz].
    + rewrite (Hnil eq_refl). eexists _, _. split; [reflexivity|]. cbn.
      split; [reflexivity|]. split; [reflexivity|].
      split; [vm_compute; discriminate|]. split; [vm_compute; discriminate|].
      split; [reflexivity|]. apply Hint.
    + destruct ds as [|d0 ds].
      * rewrite (Hnil eq_refl). eexists _, _. split; [reflexivity|]. cbn.
        split; [reflexivity|]. split; [reflexivity|].
        split; [vm_compute; discriminate|].
        split; [vm_compute; discriminate|].
        split; [reflexivity|]. apply Hint.
      * destruct (Hret ltac:(discriminate) Hz) as (v & -> & H5 & H30).
        eexists _, _. split; [reflexivity|]. cbn [MainAgentDecision.symbol
          MainAgentDecision.agent_decisions MainAgentDecision.position_size
          MainAgentDecision.next_interval].
        split; [reflexivity|]. split; [reflexivity|].
        split; [exact H5|]. split; [exact H30|].
        split; [reflexivity|]. apply Hint.
Qed.

Lemma _make_final_decision_outcome_witness :
  _make_final_decision sample_analysis
    [vote_of DT_BUY 80 None] zero_value_portfolio_state tt
  = Raise ZeroDivisionError tt /\
  exists d,
    _make_final_decision sample_analysis
      [vote_of DT_BUY 80 None] sample_portfolio_state tt = Ret d tt /\
    MainAgentDecision.position_size d <= 30.
Proof.
  split.
  - refine (proj1 (proj2
              (_make_final_decision_outcome sample_analysis
                 [vote_of DT_BUY 80 None] zero_value_portfolio_state tt))
              _ _).
    + clear. discriminate.
    + vm_compute. reflexivity.
  - destruct (proj2 (proj2
                (_make_final_decision_outcome sample_analysis
                   [vote_of DT_BUY 80 None] sample_portfolio_state tt)))
      as (d & interval & E & _ & _ & _ & H30 & _).
    + right. vm_compute. clear. discriminate.
    + exists d. split; [exact E | exact H30].
Defined.

(** ** Stop loss and take profit *)

(** X20.  [_calculate_risk_levels] always yields both levels.  For a positive
    price the stop loss lies strictly between 0 and the price, the take
    profit strictly above the price, and the distance to the take profit
    is never smaller than the distance to the stop loss.  For a price
    that is not positive the order is reversed: the take profit is at or
    below the price and the stop loss at or above it.  For a price that
    is not negative, a higher risk level never raises either level: the
    stop loss is wider and the take profit nearer. *)
Theorem _calculate_risk_levels_bracket (current_price : Q)
    (r r' : RiskLevel) :
  exists stop_loss take_profit stop_loss' take_profit',
    _calculate_risk_levels current_price r
    = (Some stop_loss, Some take_profit) /\
    _calculate_risk_levels current_price r'
    = (Some stop_loss', Some take_profit') /\
    (0 < current_price ->
     0 < stop_loss /\ stop_loss < current_price /\
     current_price < take_profit /\
     current_price - stop_loss <= take_profit - current_price) /\
    (current_price <= 0 ->
     take_profit <= current_price /\ current_price <= stop_loss) /\
    (0 <= current_price -> risk_scores r <= risk_scores r' ->
     stop_loss' <= stop_loss /\ take_profit' <= take_profit).
Proof.
  destruct r, r'; cbn -[Qmult Qplus Qminus];
    unfold TradingConfig.STOP_LOSS_PERCENTAGE,
      TradingConfig.TAKE_PROFIT_PERCENTAGE;
    eexists _, _, _, _;
    (split; [reflexivity|]); (split; [reflexivity|]);
    (split; [intros H; repeat split; lra|]);
    (split; [intros H; split; lra|]);
    intros H Hr; split; lra.
Qed.

Lemma _calculate_risk_levels_bracket_witness :
  exists stop_loss take_profit,
    _calculate_risk_levels 1000 LOW = (Some stop_loss, Some take_profit) /\
    0 < stop_loss /\ stop_loss < 1000 /\ 1000 < take_profit.
Proof.
  destruct (_calculate_risk_levels_bracket 1000 LOW HIGH)
    as (sl & tp & sl' & tp' & E & _ & H & _).
  exists sl, tp. split; [exact E|].
  destruct H as (H1 & H2 & H3 & _); [reflexivity|].
  split; [exact H1|]. split; [exact H2 | exact H3].
Defined.

(** ** The combined risk level *)

Lemma foldl_risk_score ds a :
  foldl (fun acc d =>
           match AgentDecision.risk_assessment d with
           | Some r => acc + risk_scores r
           | None => acc + 3
           end) a ds
  == a + sum_over risk_score_of ds.
Proof.
  revert a. induction ds as [|d ds IH]; intros a; cbn [foldl sum_over foldr].
  - ring.
  - rewrite IH. fold (sum_over risk_score_of ds).
    change (risk_score_of d)
      with (match AgentDecision.risk_assessment d with
            | Some r => risk_scores r
            | None => 3
            end).
    destruct (AgentDecision.risk_assessment d); ring.
Qed.

Lemma len_cons d ds : len (d :: ds) == len ds + 1.
Proof.
  unfold len. cbn [length]. rewrite Nat2Z.inj_succ, <- Z.add_1_r.
  rewrite inject_Z_plus. reflexivity.
Qed.

Lemma len_nonneg ds : 0 <= len ds.
Proof.
  unfold len. change 0 with (inject_Z 0). rewrite <- Zle_Qle. lia.
Qed.

Lemma risk_score_of_range d : 1 <= risk_score_of d /\ risk_score_of d <= 5.
Proof.
  unfold risk_score_of.
  destruct (AgentDecision.risk_assessment d) as [[]|]; split;
    vm_compute; discriminate.
Qed.

Lemma sum_risk_score_range ds :
  len ds <= sum_over risk_score_of ds /\
  sum_over risk_score_of ds <= 5 * len ds.
Proof.
  induction ds as [|d ds [IH1 IH2]].
  - split; vm_compute; discriminate.
  - cbn [sum_over foldr]. fold (sum_over risk_score_of ds).
    rewrite len_cons. destruct (risk_score_of_range d). split; lra.
Qed.

Lemma sum_over_const (f : AgentDecision.t -> Q) (k : Q) ds :
  Forall (fun d => f d == k) ds -> sum_over f ds == k * len ds.
Proof.
  induction 1 as [|d ds Hd _ IH].
  - unfold len. cbn. ring.
  - cbn [sum_over foldr]. fold (sum_over f ds).
    rewrite len_cons, IH, Hd. ring.
Qed.

Lemma _determine_risk_level_near d0 ds :
  let l := d0 :: ds in
  risk_scores (_determine_risk_level l) - (1 # 2) <= average risk_score_of l /\
  average risk_score_of l <= risk_scores (_determine_risk_level l) + (1 # 2).
Proof.
  intros l. pose proof (len_pos d0 ds) as Hn. fold l in Hn.
  destruct (sum_risk_score_range l) as [B1 B2].
  pose proof (foldl_risk_score l 0) as Hsum.
  unfold _determine_risk_level, average. subst l. cbv iota.
  set (l := d0 :: ds) in *.
  set (total := foldl _ 0 l) in *.
  set (sr := sum_over risk_score_of l) in *.
  assert (Hlo : 1 <= sr / len l).
  { apply Qle_shift_div_l; [exact Hn | lra]. }
  assert (Hhi : sr / len l <= 5).
  { apply Qle_shift_div_r; [exact Hn | lra]. }
  assert (Havg : total / len l == sr / len l).
  { rewrite Hsum. field. lra. }
  set (avg := sr / len l) in *. set (x := total / len l) in *.
  destruct (Qleb x (15 # 10)) eqn:E1;
    [apply Qle_bool_iff in E1; cbn [risk_scores]; split; lra
    |apply Qleb_false in E1].
  destruct (Qleb x (25 # 10)) eqn:E2;
    [apply Qle_bool_iff in E2; cbn [risk_scores]; split; lra
    |apply Qleb_false in E2].
  destruct (Qleb x (35 # 10)) eqn:E3;
    [apply Qle_bool_iff in E3; cbn [risk_scores]; split; lra
    |apply Qleb_false in E3].
  destruct (Qleb x (45 # 10)) eqn:E4;
    [apply Qle_bool_iff in E4; cbn [risk_scores]; split; lra
    |apply Qleb_false in E4].
  cbn [risk_scores]. split; lra.
Qed.

(** X21.  For at least one vote, [_determine_risk_level] returns the level
    whose score (1 for very low up to 5 for very high) is nearest to the
    average score of the votes, a vote without an assessment scoring 3:
    the average is within one half of the returned level's score.  When
    every vote carries the same assessment that assessment is returned,
    and when no vote carries one the result is MEDIUM. *)
Theorem _determine_risk_level_nearest (ds : list AgentDecision.t) :
  ds <> [] ->
  risk_scores (_determine_risk_level ds) - (1 # 2)
  <= average risk_score_of ds /\
  average risk_score_of ds
  <= risk_scores (_determine_risk_level ds) + (1 # 2) /\
  (forall r,
     Forall (fun d => AgentDecision.risk_assessment d = Some r) ds ->
     _determine_risk_level ds = r) /\
  (Forall (fun d => AgentDecision.risk_assessment d = None) ds ->
   _determine_risk_level ds = MEDIUM).
Proof.
  intros Hne. destruct ds as [|d0 ds]; [congruence|]. clear Hne.
  destruct (_determine_risk_level_near d0 ds) as [Hlo Hhi].
  split; [exact Hlo|]. split; [exact Hhi|].
  pose proof (len_pos d0 ds) as Hn.
  assert (Hconst : forall k,
             Forall (fun d => risk_score_of d == k) (d0 :: ds) ->
             average risk_score_of (d0 :: ds) == k).
  { intros k Hk. unfold average. rewrite (sum_over_const _ k _ Hk).
    field. lra. }
  split.
  - intros r Hall.
    assert (Hk : average risk_score_of (d0 :: ds) == risk_scores r).
    { apply Hconst. eapply Forall_impl; [exact Hall|].
      intros d Hd. unfold risk_score_of. cbn beta in Hd. rewrite Hd.
      reflexivity. }
    rewrite Hk in Hlo, Hhi. clear - Hlo Hhi.
    destruct (_determine_risk_level (d0 :: ds)), r; cbn in Hlo, Hhi;
      first [reflexivity | exfalso; lra].
  - intros Hall.
    assert (Hk : average risk_score_of (d0 :: ds) == 3).
    { apply Hconst. eapply Forall_impl; [exact Hall|].
      intros d Hd. unfold risk_score_of. cbn beta in Hd. rewrite Hd.
      reflexivity. }
    rewrite Hk in Hlo, Hhi. clear - Hlo Hhi.
    destruct (_determine_risk_level (d0 :: ds)); cbn in Hlo, Hhi;
      first [reflexivity | exfalso; lra].
Qed.

Lemma _determine_risk_level_nearest_witness :
  _determine_risk_level
    [vote_of DT_BUY 80 (Some HIGH); vote_of DT_SELL 70 (Some HIGH)]
  = HIGH.
Proof.
  refine (proj1 (proj2 (proj2
            (_determine_risk_level_nearest
               [vote_of DT_BUY 80 (Some HIGH); vote_of DT_SELL 70 (Some HIGH)]
               _))) HIGH _).
  - clear. discriminate.
  - repeat constructor.
Defined.

(** ** The next data interval *)

(** X22.  The interval [_determine_next_interval] chooses is always a key of
    [TradingConfig.DATA_INTERVALS], so [_calculate_next_interval] of the
    session manager never falls back to its default for it: it gives the
    configured minutes, which are 5, 15 or 60.  A BUY or SELL with a
    confidence above 80 and any action with a confidence of at most 50
    wait 60 minutes.  On every text, known or not,
    [_calculate_next_interval] agrees with the configured table, with 60
    for a text that is not a key. *)
Theorem next_interval_minutes (final_action : ActionType) (confidence : Q)
    (interval : string) :
  let next := _determine_next_interval final_action confidence in
  TradingConfig.DATA_INTERVALS !! next
  = Some (TradingSession._calculate_next_interval next) /\
  (TradingSession._calculate_next_interval next = 5%Z \/
   TradingSession._calculate_next_interval next = 15%Z \/
   TradingSession._calculate_next_interval next = 60%Z) /\
  (80 < confidence -> final_action = BUY \/ final_action = SELL ->
   TradingSession._calculate_next_interval next = 60%Z) /\
  (confidence <= 50 ->
   TradingSession._calculate_next_interval next = 60%Z) /\
  TradingSession._calculate_next_interval interval
  = default 60%Z (TradingConfig.DATA_INTERVALS !! interval).
Proof.
  cbn zeta. unfold _determine_next_interval.
  destruct (Qgtb confidence 80) eqn:E80;
    [apply Qgtb_true in E80 | apply Qgtb_false in E80];
    destruct (Qgtb confidence 70) eqn:E70;
    [apply Qgtb_true in E70 | apply Qgtb_false in E70
    |apply Qgtb_true in E70 | apply Qgtb_false in E70];
    destruct (Qgtb confidence 50) eqn:E50;
    [apply Qgtb_true in E50 | apply Qgtb_false in E50
    |apply Qgtb_true in E50 | apply Qgtb_false in E50
    |apply Qgtb_true in E50 | apply Qgtb_false in E50
    |apply Qgtb_true in E50 | apply Qgtb_false in E50];
    try (exfalso; lra);
    destruct final_action; cbn [bool_decide andb];
    (split; [vm_compute; reflexivity|]);
    (split; [vm_compute; auto|]);
    (split; [intros H [G|G];
             first [ vm_compute; reflexivity
                   | clear - G; discriminate G | exfalso; lra ]|]);
    (split; [intros H; first [vm_compute; reflexivity | exfalso; lra]|]);
    reflexivity.
Qed.

Lemma next_interval_minutes_witness :
  TradingSession._calculate_next_interval
    (_determine_next_interval BUY 90) = 60%Z /\
  TradingSession._calculate_next_interval
    (_determine_next_interval HOLD 40) = 60%Z.
Proof.
  split.
  - refine (proj1 (proj2 (proj2
              (next_interval_minutes BUY 90 EmptyString))) _ _).
    + reflexivity.
    + left. reflexivity.
  - refine (proj1 (proj2 (proj2 (proj2
              (next_interval_minutes HOLD 40 EmptyString)))) _).
    vm_compute. clear. discriminate.
Defined.
